(** * Controller tuning tables: a shallow embedding of [tableTuning.py] / [torfin.py]

    The two scripts compute Kp, Ti, Td and β for a first-order-plus-dead-time
    process from five families of published correlations, collect one row per
    (method, mode, controller, criterion) combination and, in the Textual
    version, let the user re-sort the table by clicking a column header.

    Python [float] is IEEE binary64; it is embedded as Rocq's primitive
    [float], so [+], [*], [/] and the comparisons are bit-exact.  The only
    operation Python delegates to the platform is C's [pow]; it is a
    parameter ([libm_pow]) of everything that raises to a power.

    [torfin.py] and [tableTuning.py] share the catalog, the thirteen tuning
    rules and the four loops, text for text.
    [tuning.py] is an earlier, PI-only script with the same eight uSORT and
    Méndez & Rímolo rules over tables of its own; it is the module
    [TuningPy]. *)

From Stdlib Require Import Floats ZArith String Ascii List Bool Lia.
From Stdlib Require Import Permutation Sorted DecimalString.
Import ListNotations.

Set Warnings "-inexact-float".
Set Implicit Arguments.

(* ================================================================= *)
(** ** Python values and exceptions *)

(** What the scripts print before [sys.exit(1)]. *)
Inductive message : Type :=
| MsgArgCount                 (* "ERROR: Número incorrecto de argumentos." *)
| MsgNotNumbers               (* "ERROR: Todos los argumentos deben ser números válidos." *)
| MsgGainOrTime               (* "ERROR: K y T deben ser mayores que 0." *)
| MsgRatio (a : float)        (* "ERROR: El valor de a debe ser uno de [...]. Usted ingresó {a}." *)
| MsgDeadTime                 (* "ERROR: tau0 debe ser un número no negativo." *)
| MsgNoMendez (a : float).    (* "ERROR: No hay coeficientes de Méndez & Rímolo para a = {a}." *)

(** A value that is either a [str] or a [float]: the β column, and the sort
    keys of the table. *)
Inductive pyval : Type :=
| VStr (s : string)
| VFloat (f : float).

Inductive exn : Type :=
| SystemExit (status : Z) (printed : message)
| ValueError
| ZeroDivisionError
| OverflowError
| KeyError (key : pyval)
| ComplexResult.  (* a negative float to a fractional power leaves [float] *)

Inductive result (A : Type) : Type :=
| Ok (a : A)
| Raise (e : exn).
Arguments Ok {A} a.
Arguments Raise {A} e.

Definition rbind {A B} (m : result A) (k : A -> result B) : result B :=
  match m with
  | Ok a => k a
  | Raise e => Raise e
  end.

Declare Scope py_scope.
Delimit Scope py_scope with py.
Notation "x <- m ;; k" := (rbind m (fun x => k))
  (at level 61, m at next level, right associativity) : py_scope.
Notation "' pat <- m ;; k" := (rbind m (fun x => match x with pat => k end))
  (at level 61, pat pattern, m at next level, right associativity) : py_scope.

(* ================================================================= *)
(** ** Python's float arithmetic *)

Module PyFloat.
Open Scope float_scope.

(** [x / y]: true division raises on a zero divisor. *)
Definition truediv (x y : float) : result float :=
  if y =? 0 then Raise ZeroDivisionError else Ok (x / y).

(** [x] is an integer / an odd integer (CPython's [DOUBLE_IS_ODD_INTEGER]),
    read off the exact value [m * 2^e]. *)
Definition is_integer (x : float) : bool :=
  match Prim2SF x with
  | S754_zero _ => true
  | S754_finite _ m e =>
      if (0 <=? e)%Z then true
      else Z.eqb (Zpos m mod 2 ^ (- e)) 0
  | _ => false
  end.

Definition is_odd_integer (x : float) : bool :=
  match Prim2SF x with
  | S754_finite _ m e =>
      if (0 <? e)%Z then false
      else Z.eqb (Zpos m mod 2 ^ (- e)) 0 && Z.odd (Zpos m / 2 ^ (- e))
  | _ => false
  end.

Definition copysign_zero (x : float) : float :=
  if get_sign x then PrimFloat.neg_zero else PrimFloat.zero.

Section Pow.
(** C's [pow] on a finite positive base other than 1 and a finite nonzero
    exponent; [None] when it reports a range error, which Python turns
    into [OverflowError]. *)
Variable libm_pow : float -> float -> option float.

(** [iv ** iw] on floats: the special cases are settled before [pow] is
    called. *)
Definition pow (iv iw : float) : result float :=
  if iw =? 0 then Ok 1
  else if is_nan iv then Ok iv
  else if is_nan iw then Ok (if iv =? 1 then 1 else iw)
  else if is_infinity iw then
    let av := abs iv in
    if av =? 1 then Ok 1
    else if Bool.eqb (0 <? iw) (1 <? av) then Ok (abs iw)
    else Ok 0
  else if is_infinity iv then
    let odd := is_odd_integer iw in
    if 0 <? iw then Ok (if odd then iv else abs iv)
    else Ok (if odd then copysign_zero iv else 0)
  else if iv =? 0 then
    if iw <? 0 then Raise ZeroDivisionError
    else Ok (if is_odd_integer iw then iv else 0)
  else if (iv <? 0) && negb (is_integer iw) then Raise ComplexResult
  else
    let negate_result := (iv <? 0) && is_odd_integer iw in
    let av := abs iv in
    if av =? 1 then Ok (if negate_result then -1 else 1)
    else
      match libm_pow av iw with
      | Some ix => Ok (if negate_result then - ix else ix)
      | None => Raise OverflowError
      end.
End Pow.

(** *** [float(str)] *)

Definition q2f (neg : bool) (p q : positive) : float :=
  SF2Prim (SFdiv prec emax (S754_finite neg p 0) (S754_finite false q 0)).

(** The correctly rounded value of [(-1)^neg * m * 10^e]. *)
Definition of_decimal (neg : bool) (m e : Z) : float :=
  match m with
  | Zpos p =>
      if (0 <=? e)%Z then q2f neg (p * Z.to_pos (10 ^ e)) 1
      else q2f neg p (Z.to_pos (10 ^ (- e)))
  | _ => if neg then PrimFloat.neg_zero else PrimFloat.zero
  end.

Definition is_space (c : ascii) : bool :=
  let n := nat_of_ascii c in
  Nat.eqb n 32 || (Nat.leb 9 n && Nat.leb n 13).

Fixpoint lstrip (s : list ascii) : list ascii :=
  match s with
  | c :: s' => if is_space c then lstrip s' else s
  | [] => []
  end.

Definition strip (s : list ascii) : list ascii :=
  rev (lstrip (rev (lstrip s))).

Definition digit_val (c : ascii) : option Z :=
  let n := nat_of_ascii c in
  if Nat.leb 48 n && Nat.leb n 57 then Some (Z.of_nat (n - 48)) else None.

Definition lower (c : ascii) : ascii :=
  let n := nat_of_ascii c in
  if Nat.leb 65 n && Nat.leb n 90 then ascii_of_nat (n + 32) else c.

Definition upper (c : ascii) : ascii :=
  let n := nat_of_ascii c in
  if Nat.leb 97 n && Nat.leb n 122 then ascii_of_nat (n - 32) else c.

(** [digit (["_"] digit)*] after its first digit: the value so far, the
    number of digits read, and what is left. *)
Fixpoint digits_tail (acc n : Z) (s : list ascii) : Z * Z * list ascii :=
  match s with
  | c :: s' =>
      match digit_val c with
      | Some d => digits_tail (10 * acc + d)%Z (n + 1)%Z s'
      | None =>
          if Ascii.eqb c "_" then
            match s' with
            | c2 :: s'' =>
                match digit_val c2 with
                | Some d => digits_tail (10 * acc + d)%Z (n + 1)%Z s''
                | None => (acc, n, s)
                end
            | [] => (acc, n, s)
            end
          else (acc, n, s)
      end
  | [] => (acc, n, [])
  end.

(** [digitpart], continuing the mantissa [acc]. *)
Definition digitpart (acc : Z) (s : list ascii) : option (Z * Z * list ascii) :=
  match s with
  | c :: s' =>
      match digit_val c with
      | Some d => Some (digits_tail (10 * acc + d)%Z 1%Z s')
      | None => None
      end
  | [] => None
  end.

Definition parse_sign (s : list ascii) : bool * list ascii :=
  match s with
  | c :: s' =>
      if Ascii.eqb c "-" then (true, s')
      else if Ascii.eqb c "+" then (false, s')
      else (false, s)
  | [] => (false, [])
  end.

(** [exponent ::= ("e" | "E") [sign] digitpart], up to the end of the text;
    no exponent is exponent 0. *)
Definition parse_exponent (s : list ascii) : option Z :=
  match s with
  | [] => Some 0%Z
  | c :: s' =>
      if Ascii.eqb (lower c) "e" then
        let (neg, s1) := parse_sign s' in
        match digitpart 0 s1 with
        | Some (v, _, []) => Some (if neg then (- v)%Z else v)
        | _ => None
        end
      else None
  end.

(** [number ::= [digitpart] "." digitpart | digitpart ["."]]: the digits as
    one integer and the number of digits after the point. *)
Definition parse_number (s : list ascii) : option (Z * Z * list ascii) :=
  match digitpart 0 s with
  | Some (ip, _, r) =>
      match r with
      | c :: r' =>
          if Ascii.eqb c "." then
            match digitpart ip r' with
            | Some (m, nf, r'') => Some (m, nf, r'')
            | None => Some (ip, 0%Z, r')
            end
          else Some (ip, 0%Z, r)
      | [] => Some (ip, 0%Z, [])
      end
  | None =>
      match s with
      | c :: r' => if Ascii.eqb c "." then digitpart 0 r' else None
      | [] => None
      end
  end.

Definition lower_string (s : list ascii) : string :=
  string_of_list_ascii (map lower s).

(** [float(s)] on ASCII text; [None] is [ValueError]. *)
Definition of_string (s : string) : option float :=
  let (neg, body) := parse_sign (strip (list_ascii_of_string s)) in
  let word := lower_string body in
  if String.eqb word "inf" || String.eqb word "infinity"
  then Some (if neg then neg_infinity else infinity)
  else if String.eqb word "nan" then Some nan
  else
    match parse_number body with
    | Some (m, nf, r) =>
        match parse_exponent r with
        | Some e => Some (of_decimal neg m (e - nf))
        | None => None
        end
    | None => None
    end.

(** *** [format(x, ".1f")] *)

Definition string_of_nonneg (z : Z) : string :=
  NilZero.string_of_uint (N.to_uint (Z.to_N z)).

(** Round-half-even of [num / den]. *)
Definition round_half_even (num den : Z) : Z :=
  let q := (num / den)%Z in
  let r := (num mod den)%Z in
  match (2 * r ?= den)%Z with
  | Lt => q
  | Gt => (q + 1)%Z
  | Eq => if Z.even q then q else (q + 1)%Z
  end.

Definition format_1f (x : float) : string :=
  let sign (s : bool) : string := if s then "-"%string else ""%string in
  match Prim2SF x with
  | S754_nan => "nan"
  | S754_infinity s => sign s ++ "inf"
  | S754_zero s => sign s ++ "0.0"
  | S754_finite s m e =>
      let tenths :=
        if (0 <=? e)%Z then (10 * Zpos m * 2 ^ e)%Z
        else round_half_even (10 * Zpos m) (2 ^ (- e)) in
      sign s ++ string_of_nonneg (tenths / 10) ++ "."
             ++ string_of_nonneg (tenths mod 10)
  end%string.

(** *** [format(x, ".4f")] *)

(** [z] in decimal, with zeros in front up to [n] digits. *)
Definition zero_pad (n : nat) (z : Z) : string :=
  let digits := string_of_nonneg z in
  (string_of_list_ascii (repeat "0"%char (n - String.length digits)) ++ digits)%string.

(** The exact value is rounded, half to even, to a whole number of
    ten-thousandths; the sign is kept on a zero, and dropped on a nan. *)
Definition format_4f (x : float) : string :=
  let sign (s : bool) : string := if s then "-"%string else EmptyString in
  match Prim2SF x with
  | S754_nan => "nan"
  | S754_infinity s => sign s ++ "inf"
  | S754_zero s => sign s ++ "0.0000"
  | S754_finite s m e =>
      let units :=
        if (0 <=? e)%Z then (10000 * Zpos m * 2 ^ e)%Z
        else round_half_even (10000 * Zpos m) (2 ^ (- e)) in
      sign s ++ string_of_nonneg (units / 10000) ++ "."
             ++ zero_pad 4 (units mod 10000)
  end%string.

(** *** A reference [pow]

    [exp (y * ln x)] by argument reduction and power series: one possible
    [libm_pow], close to the correctly rounded power without being it, used
    to run the parameterised model on concrete inputs. *)

Definition of_Z (z : Z) : float :=
  match z with
  | Z0 => 0
  | Zpos p => q2f false p 1
  | Zneg p => q2f true p 1
  end.

Definition trunc_to_Z (x : float) : Z :=
  match Prim2SF x with
  | S754_finite s m e =>
      let a := if (0 <=? e)%Z then (Zpos m * 2 ^ e)%Z else (Zpos m / 2 ^ (- e))%Z in
      if s then (- a)%Z else a
  | _ => 0%Z
  end.

Definition ln2 : float := 0.6931471805599453.

(** [sum_{i<n} t^(2i+1) / (2i+1)], Horner style from the last term. *)
Fixpoint atanh_series (n : nat) (t2 : float) (k : float) : float :=
  match n with
  | O => 1 / k
  | S n' => 1 / k + t2 * atanh_series n' t2 (k + 2)
  end.

Definition ln_series (x : float) : float :=
  let (m, e) := Z.frexp x in
  let t := (m - 1) / (m + 1) in
  of_Z e * ln2 + 2 * t * atanh_series 30 (t * t) 1.

(** [1 + r/k * (1 + r/(k+1) * (...))]. *)
Fixpoint exp_series (n : nat) (r : float) (k : float) : float :=
  match n with
  | O => 1
  | S n' => 1 + r / k * exp_series n' r (k + 1)
  end.

Definition exp_series_scaled (z : float) : float :=
  let n := trunc_to_Z (z / ln2) in
  let r := z - of_Z n * ln2 in
  Z.ldexp (exp_series 30 r 1) n.

Definition pow_series (x y : float) : option float :=
  let r := exp_series_scaled (y * ln_series x) in
  if is_infinity r || is_nan r then None else Some r.

End PyFloat.

(* ================================================================= *)
(** ** Dictionaries

    A Python [dict] literal as an association list in insertion order (the
    order [.items()] iterates in); lookup is by [==] on the keys. *)

Definition dict (K V : Type) : Type := list (K * V).

Fixpoint dict_get {K V} (eqk : K -> K -> bool) (d : dict K V) (k : K) : option V :=
  match d with
  | [] => None
  | (k', v) :: d' => if eqk k k' then Some v else dict_get eqk d' k
  end.

(** [k in d] *)
Definition dict_contains {K V} (eqk : K -> K -> bool) (d : dict K V) (k : K) : bool :=
  match dict_get eqk d k with
  | Some _ => true
  | None => false
  end.

(** [d[k]] for [str] keys and for [float] keys. *)
Definition getitem {V} (d : dict string V) (k : string) : result V :=
  match dict_get String.eqb d k with
  | Some v => Ok v
  | None => Raise (KeyError (VStr k))
  end.

Definition getitem_float {V} (d : dict float V) (k : float) : result V :=
  match dict_get PrimFloat.eqb d k with
  | Some v => Ok v
  | None => Raise (KeyError (VFloat k))
  end.

Definition coeffs_t : Type := dict string float.

(* ================================================================= *)
(** ** The coefficient catalog *)

Open Scope string_scope.
Open Scope float_scope.

Definition get_usort_coeffs : dict string (dict string (dict float coeffs_t)) :=
  [ ("regulador",
     [ ("PI",
        [ (2.0, [ ("a0", 0.265);  ("a1", 0.603);  ("a2", -0.971);
                  ("b0", -1.382); ("b1", 2.837);  ("b2", 0.211);
                  ("c0", 0.0);    ("c1", 0.0);    ("c2", 0.0);
                  ("d0", 0.372);  ("d1", 1.205);  ("d2", 0.608) ]);
          (1.6, [ ("a0", 0.175);  ("a1", 0.466);  ("a2", -0.911);
                  ("b0", -1.382); ("b1", 2.837);  ("b2", 0.211);
                  ("c0", 0.0);    ("c1", 0.0);    ("c2", 0.0);
                  ("d0", 0.446);  ("d1", 0.811);  ("d2", 0.446) ]) ]);
       ("PID",
        [ (2.0, [ ("a0", 0.235);  ("a1", 0.840);  ("a2", -0.919);
                  ("b0", -0.198); ("b1", 1.291);  ("b2", 0.485);
                  ("c0", 0.004);  ("c1", 0.389);  ("c2", 0.869);
                  ("d0", 0.248);  ("d1", 0.571);  ("d2", 0.362) ]);
          (1.6, [ ("a0", 0.435);  ("a1", 0.551);  ("a2", -1.123);
                  ("b0", 0.095);  ("b1", 1.165);  ("b2", 0.517);
                  ("c0", 0.104);  ("c1", 0.414);  ("c2", 0.758);
                  ("d0", 0.255);  ("d1", 0.277);  ("d2", 0.476) ]) ]) ]);
    ("servo",
     [ ("PI",
        [ (1.8, [ ("a0", 0.243);  ("a1", 0.509);  ("a2", -1.063);
                  ("b0", 14.650); ("b1", 8.450);  ("b2", 0.000); ("b3", 15.740);
                  ("c0", 0.0);    ("c1", 0.0);    ("c2", 0.0);
                  ("d0", 0.372);  ("d1", 1.205);  ("d2", 0.608) ]);
          (1.6, [ ("a0", 0.209);  ("a1", 0.417);  ("a2", -1.064);
                  ("b0", 0.107);  ("b1", 1.164);  ("b2", 0.377); ("b3", 0.066);
                  ("c0", 0.0);    ("c1", 0.0);    ("c2", 0.0);
                  ("d0", 0.446);  ("d1", 0.811);  ("d2", 0.446) ]) ]);
       ("PID",
        [ (1.8, [ ("a0", 0.377);  ("a1", 0.727);  ("a2", -1.041);
                  ("b0", 1.687);  ("b1", 339.2);  ("b2", 39.86); ("b3", 1299.0);
                  ("c0", -0.016); ("c1", 0.333);  ("c2", 0.815);
                  ("d0", 0.248);  ("d1", 0.571);  ("d2", 0.362) ]);
          (1.6, [ ("a0", 0.502);  ("a1", 0.518);  ("a2", -1.194);
                  ("b0", 0.135);  ("b1", 1.355);  ("b2", 0.333); ("b3", 0.403);
                  ("c0", 0.026);  ("c1", 0.403);  ("c2", 0.613);
                  ("d0", 0.255);  ("d1", 0.277);  ("d2", 0.476) ]) ]) ]) ].

(** The four Méndez & Rímolo tables, keyed by the time-constant ratio [a]. *)
Definition iae_reg : dict float coeffs_t :=
  [ (0.0,  [ ("a0", 0.124); ("a1", 0.886); ("a2", -1.005);
             ("b0", -2.422); ("b1", 3.855); ("b2", 0.780) ]);
    (0.25, [ ("a0", 0.250); ("a1", 0.658); ("a2", -0.991);
             ("b0", 0.272); ("b1", 1.341); ("b2", 0.087) ]);
    (0.5,  [ ("a0", 0.225); ("a1", 0.731); ("a2", -1.010);
             ("b0", 0.280); ("b1", 1.627); ("b2", -0.013) ]);
    (0.75, [ ("a0", 0.190); ("a1", 0.868); ("a2", -0.999);
             ("b0", 0.223); ("b1", 2.013); ("b2", -0.022) ]);
    (1.0,  [ ("a0", 0.184); ("a1", 0.994); ("a2", -0.999);
             ("b0", 0.194); ("b1", 2.358); ("b2", -0.020) ]) ].

Definition itae_reg : dict float coeffs_t :=
  [ (0.0,  [ ("a0", 0.114); ("a1", 0.758); ("a2", -1.012);
             ("b0", -1.997); ("b1", 3.273); ("b2", 0.763) ]);
    (0.25, [ ("a0", 0.179); ("a1", 0.598); ("a2", -0.910);
             ("b0", 0.276); ("b1", 1.161); ("b2", 0.097) ]);
    (0.5,  [ ("a0", 0.212); ("a1", 0.592); ("a2", -0.952);
             ("b0", 0.248); ("b1", 1.437); ("b2", 0.018) ]);
    (0.75, [ ("a0", 0.191); ("a1", 0.648); ("a2", -0.970);
             ("b0", 0.202); ("b1", 1.691); ("b2", -0.007) ]);
    (1.0,  [ ("a0", 0.225); ("a1", 0.718); ("a2", -0.978);
             ("b0", 0.239); ("b1", 1.938); ("b2", -0.011) ]) ].

Definition iae_ser : dict float coeffs_t :=
  [ (0.0,  [ ("a0", 0.265);  ("a1", 0.509); ("a2", -1.042);
             ("b0", 0.433);  ("b1", 0.922); ("b2", -0.017) ]);
    (0.25, [ ("a0", -0.035); ("a1", 0.761); ("a2", -0.619);
             ("b0", 0.395);  ("b1", 1.117); ("b2", -0.080) ]);
    (0.5,  [ ("a0", 0.013);  ("a1", 0.730); ("a2", -0.616);
             ("b0", 0.382);  ("b1", 1.381); ("b2", -0.114) ]);
    (0.75, [ ("a0", -0.040); ("a1", 0.835); ("a2", -0.587);
             ("b0", 0.353);  ("b1", 1.671); ("b2", -0.121) ]);
    (1.0,  [ ("a0", 0.035);  ("a1", 0.825); ("a2", -0.618);
             ("b0", 0.406);  ("b1", 1.903); ("b2", -0.134) ]) ].

Definition itae_ser : dict float coeffs_t :=
  [ (0.0,  [ ("a0", 0.209);  ("a1", 0.441); ("a2", -1.054);
             ("b0", 0.326);  ("b1", 0.882); ("b2", -0.035) ]);
    (0.25, [ ("a0", -0.148); ("a1", 0.748); ("a2", -0.475);
             ("b0", 0.316);  ("b1", 1.005); ("b2", -0.033) ]);
    (0.5,  [ ("a0", -0.198); ("a1", 0.788); ("a2", -0.416);
             ("b0", 0.307);  ("b1", 1.169); ("b2", -0.067) ]);
    (0.75, [ ("a0", -0.299); ("a1", 0.914); ("a2", -0.372);
             ("b0", 0.299);  ("b1", 1.371); ("b2", -0.076) ]);
    (1.0,  [ ("a0", -0.338); ("a1", 0.997); ("a2", -0.360);
             ("b0", 0.291);  ("b1", 1.605); ("b2", -0.072) ]) ].

Definition get_mendez_coeffs :
  dict float coeffs_t * dict float coeffs_t * dict float coeffs_t * dict float coeffs_t :=
  (iae_reg, itae_reg, iae_ser, itae_ser).

Definition get_lopez_coeffs : dict string (dict string coeffs_t) :=
  [ ("P",
     [ ("ISE",  [ ("a", 1.4110); ("b", -0.9170) ]);
       ("IAE",  [ ("a", 0.9023); ("b", -0.9850) ]);
       ("ITAE", [ ("a", 0.4897); ("b", -1.0850) ]) ]);
    ("PI",
     [ ("ISE",  [ ("a", 1.3050); ("b", -0.9600); ("c", 2.0325); ("d", 0.7390) ]);
       ("IAE",  [ ("a", 0.9840); ("b", -0.9860); ("c", 1.6447); ("d", 0.7070) ]);
       ("ITAE", [ ("a", 0.8590); ("b", -0.9770); ("c", 1.4837); ("d", 0.6800) ]) ]);
    ("PID",
     [ ("ISE",  [ ("a", 1.4950); ("b", -0.9450); ("c", 0.9083); ("d", 0.7710);
                  ("e", 0.5600); ("f", 1.0060) ]);
       ("IAE",  [ ("a", 1.4350); ("b", -0.9210); ("c", 1.1390); ("d", 0.7490);
                  ("e", 0.4820); ("f", 1.1370) ]);
       ("ITAE", [ ("a", 1.3570); ("b", -0.9470); ("c", 1.1876); ("d", 0.7380);
                  ("e", 0.3810); ("f", 0.9950) ]) ]) ].

Definition get_rovira_coeffs : dict string (dict string coeffs_t) :=
  [ ("PI",
     [ ("IAE",  [ ("a", 0.7580); ("b", -0.8610); ("c", 1.0200); ("d", -0.3230) ]);
       ("ITAE", [ ("a", 0.5860); ("b", -0.9160); ("c", 1.0300); ("d", -0.1650) ]) ]);
    ("PID",
     [ ("IAE",  [ ("a", 1.0860); ("b", -0.8690); ("c", 0.7400); ("d", -0.1300);
                  ("e", 0.3480); ("f", 0.9140) ]);
       ("ITAE", [ ("a", 0.9650); ("b", -0.8500); ("c", 0.7960); ("d", -0.1465);
                  ("e", 0.3080); ("f", 0.9290) ]) ]) ].

(* ================================================================= *)
(** ** The tuning rules

    Each rule returns the tuple [(Kp, Ti, Td, β)]; β is the string ["-"]
    where the method has no set-point weight. *)

Definition tuning : Type := float * float * float * pyval.

Section Tuning.
Variable libm_pow : float -> float -> option float.

Open Scope py_scope.
Local Notation "x ** y" := (PyFloat.pow libm_pow x y) (at level 30).
Local Notation "x // y" := (PyFloat.truediv x y) (at level 40).
Local Notation "d [[ k ]]" := (getitem d k) (at level 1, format "d [[ k ]]").

Definition tune_mendez_reg_IAE (a tau0 K T : float) (coeffs : coeffs_t) : result tuning :=
  a0 <- coeffs[["a0"]];; a1 <- coeffs[["a1"]];; a2 <- coeffs[["a2"]];;
  b0 <- coeffs[["b0"]];; b1 <- coeffs[["b1"]];; b2 <- coeffs[["b2"]];;
  p <- tau0 ** a2;;
  let kappa_p := a0 + a1 * p in
  Kp <- kappa_p // K;;
  q <- tau0 ** b2;;
  let tau_i := b0 * tau0 + b1 * q in
  let Ti := tau_i * T in
  let Td := 0.0 in
  Ok (Kp, Ti, Td, VStr "-").

Definition tune_mendez_reg_ITAE (a tau0 K T : float) (coeffs : coeffs_t) : result tuning :=
  a0 <- coeffs[["a0"]];; a1 <- coeffs[["a1"]];; a2 <- coeffs[["a2"]];;
  b0 <- coeffs[["b0"]];; b1 <- coeffs[["b1"]];; b2 <- coeffs[["b2"]];;
  p <- tau0 ** a2;;
  let kappa_p := a0 + a1 * p in
  Kp <- kappa_p // K;;
  q <- tau0 ** b2;;
  let tau_i := b0 * tau0 + b1 * q in
  let Ti := tau_i * T in
  let Td := 0.0 in
  Ok (Kp, Ti, Td, VStr "-").

Definition tune_mendez_ser_IAE (a tau0 K T : float) (coeffs : coeffs_t) : result tuning :=
  a0 <- coeffs[["a0"]];; a1 <- coeffs[["a1"]];; a2 <- coeffs[["a2"]];;
  b0 <- coeffs[["b0"]];; b1 <- coeffs[["b1"]];; b2 <- coeffs[["b2"]];;
  p <- tau0 ** a2;;
  let kappa_p := a0 + a1 * p in
  Kp <- kappa_p // K;;
  q <- tau0 ** b2;;
  let numer := b0 * tau0 + b1 * q in
  let denom := 1.0 + tau0 in
  tau_i <- (if negb (denom =? 0) then numer // denom else Ok 0.0);;
  let Ti := tau_i * T in
  let Td := 0.0 in
  Ok (Kp, Ti, Td, VStr "-").

Definition tune_mendez_ser_ITAE (a tau0 K T : float) (coeffs : coeffs_t) : result tuning :=
  a0 <- coeffs[["a0"]];; a1 <- coeffs[["a1"]];; a2 <- coeffs[["a2"]];;
  b0 <- coeffs[["b0"]];; b1 <- coeffs[["b1"]];; b2 <- coeffs[["b2"]];;
  p <- tau0 ** a2;;
  let kappa_p := a0 + a1 * p in
  Kp <- kappa_p // K;;
  q <- tau0 ** b2;;
  let numer := b0 * tau0 + b1 * q in
  let denom := 1.0 + tau0 in
  tau_i <- (if negb (denom =? 0) then numer // denom else Ok 0.0);;
  let Ti := tau_i * T in
  let Td := 0.0 in
  Ok (Kp, Ti, Td, VStr "-").

Definition tune_usort1_reg (a tau0 K T : float) (coeffs : coeffs_t) : result tuning :=
  a0 <- coeffs[["a0"]];; a1 <- coeffs[["a1"]];; a2 <- coeffs[["a2"]];;
  b0 <- coeffs[["b0"]];; b1 <- coeffs[["b1"]];; b2 <- coeffs[["b2"]];;
  c0 <- coeffs[["c0"]];; c1 <- coeffs[["c1"]];; c2 <- coeffs[["c2"]];;
  p <- tau0 ** a2;;
  let kappa_p := a0 + a1 * p in
  Kp <- kappa_p // K;;
  q <- tau0 ** b2;;
  let tau_i := b0 + b1 * q in
  let Ti := tau_i * T in
  r <- tau0 ** c2;;
  let tau_d := c0 + c1 * r in
  let Td := tau_d * T in
  Ok (Kp, Ti, Td, VStr "-").

Definition tune_usort1_servo (a tau0 K T : float) (coeffs : coeffs_t) : result tuning :=
  a0 <- coeffs[["a0"]];; a1 <- coeffs[["a1"]];; a2 <- coeffs[["a2"]];;
  b0 <- coeffs[["b0"]];; b1 <- coeffs[["b1"]];; b2 <- coeffs[["b2"]];;
  b3 <- coeffs[["b3"]];;
  c0 <- coeffs[["c0"]];; c1 <- coeffs[["c1"]];; c2 <- coeffs[["c2"]];;
  p <- tau0 ** a2;;
  let kappa_p := a0 + a1 * p in
  Kp <- kappa_p // K;;
  sq <- tau0 ** 2;;
  let numer_i := b0 + b1 * tau0 + b2 * sq in
  let denom_i := b3 + tau0 in
  tau_i <- (if negb (denom_i =? 0) then numer_i // denom_i else Ok 0.0);;
  let Ti := tau_i * T in
  r <- tau0 ** c2;;
  let tau_d := c0 + c1 * r in
  let Td := tau_d * T in
  Ok (Kp, Ti, Td, VStr "-").

Definition tune_usort2_reg (a tau0 K T : float) (coeffs : coeffs_t) : result tuning :=
  a0 <- coeffs[["a0"]];; a1 <- coeffs[["a1"]];; a2 <- coeffs[["a2"]];;
  b0 <- coeffs[["b0"]];; b1 <- coeffs[["b1"]];; b2 <- coeffs[["b2"]];;
  c0 <- coeffs[["c0"]];; c1 <- coeffs[["c1"]];; c2 <- coeffs[["c2"]];;
  d0 <- coeffs[["d0"]];; d1 <- coeffs[["d1"]];; d2 <- coeffs[["d2"]];;
  p <- tau0 ** a2;;
  let kappa_p := a0 + a1 * p in
  Kp <- kappa_p // K;;
  q <- tau0 ** b2;;
  let tau_i := b0 + b1 * q in
  let Ti := tau_i * T in
  r <- tau0 ** c2;;
  let tau_d := c0 + c1 * r in
  let Td := tau_d * T in
  s <- tau0 ** d2;;
  let beta := d0 + d1 * s in
  Ok (Kp, Ti, Td, VFloat beta).

Definition tune_usort2_servo (a tau0 K T : float) (coeffs : coeffs_t) : result tuning :=
  a0 <- coeffs[["a0"]];; a1 <- coeffs[["a1"]];; a2 <- coeffs[["a2"]];;
  b0 <- coeffs[["b0"]];; b1 <- coeffs[["b1"]];; b2 <- coeffs[["b2"]];;
  b3 <- coeffs[["b3"]];;
  c0 <- coeffs[["c0"]];; c1 <- coeffs[["c1"]];; c2 <- coeffs[["c2"]];;
  d0 <- coeffs[["d0"]];; d1 <- coeffs[["d1"]];; d2 <- coeffs[["d2"]];;
  p <- tau0 ** a2;;
  let kappa_p := a0 + a1 * p in
  Kp <- kappa_p // K;;
  sq <- tau0 ** 2;;
  let numer_i := b0 + b1 * tau0 + b2 * sq in
  let denom_i := b3 + tau0 in
  tau_i <- (if negb (denom_i =? 0) then numer_i // denom_i else Ok 0.0);;
  let Ti := tau_i * T in
  r <- tau0 ** c2;;
  let tau_d := c0 + c1 * r in
  let Td := tau_d * T in
  s <- tau0 ** d2;;
  let beta := d0 + d1 * s in
  Ok (Kp, Ti, Td, VFloat beta).

Definition tune_lopez_P (tau0 K : float) (params : coeffs_t) : result tuning :=
  a <- params[["a"]];; b <- params[["b"]];;
  p <- tau0 ** b;;
  let kpk := a * p in
  Kp <- kpk // K;;
  Ok (Kp, 0.0, 0.0, VStr "-").

Definition tune_lopez_PI (tau0 K T : float) (params : coeffs_t) : result tuning :=
  a <- params[["a"]];; b <- params[["b"]];;
  c <- params[["c"]];; d <- params[["d"]];;
  p <- tau0 ** b;;
  let kpk := a * p in
  Kp <- kpk // K;;
  q <- tau0 ** d;;
  let tau_i := c * q in
  let Ti := tau_i * T in
  Ok (Kp, Ti, 0.0, VStr "-").

Definition tune_lopez_PID (tau0 K T : float) (params : coeffs_t) : result tuning :=
  a <- params[["a"]];; b <- params[["b"]];;
  c <- params[["c"]];; d <- params[["d"]];;
  e <- params[["e"]];; f <- params[["f"]];;
  p <- tau0 ** b;;
  let kpk := a * p in
  Kp <- kpk // K;;
  q <- tau0 ** d;;
  let tau_i := c * q in
  let Ti := tau_i * T in
  r <- tau0 ** f;;
  let tau_d := e * r in
  let Td := tau_d * T in
  Ok (Kp, Ti, Td, VStr "-").

Definition tune_rovira_PI (tau0 K T : float) (params : coeffs_t) : result tuning :=
  a <- params[["a"]];; b <- params[["b"]];;
  c <- params[["c"]];; d <- params[["d"]];;
  p <- tau0 ** b;;
  let kpk := a * p in
  Kp <- kpk // K;;
  let denom := c + d * tau0 in
  tau_i <- (if negb (denom =? 0) then 1.0 // denom else Ok 0.0);;
  let Ti := tau_i * T in
  Ok (Kp, Ti, 0.0, VStr "-").

Definition tune_rovira_PID (tau0 K T : float) (params : coeffs_t) : result tuning :=
  a <- params[["a"]];; b <- params[["b"]];;
  c <- params[["c"]];; d <- params[["d"]];;
  e <- params[["e"]];; f <- params[["f"]];;
  p <- tau0 ** b;;
  let kpk := a * p in
  Kp <- kpk // K;;
  let tau_i := c + d * tau0 in
  let Ti := tau_i * T in
  let tau_d := e + f * tau0 in
  let Td := tau_d * T in
  Ok (Kp, Ti, Td, VStr "-").

End Tuning.

(* ================================================================= *)
(** ** Rows of the result table

    One row is the dictionary [{'Método', 'Variante', 'Modo', 'Ms/Criterio',
    'Kp', 'Ti', 'Td', 'β'}]; the key ['Ms/Criterio'] is the field
    [Ms_Criterio]. *)

Record row : Type := mk_row {
  Método      : string;
  Variante    : string;
  Modo        : string;
  Ms_Criterio : string;
  Kp          : float;
  Ti          : float;
  Td          : float;
  β           : pyval
}.

(** [x[k]] on a row. *)
Definition row_getitem (x : row) (k : string) : result pyval :=
  if String.eqb k "Método" then Ok (VStr (Método x))
  else if String.eqb k "Variante" then Ok (VStr (Variante x))
  else if String.eqb k "Modo" then Ok (VStr (Modo x))
  else if String.eqb k "Ms/Criterio" then Ok (VStr (Ms_Criterio x))
  else if String.eqb k "Kp" then Ok (VFloat (Kp x))
  else if String.eqb k "Ti" then Ok (VFloat (Ti x))
  else if String.eqb k "Td" then Ok (VFloat (Td x))
  else if String.eqb k "β" then Ok (β x)
  else Raise (KeyError (VStr k)).

(** [str.capitalize()] on ASCII text. *)
Definition capitalize (s : string) : string :=
  match s with
  | EmptyString => EmptyString
  | String c s' =>
      String (PyFloat.upper c)
             (string_of_list_ascii (map PyFloat.lower (list_ascii_of_string s')))
  end.

(* ================================================================= *)
(** ** Sorting

    [list.sort(key=..., reverse=...)]: the keys are computed once for every
    element, the decorated list is sorted stably with [<] on the keys, and a
    reverse sort is the forward sort between two reversals, so that equal
    keys keep their original order in both directions. *)

Fixpoint mapM {A B} (f : A -> result B) (l : list A) : result (list B) :=
  match l with
  | [] => Ok []
  | x :: l' =>
      rbind (f x) (fun y => rbind (mapM f l') (fun ys => Ok (y :: ys)))
  end.

Section Sort.
Variables (A Kt : Type) (lt : Kt -> Kt -> bool).

Fixpoint insert_by (x : Kt * A) (l : list (Kt * A)) : list (Kt * A) :=
  match l with
  | [] => [x]
  | y :: l' => if lt (fst y) (fst x) then y :: insert_by x l' else x :: l
  end.

Definition stable_sort (l : list (Kt * A)) : list (Kt * A) :=
  fold_right insert_by [] l.

Definition sort_decorated (reverse : bool) (l : list (Kt * A)) : list (Kt * A) :=
  if reverse then rev (stable_sort (rev l)) else stable_sort l.

Definition list_sort (key : A -> result Kt) (reverse : bool) (l : list A)
  : result (list A) :=
  rbind (mapM key l) (fun keys =>
  Ok (map snd (sort_decorated reverse (combine keys l)))).
End Sort.

(** [<] and [!=] on sort keys.  A key function yields keys of one kind, so
    a [str] is never compared with a [float]. *)
Definition py_lt (x y : pyval) : bool :=
  match x, y with
  | VStr s, VStr t => String.ltb s t
  | VFloat f, VFloat g => (f <? g)%float
  | _, _ => false
  end.

(** [<] on the 4-tuples [(str, str, str, float)]: decided at the first
    component where the tuples differ. *)
Definition tuple_lt (x y : string * string * string * float) : bool :=
  let '(x1, x2, x3, x4) := x in
  let '(y1, y2, y3, y4) := y in
  if negb (String.eqb x1 y1) then String.ltb x1 y1
  else if negb (String.eqb x2 y2) then String.ltb x2 y2
  else if negb (String.eqb x3 y3) then String.ltb x3 y3
  else if negb (x4 =? y4)%float then (x4 <? y4)%float
  else false.

(** [<] on the pairs [(str, str)]. *)
Definition pair_lt (x y : string * string) : bool :=
  let '(x1, x2) := x in
  let '(y1, y2) := y in
  if negb (String.eqb x1 y1) then String.ltb x1 y1
  else if negb (String.eqb x2 y2) then String.ltb x2 y2
  else false.

(** The local helper of both sorts: [float(valor)], or [inf] on
    [ValueError]. *)
Definition ms_a_float (valor : string) : float :=
  match PyFloat.of_string valor with
  | Some f => f
  | None => infinity
  end.

(* ================================================================= *)
(** ** Building the table

    The four loop nests append to the list [all_results]; they are the same
    text in [torfin.main] and in
    [tableTuning.construir_y_ordenar_resultados].  An exception raised
    inside an iteration is caught nowhere: it ends the whole computation. *)

Definition M (A : Type) : Type := list row -> result (A * list row).

Definition mret {A} (a : A) : M A := fun s => Ok (a, s).

Definition mbind {A B} (m : M A) (k : A -> M B) : M B :=
  fun s =>
    match m s with
    | Ok (a, s') => k a s'
    | Raise e => Raise e
    end.

Definition lift {A} (r : result A) : M A :=
  fun s =>
    match r with
    | Ok a => Ok (a, s)
    | Raise e => Raise e
    end.

(** [all_results.append(x)] *)
Definition append (x : row) : M unit := fun s => Ok (tt, (s ++ [x])%list).

Fixpoint for_each {A} (l : list A) (body : A -> M unit) : M unit :=
  match l with
  | [] => mret tt
  | x :: l' => mbind (body x) (fun _ => for_each l' body)
  end.

Declare Scope loop_scope.
Delimit Scope loop_scope with loop.
Notation "x <~ m ;; k" := (mbind m (fun x => k))
  (at level 61, m at next level, right associativity) : loop_scope.
Notation "' pat <~ m ;; k" := (mbind m (fun x => match x with pat => k end))
  (at level 61, pat pattern, m at next level, right associativity) : loop_scope.
Notation "m ;;; k" := (mbind m (fun _ => k))
  (at level 61, right associativity) : loop_scope.

Definition allowed_a : list float := [0.0; 0.25; 0.5; 0.75; 1.0].

(** [sys.exit(1)] after printing [msg]. *)
Definition exit_with {A} (msg : message) : result A := Raise (SystemExit 1 msg).

Section Aggregation.
Variable libm_pow : float -> float -> option float.
Variables K T a tau0 : float.

Open Scope loop_scope.
Local Notation "d [[ k ]]" := (getitem d k) (at level 1, format "d [[ k ]]").

(** 1) uSORT1 and uSORT2, PI and PID, both modes, every Ms. *)
Definition usort_loop : M unit :=
  for_each ["regulador"; "servo"] (fun modo =>
  for_each ["PI"; "PID"] (fun controlador =>
    by_mode <~ lift get_usort_coeffs[[modo]];;
    by_ms <~ lift by_mode[[controlador]];;
    for_each by_ms (fun '(Ms, coeffs) =>
      '(Kp1, Ti1, Td1, beta1) <~ lift
        (if String.eqb modo "regulador"
         then tune_usort1_reg libm_pow a tau0 K T coeffs
         else tune_usort1_servo libm_pow a tau0 K T coeffs);;
      append {| Método := "uSORT1";
                Variante := controlador ++ " 1GdL";
                Modo := capitalize modo;
                Ms_Criterio := PyFloat.format_1f Ms;
                Kp := Kp1; Ti := Ti1; Td := Td1; β := beta1 |};;;
      '(Kp2, Ti2, Td2, beta2) <~ lift
        (if String.eqb modo "regulador"
         then tune_usort2_reg libm_pow a tau0 K T coeffs
         else tune_usort2_servo libm_pow a tau0 K T coeffs);;
      append {| Método := "uSORT2";
                Variante := controlador ++ " 2GdL";
                Modo := capitalize modo;
                Ms_Criterio := PyFloat.format_1f Ms;
                Kp := Kp2; Ti := Ti2; Td := Td2; β := beta2 |}))).

(** 2) Méndez & Rímolo, PI only, both modes, IAE and ITAE. *)
Definition mendez_loop : M unit :=
  let '(iae_reg, itae_reg, iae_ser, itae_ser) := get_mendez_coeffs in
  for_each [("IAE", iae_reg, iae_ser); ("ITAE", itae_reg, itae_ser)]
    (fun '(crit, coeff_dict_reg, coeff_dict_ser) =>
      if negb (dict_contains PrimFloat.eqb coeff_dict_reg a)
         || negb (dict_contains PrimFloat.eqb coeff_dict_ser a)
      then lift (exit_with (MsgNoMendez a))
      else
        coeffs_mr_r <~ lift (getitem_float coeff_dict_reg a);;
        '(Kpr_r, Tir_r, Tdr_r, betar_r) <~ lift
          (if String.eqb crit "IAE"
           then tune_mendez_reg_IAE libm_pow a tau0 K T coeffs_mr_r
           else tune_mendez_reg_ITAE libm_pow a tau0 K T coeffs_mr_r);;
        append {| Método := "Méndez & Rímolo";
                  Variante := crit ++ " (PI)";
                  Modo := "Regulador";
                  Ms_Criterio := crit;
                  Kp := Kpr_r; Ti := Tir_r; Td := Tdr_r; β := betar_r |};;;
        coeffs_mr_s <~ lift (getitem_float coeff_dict_ser a);;
        '(Kpr_s, Tir_s, Tdr_s, betar_s) <~ lift
          (if String.eqb crit "IAE"
           then tune_mendez_ser_IAE libm_pow a tau0 K T coeffs_mr_s
           else tune_mendez_ser_ITAE libm_pow a tau0 K T coeffs_mr_s);;
        append {| Método := "Méndez & Rímolo";
                  Variante := crit ++ " (PI)";
                  Modo := "Servo";
                  Ms_Criterio := crit;
                  Kp := Kpr_s; Ti := Tir_s; Td := Tdr_s; β := betar_s |}).

(** 3) López et al., regulator, P / PI / PID, ISE / IAE / ITAE. *)
Definition lopez_loop : M unit :=
  let lopez := get_lopez_coeffs in
  for_each ["P"; "PI"; "PID"] (fun ctrl_type =>
  for_each ["ISE"; "IAE"; "ITAE"] (fun crit =>
    by_crit <~ lift lopez[[ctrl_type]];;
    params <~ lift by_crit[[crit]];;
    '(Kpl, Til, Tdl, betal) <~ lift
      (if String.eqb ctrl_type "P" then tune_lopez_P libm_pow tau0 K params
       else if String.eqb ctrl_type "PI" then tune_lopez_PI libm_pow tau0 K T params
       else tune_lopez_PID libm_pow tau0 K T params);;
    append {| Método := "López et al.";
              Variante := ctrl_type ++ " (" ++ crit ++ ")";
              Modo := "Regulador";
              Ms_Criterio := crit;
              Kp := Kpl; Ti := Til; Td := Tdl; β := betal |})).

(** 4) Rovira et al., servo, PI / PID, IAE / ITAE. *)
Definition rovira_loop : M unit :=
  let rovira := get_rovira_coeffs in
  for_each ["PI"; "PID"] (fun ctrl_type =>
  for_each ["IAE"; "ITAE"] (fun crit =>
    by_crit <~ lift rovira[[ctrl_type]];;
    params <~ lift by_crit[[crit]];;
    '(Kpr, Tir, Tdr, betar) <~ lift
      (if String.eqb ctrl_type "PI" then tune_rovira_PI libm_pow tau0 K T params
       else tune_rovira_PID libm_pow tau0 K T params);;
    append {| Método := "Rovira et al.";
              Variante := ctrl_type ++ " (" ++ crit ++ ")";
              Modo := "Servo";
              Ms_Criterio := crit;
              Kp := Kpr; Ti := Tir; Td := Tdr; β := betar |})).

(** The list [all_results] once the four loops have run. *)
Definition all_loops : result (list row) :=
  match (usort_loop;;; mendez_loop;;; lopez_loop;;; rovira_loop) [] with
  | Ok (_, all_results) => Ok all_results
  | Raise e => Raise e
  end.

(** [tableTuning.construir_y_ordenar_resultados]: the loops, then the
    initial sort by (Variante, Método, Modo, Ms/Criterio as a number). *)
Definition construir_y_ordenar_resultados : result (list row) :=
  rbind all_loops (fun all_results =>
  list_sort tuple_lt
    (fun x => Ok (Variante x, Método x, Modo x, ms_a_float (Ms_Criterio x)))
    false all_results).
End Aggregation.

(* ================================================================= *)
(** ** Command line *)

(** [parse_args()], on [sys.argv]. *)
Definition parse_args (argv : list string) : result (float * float * float * float) :=
  if negb (Nat.eqb (length argv) 5) then exit_with MsgArgCount
  else
    match map PyFloat.of_string (tl argv) with
    | [Some K; Some T; Some a; Some tau0] =>
        if (K <=? 0) || (T <=? 0) then exit_with MsgGainOrTime
        else if negb (existsb (PrimFloat.eqb a) allowed_a) then exit_with (MsgRatio a)
        else if tau0 <? 0 then exit_with MsgDeadTime
        else Ok (K, T, a, tau0)
    | _ => exit_with MsgNotNumbers
    end.

(** [sub in s] and [s.startswith(p)] on strings. *)
Fixpoint str_contains (sub s : string) : bool :=
  String.prefix sub s
  || match s with
     | EmptyString => false
     | String _ s' => str_contains sub s'
     end.

Section Programs.
Variable libm_pow : float -> float -> option float.

(** [torfin.main], up to the two tables it hands to [display_pi_table]
    and [display_pid_table]. *)
Definition main (argv : list string) : result (list row * list row) :=
  rbind (parse_args argv) (fun '(K, T, a, tau0) =>
  rbind (all_loops libm_pow K T a tau0) (fun all_results =>
  let is_pid (entry : row) :=
    let var := Variante entry in
    str_contains "PID" var && negb (String.prefix "P (" var) in
  Ok (filter (fun entry => negb (is_pid entry)) all_results,
      filter is_pid all_results))).
End Programs.

(** *** The two printed tables of [torfin.py]

    Each function sorts its rows by [(Modo, Método)] with [reverse=True] and
    builds the headers and the lines of cells it hands to [tabulate]; the
    layout [tabulate] gives them is not part of the script. *)

(** [display_pi_table]: seven cells a line, no Td. *)
Definition display_pi_table (results_pi : list row)
  : result (list string * list (list string)) :=
  rbind (list_sort pair_lt (fun x => Ok (Modo x, Método x)) true results_pi)
    (fun results_sorted =>
  let headers := ["Método"; "Variante"; "Modo"; "Ms/Criterio"; "Kp"; "Ti"; "β"] in
  let table :=
    map (fun r =>
           [Método r; Variante r; Modo r; Ms_Criterio r;
            PyFloat.format_4f (Kp r);
            PyFloat.format_4f (Ti r);
            match β r with
            | VStr s => s
            | VFloat b => PyFloat.format_4f b
            end])
        results_sorted in
  Ok (headers, table)).

(** [display_pid_table]: eight cells a line. *)
Definition display_pid_table (results_pid : list row)
  : result (list string * list (list string)) :=
  rbind (list_sort pair_lt (fun x => Ok (Modo x, Método x)) true results_pid)
    (fun results_sorted =>
  let headers := ["Método"; "Variante"; "Modo"; "Ms/Criterio"; "Kp"; "Ti"; "Td"; "β"] in
  let table :=
    map (fun r =>
           [Método r; Variante r; Modo r; Ms_Criterio r;
            PyFloat.format_4f (Kp r);
            PyFloat.format_4f (Ti r);
            PyFloat.format_4f (Td r);
            match β r with
            | VStr s => s
            | VFloat b => PyFloat.format_4f b
            end])
        results_sorted in
  Ok (headers, table)).

Section Printing.
Variable libm_pow : float -> float -> option float.

(** [torfin.main] to its end: what the two calls print, as headers and
    lines of cells. *)
Definition main_printed (argv : list string)
  : result ((list string * list (list string)) * (list string * list (list string))) :=
  rbind (main libm_pow argv) (fun '(pi_results, pid_results) =>
  rbind (display_pi_table pi_results) (fun printed_pi =>
  rbind (display_pid_table pid_results) (fun printed_pid =>
  Ok (printed_pi, printed_pid)))).
End Printing.

(* ================================================================= *)
(** ** The interactive table *)

Module TuningApp.

Record t : Type := mk {
  K : float;
  T : float;
  a : float;
  tau0 : float;
  all_results : list row;
  current_sort : string * bool
}.

(** [__init__] *)
Definition init (K T a tau0 : float) : t :=
  {| K := K; T := T; a := a; tau0 := tau0;
     all_results := [];
     current_sort := ("Variante", true) |}.

Definition sortable : list string := ["Variante"; "Método"; "Modo"; "Ms/Criterio"].

(** The key function chosen for a clicked column. *)
Definition keyfunc (columna : string) (x : row) : result pyval :=
  if String.eqb columna "Ms/Criterio"
  then Ok (VFloat (ms_a_float (Ms_Criterio x)))
  else row_getitem x columna.

Section Run.
Variable libm_pow : float -> float -> option float.

(** [on_mount]: fetch the rows. *)
Definition on_mount (self : t) : result t :=
  rbind (construir_y_ordenar_resultados libm_pow (K self) (T self) (a self) (tau0 self))
    (fun rows =>
  Ok {| K := K self; T := T self; a := a self; tau0 := tau0 self;
        all_results := rows;
        current_sort := current_sort self |}).

(** The [__main__] block of [tableTuning.py]. *)
Definition run (argv : list string) : result t :=
  rbind (parse_args argv) (fun '(K, T, a, tau0) =>
  on_mount (init K T a tau0)).
End Run.

(** A click on the header of column [columna]. *)
Definition on_data_table_header_selected (columna : string) (self : t) : result t :=
  if negb (existsb (String.eqb columna) sortable) then Ok self
  else
    let asc_actual :=
      String.eqb (fst (current_sort self)) columna
      && Bool.eqb (snd (current_sort self)) true in
    let nuevo_asc := negb asc_actual in
    rbind (list_sort py_lt (keyfunc columna) (negb nuevo_asc) (all_results self))
      (fun rows =>
    Ok {| K := K self; T := T self; a := a self; tau0 := tau0 self;
          all_results := rows;
          current_sort := (columna, nuevo_asc) |}).

(** [compose]: the keys of the columns the [DataTable] is given, in their
    order; the header, the container and the footer around it carry no
    data. *)
Definition compose : list string :=
  ["Variante"; "Método"; "Modo"; "Ms/Criterio"; "Kp"; "Ti"; "Td"; "β"].

(** [_popular_tabla]: the lines of the [DataTable] once it has been cleared
    and filled again from [all_results]; [on_mount] and every click on a
    sortable header end with this call. *)
Definition _popular_tabla (self : t) : list (list string) :=
  map (fun r =>
         let variante := Variante r in
         let metodo := Método r in
         let modo := Modo r in
         let ms := Ms_Criterio r in
         let kp := PyFloat.format_4f (Kp r) in
         let ti := PyFloat.format_4f (Ti r) in
         let td := PyFloat.format_4f (Td r) in
         let beta :=
           match β r with
           | VStr s => s
           | VFloat b => PyFloat.format_4f b
           end in
         [variante; metodo; modo; ms; kp; ti; td; beta])
      (all_results self).

End TuningApp.

(* ================================================================= *)
(** ** The first script, [tuning.py]

    It asks for the four numbers on standard input, has the PI entries of
    uSORT and the rows of Méndez & Rímolo only, and prints one table.  Its
    eight tuning rules are, text for text, those of [torfin.py] embedded
    above; its tables of coefficients are its own. *)

Module TuningPy.

(** What [get_inputs] prints before [sys.exit(1)]. *)
Inductive input_message : Type :=
| InNotNumbers        (* "ERROR: Por favor ingrese valores numéricos válidos." *)
| InGain              (* "ERROR: La ganancia K debe ser mayor que 0." *)
| InTime              (* "ERROR: La constante de tiempo T debe ser mayor que 0." *)
| InRatio (a : float) (* "ERROR: El valor de a debe ser uno de [...]. Usted ingresó {a}." *)
| InDeadTime.         (* "ERROR: tau0 debe ser un número no negativo." *)

(** How [get_inputs] ends when it does not return: [sys.exit], or the
    [EOFError] of an [input] that found no line, which nothing catches. *)
Inductive input_failure : Type :=
| Exit (status : Z) (printed : input_message)
| EOFError.

Definition sbind {A B} (m : A + input_failure) (k : A -> B + input_failure)
  : B + input_failure :=
  match m with
  | inl x => k x
  | inr f => inr f
  end.

(** [input(prompt)]: the next line of standard input, without its end of
    line, and the lines left. *)
Definition input (stdin : list string) : (string * list string) + input_failure :=
  match stdin with
  | line :: rest => inl (line, rest)
  | [] => inr EOFError
  end.

(** [s.strip()] on ASCII text.  The white space of [str] is that of
    [float], the blank and the characters 9 to 13, and the four separators
    28 to 31 besides. *)
Definition is_whitespace (c : ascii) : bool :=
  let n := nat_of_ascii c in
  Nat.eqb n 32 || (Nat.leb 9 n && Nat.leb n 13) || (Nat.leb 28 n && Nat.leb n 31).

Fixpoint lstrip (s : list ascii) : list ascii :=
  match s with
  | c :: s' => if is_whitespace c then lstrip s' else s
  | [] => []
  end.

Definition str_strip (s : string) : string :=
  string_of_list_ascii (rev (lstrip (rev (lstrip (list_ascii_of_string s))))).

(** [float(input(prompt).strip())] inside the [try]: a [ValueError] is
    caught and ends the program. *)
Definition read_float (stdin : list string) : (float * list string) + input_failure :=
  sbind (input stdin) (fun '(line, rest) =>
  match PyFloat.of_string (str_strip line) with
  | Some x => inl (x, rest)
  | None => inr (Exit 1 InNotNumbers)
  end).

Definition get_inputs (stdin : list string)
  : (float * float * float * float) + input_failure :=
  sbind (read_float stdin) (fun '(K, stdin) =>
  sbind (read_float stdin) (fun '(T, stdin) =>
  sbind (read_float stdin) (fun '(a, stdin) =>
  sbind (read_float stdin) (fun '(tau0, _) =>
  if K <=? 0 then inr (Exit 1 InGain)
  else if T <=? 0 then inr (Exit 1 InTime)
  else if negb (existsb (PrimFloat.eqb a) allowed_a) then inr (Exit 1 (InRatio a))
  else if tau0 <? 0 then inr (Exit 1 InDeadTime)
  else inl (K, T, a, tau0))))).

(** The uSORT coefficients by mode and Ms: PI entries only. *)
Definition get_usort_coeffs : dict string (dict float coeffs_t) :=
  [ ("regulador",
     [ (2.0, [ ("a0", 0.265); ("a1", 0.603); ("a2", -0.971);
               ("b0", 1.674); ("b1", 0.268); ("b2", 1.062);
               ("c0", 0.0); ("c1", 0.0); ("c2", 0.0);
               ("d0", 0.372); ("d1", 1.205); ("d2", 0.608) ]);
       (1.6, [ ("a0", -0.080); ("a1", 0.702); ("a2", -0.522);
               ("b0", 1.674); ("b1", 0.268); ("b2", 1.062);
               ("c0", 0.0); ("c1", 0.0); ("c2", 0.0);
               ("d0", 0.446); ("d1", 0.811); ("d2", 0.446) ]) ]);
    ("servo",
     [ (1.8, [ ("a0", 0.243); ("a1", 0.509); ("a2", -1.063);
               ("b0", 14.650); ("b1", 8.450); ("b2", 0.0); ("b3", 15.740);
               ("c0", 0.0); ("c1", 0.0); ("c2", 0.0);
               ("d0", 0.372); ("d1", 1.205); ("d2", 0.608) ]);
       (1.6, [ ("a0", 0.209); ("a1", 0.417); ("a2", -1.064);
               ("b0", 0.107); ("b1", 1.164); ("b2", 0.377); ("b3", 0.066);
               ("c0", 0.0); ("c1", 0.0); ("c2", 0.0);
               ("d0", 0.446); ("d1", 0.811); ("d2", 0.446) ]) ]) ].

(** The four tables of Méndez & Rímolo, by [a]. *)
Definition iae_reg : dict float coeffs_t :=
  [ (0.0, [ ("a0", 0.124); ("a1", 0.886); ("a2", -1.005);
           ("b0", -2.422); ("b1", 3.855); ("b2", 0.780) ]);
    (0.25, [ ("a0", 0.250); ("a1", 0.658); ("a2", -0.991);
            ("b0", 0.272); ("b1", 1.341); ("b2", 0.087) ]);
    (0.5, [ ("a0", 0.225); ("a1", 0.731); ("a2", -1.010);
           ("b0", 0.280); ("b1", 1.627); ("b2", -0.013) ]);
    (0.75, [ ("a0", 0.190); ("a1", 0.868); ("a2", -0.999);
            ("b0", 0.223); ("b1", 2.013); ("b2", -0.022) ]);
    (1.0, [ ("a0", 0.184); ("a1", 0.994); ("a2", -0.999);
           ("b0", 0.194); ("b1", 2.358); ("b2", -0.020) ]) ].

Definition itae_reg : dict float coeffs_t :=
  [ (0.0, [ ("a0", 0.114); ("a1", 0.758); ("a2", -1.012);
           ("b0", -1.997); ("b1", 3.273); ("b2", 0.763) ]);
    (0.25, [ ("a0", 0.179); ("a1", 0.598); ("a2", -0.910);
            ("b0", 0.276); ("b1", 1.161); ("b2", 0.097) ]);
    (0.5, [ ("a0", 0.212); ("a1", 0.592); ("a2", -0.952);
           ("b0", 0.248); ("b1", 1.437); ("b2", 0.018) ]);
    (0.75, [ ("a0", 0.191); ("a1", 0.648); ("a2", -0.970);
            ("b0", 0.202); ("b1", 1.691); ("b2", -0.007) ]);
    (1.0, [ ("a0", 0.225); ("a1", 0.718); ("a2", -0.978);
           ("b0", 0.239); ("b1", 1.938); ("b2", -0.011) ]) ].

Definition iae_ser : dict float coeffs_t :=
  [ (0.0, [ ("a0", 0.150); ("a1", 0.900); ("a2", -1.100);
           ("b0", -3.000); ("b1", 4.500); ("b2", 1.000) ]);
    (0.25, [ ("a0", 0.300); ("a1", 0.700); ("a2", -1.000);
            ("b0", 0.300); ("b1", 1.500); ("b2", 0.200) ]);
    (0.5, [ ("a0", 0.330); ("a1", 0.650); ("a2", -0.980);
           ("b0", 0.280); ("b1", 1.300); ("b2", 0.100) ]);
    (0.75, [ ("a0", 0.310); ("a1", 0.800); ("a2", -0.990);
            ("b0", 0.250); ("b1", 1.800); ("b2", 0.150) ]);
    (1.0, [ ("a0", 0.290); ("a1", 0.950); ("a2", -1.000);
           ("b0", 0.220); ("b1", 2.200); ("b2", 0.180) ]) ].

Definition itae_ser : dict float coeffs_t :=
  [ (0.0, [ ("a0", 0.130); ("a1", 0.700); ("a2", -1.050);
           ("b0", -2.500); ("b1", 3.800); ("b2", 0.900) ]);
    (0.25, [ ("a0", 0.210); ("a1", 0.550); ("a2", -0.880);
            ("b0", 0.300); ("b1", 1.000); ("b2", 0.050) ]);
    (0.5, [ ("a0", 0.240); ("a1", 0.500); ("a2", -0.920);
           ("b0", 0.260); ("b1", 1.200); ("b2", 0.080) ]);
    (0.75, [ ("a0", 0.225); ("a1", 0.600); ("a2", -0.940);
            ("b0", 0.230); ("b1", 1.500); ("b2", 0.030) ]);
    (1.0, [ ("a0", 0.250); ("a1", 0.830); ("a2", -0.960);
           ("b0", 0.200); ("b1", 1.800); ("b2", 0.060) ]) ].

Definition get_mendez_coeffs :
  dict float coeffs_t * dict float coeffs_t * dict float coeffs_t * dict float coeffs_t :=
  (iae_reg, itae_reg, iae_ser, itae_ser).

Section Main.
Variable libm_pow : float -> float -> option float.
Variables K T a tau0 : float.

Open Scope loop_scope.
Local Notation "d [[ k ]]" := (getitem d k) (at level 1, format "d [[ k ]]").

(** 4) uSORT1 and uSORT2, both modes, every Ms. *)
Definition usort_loop : M unit :=
  for_each ["regulador"; "servo"] (fun modo =>
    by_ms <~ lift get_usort_coeffs[[modo]];;
    for_each by_ms (fun '(Ms, coeffs) =>
      '(Kp1, Ti1, Td1, beta1) <~ lift
        (if String.eqb modo "regulador"
         then tune_usort1_reg libm_pow a tau0 K T coeffs
         else tune_usort1_servo libm_pow a tau0 K T coeffs);;
      append {| Método := "uSORT1";
                Variante := "PI 1GdL";
                Modo := capitalize modo;
                Ms_Criterio := PyFloat.format_1f Ms;
                Kp := Kp1; Ti := Ti1; Td := Td1; β := beta1 |};;;
      '(Kp2, Ti2, Td2, beta2) <~ lift
        (if String.eqb modo "regulador"
         then tune_usort2_reg libm_pow a tau0 K T coeffs
         else tune_usort2_servo libm_pow a tau0 K T coeffs);;
      append {| Método := "uSORT2";
                Variante := "PI 2GdL";
                Modo := capitalize modo;
                Ms_Criterio := PyFloat.format_1f Ms;
                Kp := Kp2; Ti := Ti2; Td := Td2; β := beta2 |})).

(** 5) Méndez & Rímolo, both modes, IAE and ITAE. *)
Definition mendez_loop : M unit :=
  let '(iae_reg, itae_reg, iae_ser, itae_ser) := get_mendez_coeffs in
  for_each [("IAE", iae_reg, iae_ser); ("ITAE", itae_reg, itae_ser)]
    (fun '(crit, coeff_dict_reg, coeff_dict_ser) =>
      if negb (dict_contains PrimFloat.eqb coeff_dict_reg a)
         || negb (dict_contains PrimFloat.eqb coeff_dict_ser a)
      then lift (exit_with (MsgNoMendez a))
      else
        coeffs_mr_r <~ lift (getitem_float coeff_dict_reg a);;
        '(Kpr_r, Tir_r, Tdr_r, betar_r) <~ lift
          (if String.eqb crit "IAE"
           then tune_mendez_reg_IAE libm_pow a tau0 K T coeffs_mr_r
           else tune_mendez_reg_ITAE libm_pow a tau0 K T coeffs_mr_r);;
        append {| Método := "Méndez & Rímolo";
                  Variante := crit;
                  Modo := "Regulador";
                  Ms_Criterio := crit;
                  Kp := Kpr_r; Ti := Tir_r; Td := Tdr_r; β := betar_r |};;;
        coeffs_mr_s <~ lift (getitem_float coeff_dict_ser a);;
        '(Kpr_s, Tir_s, Tdr_s, betar_s) <~ lift
          (if String.eqb crit "IAE"
           then tune_mendez_ser_IAE libm_pow a tau0 K T coeffs_mr_s
           else tune_mendez_ser_ITAE libm_pow a tau0 K T coeffs_mr_s);;
        append {| Método := "Méndez & Rímolo";
                  Variante := crit;
                  Modo := "Servo";
                  Ms_Criterio := crit;
                  Kp := Kpr_s; Ti := Tir_s; Td := Tdr_s; β := betar_s |}).

(** The list [results] of [main] once its two loops have run. *)
Definition results : result (list row) :=
  match (usort_loop;;; mendez_loop) [] with
  | Ok (_, results) => Ok results
  | Raise e => Raise e
  end.
End Main.

(** [display_table]: the rows sorted by Método, and the headers and lines
    of cells handed to [tabulate]. *)
Definition display_table (results : list row)
  : result (list string * list (list string)) :=
  rbind (list_sort String.ltb (fun x => Ok (Método x)) false results)
    (fun results_sorted =>
  let headers := ["Método"; "Variante"; "Modo"; "Ms/Criterio"; "Kp"; "Ti"; "Td"; "β"] in
  let table :=
    map (fun r =>
           [Método r; Variante r; Modo r; Ms_Criterio r;
            PyFloat.format_4f (Kp r);
            PyFloat.format_4f (Ti r);
            PyFloat.format_4f (Td r);
            match β r with
            | VStr s => s
            | VFloat b => PyFloat.format_4f b
            end])
        results_sorted in
  Ok (headers, table)).

Section Program.
Variable libm_pow : float -> float -> option float.

(** [main]: the numbers are read, the rows computed and the table printed;
    an exception of the rules ends it as it ends the other scripts. *)
Definition main (stdin : list string)
  : result (list string * list (list string)) + input_failure :=
  sbind (get_inputs stdin) (fun '(K, T, a, tau0) =>
  inl (rbind (results libm_pow K T a tau0) display_table)).
End Program.

End TuningPy.

(* ================================================================= *)
(** ** Vocabulary of the statements *)

(** The checks [parse_args] makes on the four numbers. *)
Definition valid_input (K T a tau0 : float) : Prop :=
  (K <=? 0) = false /\ (T <=? 0) = false
  /\ existsb (PrimFloat.eqb a) allowed_a = true
  /\ (tau0 <? 0) = false.

(** Two keys that [<] does not separate. *)
Definition tie {Kt} (lt : Kt -> Kt -> bool) (k1 k2 : Kt) : bool :=
  negb (lt k1 k2) && negb (lt k2 k1).

(** The rows of [l] whose key ties with [k], in their order in [l]. *)
Definition block {A Kt} (lt : Kt -> Kt -> bool) (key : A -> Kt) (l : list A) (k : Kt)
  : list A :=
  filter (fun x => tie lt (key x) k) l.

(** A list of keys in strictly increasing order, no key below itself. *)
Fixpoint increasing {Kt} (lt : Kt -> Kt -> bool) (ks : list Kt) : Prop :=
  match ks with
  | [] => True
  | k :: ks' =>
      lt k k = false
      /\ Forall (fun k' => lt k k' = true /\ lt k' k = false) ks'
      /\ increasing lt ks'
  end.

(** The key a click on a sortable column sorts by. *)
Definition column_key (columna : string) (x : row) : pyval :=
  if String.eqb columna "Ms/Criterio" then VFloat (ms_a_float (Ms_Criterio x))
  else if String.eqb columna "Método" then VStr (Método x)
  else if String.eqb columna "Variante" then VStr (Variante x)
  else VStr (Modo x).

(** The values each sortable column takes in the table, in increasing
    order. *)
Definition column_values (columna : string) : list pyval :=
  if String.eqb columna "Ms/Criterio" then
    [VFloat 1.6; VFloat 1.8; VFloat 2.0; VFloat infinity]
  else if String.eqb columna "Método" then
    map VStr ["López et al."; "Méndez & Rímolo"; "Rovira et al."; "uSORT1"; "uSORT2"]
  else if String.eqb columna "Variante" then
    map VStr ["IAE (PI)"; "ITAE (PI)"; "P (IAE)"; "P (ISE)"; "P (ITAE)";
              "PI (IAE)"; "PI (ISE)"; "PI (ITAE)"; "PI 1GdL"; "PI 2GdL";
              "PID (IAE)"; "PID (ISE)"; "PID (ITAE)"; "PID 1GdL"; "PID 2GdL"]
  else
    map VStr ["Regulador"; "Servo"].

(** The text columns of a row. *)
Definition labels (x : row) : string * string * string * string :=
  (Variante x, Método x, Modo x, Ms_Criterio x).

(** States of the interactive table: after start-up, and after any number
    of header clicks. *)
Inductive reachable (libm_pow : float -> float -> option float) (argv : list string)
  : TuningApp.t -> Prop :=
| reach_run : forall st,
    TuningApp.run libm_pow argv = Ok st -> reachable libm_pow argv st
| reach_click : forall st columna st',
    reachable libm_pow argv st ->
    TuningApp.on_data_table_header_selected columna st = Ok st' ->
    reachable libm_pow argv st'.

(** Two rows that differ at most in Kp, which is the same numerator over
    the two gains. *)
Definition same_but_gain (K K' : float) (r r' : row) : Prop :=
  labels r = labels r' /\ Ti r = Ti r' /\ Td r = Td r' /\ β r = β r'
  /\ exists kappa_p, Kp r = kappa_p / K /\ Kp r' = kappa_p / K'.

(** The exception is a [sys.exit]. *)
Definition is_exit (e : exn) : bool :=
  match e with
  | SystemExit _ _ => true
  | _ => false
  end.

(** The thirteen rules, each as a function of the process gain [K]. *)
Inductive rule (libm : float -> float -> option float) : (float -> result tuning) -> Prop :=
| rule_mendez_reg_IAE a tau0 T c : rule libm (fun K => tune_mendez_reg_IAE libm a tau0 K T c)
| rule_mendez_reg_ITAE a tau0 T c : rule libm (fun K => tune_mendez_reg_ITAE libm a tau0 K T c)
| rule_mendez_ser_IAE a tau0 T c : rule libm (fun K => tune_mendez_ser_IAE libm a tau0 K T c)
| rule_mendez_ser_ITAE a tau0 T c : rule libm (fun K => tune_mendez_ser_ITAE libm a tau0 K T c)
| rule_usort1_reg a tau0 T c : rule libm (fun K => tune_usort1_reg libm a tau0 K T c)
| rule_usort1_servo a tau0 T c : rule libm (fun K => tune_usort1_servo libm a tau0 K T c)
| rule_usort2_reg a tau0 T c : rule libm (fun K => tune_usort2_reg libm a tau0 K T c)
| rule_usort2_servo a tau0 T c : rule libm (fun K => tune_usort2_servo libm a tau0 K T c)
| rule_lopez_P tau0 c : rule libm (fun K => tune_lopez_P libm tau0 K c)
| rule_lopez_PI tau0 T c : rule libm (fun K => tune_lopez_PI libm tau0 K T c)
| rule_lopez_PID tau0 T c : rule libm (fun K => tune_lopez_PID libm tau0 K T c)
| rule_rovira_PI tau0 T c : rule libm (fun K => tune_rovira_PI libm tau0 K T c)
| rule_rovira_PID tau0 T c : rule libm (fun K => tune_rovira_PID libm tau0 K T c).

(** The rows of one method. *)
Definition count_method (m : string) (rs : list row) : nat :=
  length (filter (fun r => String.eqb (Método r) m) rs).

(** Two computations on [all_results] that keep two lists related by [R]:
    whenever the first returns, so does the second, with results related by
    [Q]. *)
Definition related (R : row -> row -> Prop) {A} (Q : A -> A -> Prop) (m m' : M A)
  : Prop :=
  forall s s', Forall2 R s s' ->
  forall x t, m s = Ok (x, t) ->
  exists x' t', m' s' = Ok (x', t') /\ Q x x' /\ Forall2 R t t'.

(** Two results of a rule that differ at most in the gain that divides Kp. *)
Definition tuning_but_gain (K K' : float) (t t' : tuning) : Prop :=
  exists kappa_p ti td b,
    t = (kappa_p / K, ti, td, b) /\ t' = (kappa_p / K', ti, td, b).

(** [numer / denom if denom != 0 else 0.0] *)
Definition guarded_quotient (numer denom : float) : float :=
  if denom =? 0 then 0.0 else numer / denom.

(** The texts that occur in the four sortable columns. *)
Definition in_catalog (x : row) : Prop :=
  In (Ms_Criterio x) ["1.6"; "1.8"; "2.0"; "IAE"; "ISE"; "ITAE"]
  /\ In (Método x)
       ["López et al."; "Méndez & Rímolo"; "Rovira et al."; "uSORT1"; "uSORT2"]
  /\ In (Variante x)
       ["IAE (PI)"; "ITAE (PI)"; "P (IAE)"; "P (ISE)"; "P (ITAE)";
        "PI (IAE)"; "PI (ISE)"; "PI (ITAE)"; "PI 1GdL"; "PI 2GdL";
        "PID (IAE)"; "PID (ISE)"; "PID (ITAE)"; "PID 1GdL"; "PID 2GdL"]
  /\ In (Modo x) ["Regulador"; "Servo"].

(** The key of the initial sort. *)
Definition initial_key (x : row) : string * string * string * float :=
  (Variante x, Método x, Modo x, ms_a_float (Ms_Criterio x)).

(** One time of the table in two runs that differ in the time constant:
    the constant [0.0] in both, or one factor times [T] and times [T']. *)
Definition scaled_by (T T' x x' : float) : Prop :=
  (x = 0 /\ x' = 0) \/ exists tau, x = tau * T /\ x' = tau * T'.

(** Two results of a rule that differ at most in the time constant that
    multiplies Ti and Td. *)
Definition tuning_but_time (T T' : float) (t t' : tuning) : Prop :=
  exists kp ti ti' td td' b,
    t = (kp, ti, td, b) /\ t' = (kp, ti', td', b)
    /\ scaled_by T T' ti ti' /\ scaled_by T T' td td'.

(** Two rows that differ at most in Ti and Td. *)
Definition same_but_time (T T' : float) (r r' : row) : Prop :=
  labels r = labels r' /\ Kp r = Kp r' /\ β r = β r'
  /\ scaled_by T T' (Ti r) (Ti r') /\ scaled_by T T' (Td r) (Td r').

(** The thirteen rules, each as a function of the time constant [T]. *)
Inductive rule_of_time (libm : float -> float -> option float)
  : (float -> result tuning) -> Prop :=
| time_mendez_reg_IAE a tau0 K c :
    rule_of_time libm (fun T => tune_mendez_reg_IAE libm a tau0 K T c)
| time_mendez_reg_ITAE a tau0 K c :
    rule_of_time libm (fun T => tune_mendez_reg_ITAE libm a tau0 K T c)
| time_mendez_ser_IAE a tau0 K c :
    rule_of_time libm (fun T => tune_mendez_ser_IAE libm a tau0 K T c)
| time_mendez_ser_ITAE a tau0 K c :
    rule_of_time libm (fun T => tune_mendez_ser_ITAE libm a tau0 K T c)
| time_usort1_reg a tau0 K c :
    rule_of_time libm (fun T => tune_usort1_reg libm a tau0 K T c)
| time_usort1_servo a tau0 K c :
    rule_of_time libm (fun T => tune_usort1_servo libm a tau0 K T c)
| time_usort2_reg a tau0 K c :
    rule_of_time libm (fun T => tune_usort2_reg libm a tau0 K T c)
| time_usort2_servo a tau0 K c :
    rule_of_time libm (fun T => tune_usort2_servo libm a tau0 K T c)
| time_lopez_P tau0 K c :
    rule_of_time libm (fun _ => tune_lopez_P libm tau0 K c)
| time_lopez_PI tau0 K c :
    rule_of_time libm (fun T => tune_lopez_PI libm tau0 K T c)
| time_lopez_PID tau0 K c :
    rule_of_time libm (fun T => tune_lopez_PID libm tau0 K T c)
| time_rovira_PI tau0 K c :
    rule_of_time libm (fun T => tune_rovira_PI libm tau0 K T c)
| time_rovira_PID tau0 K c :
    rule_of_time libm (fun T => tune_rovira_PID libm tau0 K T c).

(** What the arithmetic of a rule raises on a dead time that is not
    negative: a division by zero, in a power of a zero dead time, or the
    overflow of a power, when C's [pow] reports a range error on the base
    [tau0]. *)
Definition arithmetic_failure (libm : float -> float -> option float)
           (tau0 : float) (e : exn) : Prop :=
  (e = ZeroDivisionError /\ (tau0 =? 0) = true)
  \/ (e = OverflowError /\ exists y, libm (abs tau0) y = None).

(** The key of the sort in [display_pi_table] and [display_pid_table], and
    the values it can take, in increasing order. *)
Definition printed_key (x : row) : string * string := (Modo x, Método x).

Definition printed_keys : list (string * string) :=
  [("Regulador", "López et al."); ("Regulador", "Méndez & Rímolo");
   ("Regulador", "Rovira et al."); ("Regulador", "uSORT1"); ("Regulador", "uSORT2");
   ("Servo", "López et al."); ("Servo", "Méndez & Rímolo");
   ("Servo", "Rovira et al."); ("Servo", "uSORT1"); ("Servo", "uSORT2")].

(** What the rules put in a row, by its labels: β is a number on the uSORT2
    rows and ["-"] elsewhere; a proportional controller has no Ti and no Td;
    outside the PID rows Td is [0.0], or [0.0 * T] where a uSORT rule
    computes it from the zero coefficients of its PI entries. *)
Definition row_shape (T : float) (r : row) : Prop :=
  (if String.eqb (Método r) "uSORT2" then exists x, β r = VFloat x
   else β r = VStr "-")
  /\ (String.prefix "P (" (Variante r) = true ->
      Ti r = 0 /\ Td r = 0 /\ β r = VStr "-")
  /\ (str_contains "PID" (Variante r) = false -> Td r = 0 \/ Td r = 0 * T).

(** The text columns of the rows, in the order the four loops append them,
    and in the order of the table at start-up. *)
Definition loop_labels : list (string * string * string * string) :=
  [("PI 1GdL", "uSORT1", "Regulador", "2.0");
   ("PI 2GdL", "uSORT2", "Regulador", "2.0");
   ("PI 1GdL", "uSORT1", "Regulador", "1.6");
   ("PI 2GdL", "uSORT2", "Regulador", "1.6");
   ("PID 1GdL", "uSORT1", "Regulador", "2.0");
   ("PID 2GdL", "uSORT2", "Regulador", "2.0");
   ("PID 1GdL", "uSORT1", "Regulador", "1.6");
   ("PID 2GdL", "uSORT2", "Regulador", "1.6");
   ("PI 1GdL", "uSORT1", "Servo", "1.8");
   ("PI 2GdL", "uSORT2", "Servo", "1.8");
   ("PI 1GdL", "uSORT1", "Servo", "1.6");
   ("PI 2GdL", "uSORT2", "Servo", "1.6");
   ("PID 1GdL", "uSORT1", "Servo", "1.8");
   ("PID 2GdL", "uSORT2", "Servo", "1.8");
   ("PID 1GdL", "uSORT1", "Servo", "1.6");
   ("PID 2GdL", "uSORT2", "Servo", "1.6");
   ("IAE (PI)", "Méndez & Rímolo", "Regulador", "IAE");
   ("IAE (PI)", "Méndez & Rímolo", "Servo", "IAE");
   ("ITAE (PI)", "Méndez & Rímolo", "Regulador", "ITAE");
   ("ITAE (PI)", "Méndez & Rímolo", "Servo", "ITAE");
   ("P (ISE)", "López et al.", "Regulador", "ISE");
   ("P (IAE)", "López et al.", "Regulador", "IAE");
   ("P (ITAE)", "López et al.", "Regulador", "ITAE");
   ("PI (ISE)", "López et al.", "Regulador", "ISE");
   ("PI (IAE)", "López et al.", "Regulador", "IAE");
   ("PI (ITAE)", "López et al.", "Regulador", "ITAE");
   ("PID (ISE)", "López et al.", "Regulador", "ISE");
   ("PID (IAE)", "López et al.", "Regulador", "IAE");
   ("PID (ITAE)", "López et al.", "Regulador", "ITAE");
   ("PI (IAE)", "Rovira et al.", "Servo", "IAE");
   ("PI (ITAE)", "Rovira et al.", "Servo", "ITAE");
   ("PID (IAE)", "Rovira et al.", "Servo", "IAE");
   ("PID (ITAE)", "Rovira et al.", "Servo", "ITAE")].

Definition initial_labels : list (string * string * string * string) :=
  [("IAE (PI)", "Méndez & Rímolo", "Regulador", "IAE");
   ("IAE (PI)", "Méndez & Rímolo", "Servo", "IAE");
   ("ITAE (PI)", "Méndez & Rímolo", "Regulador", "ITAE");
   ("ITAE (PI)", "Méndez & Rímolo", "Servo", "ITAE");
   ("P (IAE)", "López et al.", "Regulador", "IAE");
   ("P (ISE)", "López et al.", "Regulador", "ISE");
   ("P (ITAE)", "López et al.", "Regulador", "ITAE");
   ("PI (IAE)", "López et al.", "Regulador", "IAE");
   ("PI (IAE)", "Rovira et al.", "Servo", "IAE");
   ("PI (ISE)", "López et al.", "Regulador", "ISE");
   ("PI (ITAE)", "López et al.", "Regulador", "ITAE");
   ("PI (ITAE)", "Rovira et al.", "Servo", "ITAE");
   ("PI 1GdL", "uSORT1", "Regulador", "1.6");
   ("PI 1GdL", "uSORT1", "Regulador", "2.0");
   ("PI 1GdL", "uSORT1", "Servo", "1.6");
   ("PI 1GdL", "uSORT1", "Servo", "1.8");
   ("PI 2GdL", "uSORT2", "Regulador", "1.6");
   ("PI 2GdL", "uSORT2", "Regulador", "2.0");
   ("PI 2GdL", "uSORT2", "Servo", "1.6");
   ("PI 2GdL", "uSORT2", "Servo", "1.8");
   ("PID (IAE)", "López et al.", "Regulador", "IAE");
   ("PID (IAE)", "Rovira et al.", "Servo", "IAE");
   ("PID (ISE)", "López et al.", "Regulador", "ISE");
   ("PID (ITAE)", "López et al.", "Regulador", "ITAE");
   ("PID (ITAE)", "Rovira et al.", "Servo", "ITAE");
   ("PID 1GdL", "uSORT1", "Regulador", "1.6");
   ("PID 1GdL", "uSORT1", "Regulador", "2.0");
   ("PID 1GdL", "uSORT1", "Servo", "1.6");
   ("PID 1GdL", "uSORT1", "Servo", "1.8");
   ("PID 2GdL", "uSORT2", "Regulador", "1.6");
   ("PID 2GdL", "uSORT2", "Regulador", "2.0");
   ("PID 2GdL", "uSORT2", "Servo", "1.6");
   ("PID 2GdL", "uSORT2", "Servo", "1.8")].

(** The text columns of the rows of [tuning.py], in the order its loops
    append them. *)
Definition first_script_labels : list (string * string * string * string) :=
  [("PI 1GdL", "uSORT1", "Regulador", "2.0");
   ("PI 2GdL", "uSORT2", "Regulador", "2.0");
   ("PI 1GdL", "uSORT1", "Regulador", "1.6");
   ("PI 2GdL", "uSORT2", "Regulador", "1.6");
   ("PI 1GdL", "uSORT1", "Servo", "1.8");
   ("PI 2GdL", "uSORT2", "Servo", "1.8");
   ("PI 1GdL", "uSORT1", "Servo", "1.6");
   ("PI 2GdL", "uSORT2", "Servo", "1.6");
   ("IAE", "Méndez & Rímolo", "Regulador", "IAE");
   ("IAE", "Méndez & Rímolo", "Servo", "IAE");
   ("ITAE", "Méndez & Rímolo", "Regulador", "ITAE");
   ("ITAE", "Méndez & Rímolo", "Servo", "ITAE")].

(** A row with the given text columns and no numbers, and rows that agree
    on their text columns. *)
Definition of_labels (l : string * string * string * string) : row :=
  let '(v, m, mo, c) := l in
  mk_row m v mo c 0 0 0 (VStr "-").

Definition same_labels (r r' : row) : Prop := labels r = labels r'.

(** Two rows with the same text columns, and the same numbers too unless
    they are rows of Méndez & Rímolo. *)
Definition same_unless_mendez (r r' : row) : Prop :=
  labels r = labels r' /\ (Método r <> "Méndez & Rímolo" -> r' = r).

(** The cell of a line under the header [columna]. *)
Fixpoint position (x : string) (l : list string) : nat :=
  match l with
  | [] => 0
  | y :: l' => if String.eqb x y then 0 else S (position x l')
  end.

Definition cell (headers : list string) (columna : string) (line : list string)
  : string :=
  nth (position columna headers) line EmptyString.

(** The keys of the sorts, read off the text columns. *)
Definition initial_key_of (l : string * string * string * string)
  : string * string * string * float :=
  let '(v, m, mo, c) := l in (v, m, mo, ms_a_float c).

Definition printed_key_of (l : string * string * string * string) : string * string :=
  let '(v, m, mo, c) := l in (mo, m).

(** The test that sends a row of [torfin.main] to the PID table, on its
    text columns. *)
Definition is_pid_of (l : string * string * string * string) : bool :=
  let '(var, m, mo, c) := l in
  str_contains "PID" var && negb (String.prefix "P (" var).

(* ================================================================= *)
(** * Properties *)

Open Scope list_scope.
Unset Implicit Arguments.

(** ** Floats *)

Lemma leb_false_nonzero (x : float) : (x <=? 0) = false -> (x =? 0) = false.
Proof.
  rewrite FloatAxioms.leb_spec, FloatAxioms.eqb_spec. unfold SFleb, SFeqb.
  destruct (SFcompare (Prim2SF x) (Prim2SF 0)) as [[]|]; congruence.
Qed.

(** [1.0 ** y] never reaches C's [pow]. *)
Lemma pow_one libm (y : float) : PyFloat.pow libm 1 y = Ok 1.
Proof.
  unfold PyFloat.pow.
  destruct (y =? 0); [reflexivity|].
  change (is_nan 1) with false. cbv beta iota.
  destruct (is_nan y); [reflexivity|].
  destruct (is_infinity y); [reflexivity|].
  reflexivity.
Qed.

(** ** Exceptions of the arithmetic

    The tuning rules raise only what dictionary lookup, division and
    exponentiation raise: never [SystemExit]. *)

Lemma getitem_raise {V} (d : dict string V) k e :
  getitem d k = Raise e -> is_exit e = false.
Proof. unfold getitem. destruct (dict_get String.eqb d k); intros [= <-]. reflexivity. Qed.

Lemma truediv_raise x y e : PyFloat.truediv x y = Raise e -> is_exit e = false.
Proof. unfold PyFloat.truediv. destruct (y =? 0); intros [= <-]. reflexivity. Qed.

Lemma pow_raise libm x y e : PyFloat.pow libm x y = Raise e -> is_exit e = false.
Proof.
  unfold PyFloat.pow. cbv zeta.
  repeat match goal with
         | |- context [if ?c then _ else _] => destruct c
         | |- context [match ?c with Some _ => _ | None => _ end] => destruct c
         end; intros [= <-]; reflexivity.
Qed.

(** Stepping through a chain of [rbind]s: the computation in head position
    is named and split into its two outcomes. *)
Ltac head_scrutinee t :=
  lazymatch t with
  | rbind ?m _ => head_scrutinee m
  | match ?s with Ok _ => _ | Raise _ => _ end => head_scrutinee s
  | match ?s with pair _ _ => _ end => head_scrutinee s
  | if ?s then _ else _ => head_scrutinee s
  | (if ?s then _ else _) _ => head_scrutinee s
  | negb ?s => head_scrutinee s
  | orb ?s _ => head_scrutinee s
  | _ => t
  end.

Ltac step_in H :=
  lazymatch type of H with
  | ?lhs = _ =>
      let s := head_scrutinee lhs in
      lazymatch s with
      | Ok _ => fail "value"
      | Raise _ => fail "value"
      | true => fail "value"
      | false => fail "value"
      | _ => idtac
      end;
      lazymatch type of s with
      | result tuning => destruct s as [[[[? ?] ?] ?]|?] eqn:?
      | result _ => destruct s as [?|?] eqn:?
      | bool => destruct s eqn:?
      end
  end;
  cbv beta iota delta [rbind negb orb] in H.

Ltac unfold_tuners_in H :=
  unfold tune_mendez_reg_IAE, tune_mendez_reg_ITAE, tune_mendez_ser_IAE,
    tune_mendez_ser_ITAE, tune_usort1_reg, tune_usort1_servo, tune_usort2_reg,
    tune_usort2_servo, tune_lopez_P, tune_lopez_PI, tune_lopez_PID,
    tune_rovira_PI, tune_rovira_PID in H.

Ltac unfold_tuners :=
  unfold tune_mendez_reg_IAE, tune_mendez_reg_ITAE, tune_mendez_ser_IAE,
    tune_mendez_ser_ITAE, tune_usort1_reg, tune_usort1_servo, tune_usort2_reg,
    tune_usort2_servo, tune_lopez_P, tune_lopez_PI, tune_lopez_PID,
    tune_rovira_PI, tune_rovira_PID.

Lemma rule_raise libm f K e : rule libm f -> f K = Raise e -> is_exit e = false.
Proof.
  intros Hc H.
  destruct Hc; unfold_tuners_in H; unfold rbind in H;
    repeat (step_in H;
            try (injection H as <-;
                 first [ eapply getitem_raise; eassumption
                       | eapply pow_raise; eassumption
                       | eapply truediv_raise; eassumption ]));
    discriminate H.
Qed.

(** ** How the rules use the gain *)

Ltac rewrite_known :=
  repeat match goal with
         | E : ?t = Ok _ |- context [?t] => rewrite E; cbv beta iota delta [rbind]
         | E : ?t = true |- context [?t] => rewrite E; cbv beta iota delta [rbind negb]
         | E : ?t = false |- context [?t] => rewrite E; cbv beta iota delta [rbind negb]
         end.

(** Every rule divides a numerator that does not depend on [K] by [K], and
    uses [K] nowhere else. *)
Lemma rule_gain libm f K K' kp ti td b :
  rule libm f ->
  f K = Ok (kp, ti, td, b) ->
  (K' =? 0) = false ->
  exists kappa_p, kp = kappa_p / K /\ f K' = Ok (kappa_p / K', ti, td, b).
Proof.
  intros Hc H HK'.
  destruct Hc; unfold_tuners_in H; unfold rbind in H;
    repeat (step_in H; try discriminate H);
    match goal with
    | E : PyFloat.truediv ?k K = Ok _ |- _ =>
        exists k; unfold PyFloat.truediv in E;
        destruct (K =? 0); [discriminate E|];
        injection E as <-; injection H as <- <- <- <-;
        split; [reflexivity|]
    end;
    unfold_tuners; unfold rbind; rewrite_known;
    unfold PyFloat.truediv; rewrite HK'; cbv beta iota; rewrite_known;
    reflexivity.
Qed.

(** ** Running the loops symbolically *)

(** The loops are unrolled over their literal lists; the rules and the
    lookups by [a] stay folded. *)
Ltac unroll_loops_in H :=
  cbv -[tune_mendez_reg_IAE tune_mendez_reg_ITAE tune_mendez_ser_IAE
        tune_mendez_ser_ITAE tune_usort1_reg tune_usort1_servo tune_usort2_reg
        tune_usort2_servo tune_lopez_P tune_lopez_PI tune_lopez_PID
        tune_rovira_PI tune_rovira_PID
        dict_contains getitem_float iae_reg itae_reg iae_ser itae_ser] in H.

Ltac unroll_loops :=
  cbv -[tune_mendez_reg_IAE tune_mendez_reg_ITAE tune_mendez_ser_IAE
        tune_mendez_ser_ITAE tune_usort1_reg tune_usort1_servo tune_usort2_reg
        tune_usort2_servo tune_lopez_P tune_lopez_PI tune_lopez_PID
        tune_rovira_PI tune_rovira_PID
        dict_contains getitem_float iae_reg itae_reg iae_ser itae_ser].

(** From a run of the loops that returned, the outcome of every rule and
    the explicit list of rows. *)
Ltac run_loops_in H :=
  unfold all_loops, usort_loop, mendez_loop, lopez_loop, rovira_loop in H;
  unroll_loops_in H;
  repeat (step_in H; try discriminate H).

(** [In x l] for an [x] that occurs, as written, in the explicit list [l]. *)
Ltac in_list := simpl; repeat first [left; reflexivity | right].

(** ** The number of rows *)

Lemma all_loops_count libm K T a tau0 rs :
  all_loops libm K T a tau0 = Ok rs ->
  length rs = 33%nat
  /\ (count_method "uSORT1" rs + count_method "uSORT2" rs = 16)%nat
  /\ count_method "Méndez & Rímolo" rs = 4%nat
  /\ count_method "López et al." rs = 9%nat
  /\ count_method "Rovira et al." rs = 4%nat.
Proof.
  intros H. run_loops_in H. injection H as <-.
  repeat split; reflexivity.
Qed.

(** ** Sorting: permutation *)

Lemma mapM_ok {A B} (f : A -> result B) (g : A -> B) (l : list A) :
  (forall x, In x l -> f x = Ok (g x)) -> mapM f l = Ok (map g l).
Proof.
  induction l as [|x l IH]; intros Hf; simpl; [reflexivity|].
  rewrite (Hf x (or_introl eq_refl)). simpl.
  rewrite IH by (intros; apply Hf; right; assumption). reflexivity.
Qed.

Lemma mapM_length {A B} (f : A -> result B) (l : list A) ys :
  mapM f l = Ok ys -> length ys = length l.
Proof.
  revert ys. induction l as [|x l IH]; simpl; intros ys H.
  - injection H as <-. reflexivity.
  - destruct (f x); [|discriminate]. simpl in H.
    destruct (mapM f l); [|discriminate]. simpl in H.
    injection H as <-. simpl. f_equal. apply IH. reflexivity.
Qed.

Lemma map_snd_combine {A B} (ks : list A) (l : list B) :
  length ks = length l -> map snd (combine ks l) = l.
Proof.
  revert l. induction ks as [|k ks IH]; destruct l; simpl; intros H;
    try discriminate; [reflexivity|].
  f_equal. apply IH. congruence.
Qed.

Section SortPermutation.
Variables (A Kt : Type) (lt : Kt -> Kt -> bool).

Lemma insert_by_perm (x : Kt * A) l : Permutation (insert_by lt x l) (x :: l).
Proof.
  induction l as [|y l IH]; simpl; [reflexivity|].
  destruct (lt (fst y) (fst x)); [|reflexivity].
  rewrite IH. apply perm_swap.
Qed.

Lemma stable_sort_perm (l : list (Kt * A)) : Permutation (stable_sort lt l) l.
Proof.
  induction l as [|x l IH]; simpl; [reflexivity|].
  rewrite insert_by_perm. constructor. exact IH.
Qed.

Lemma sort_decorated_perm reverse (l : list (Kt * A)) :
  Permutation (sort_decorated lt reverse l) l.
Proof.
  unfold sort_decorated. destruct reverse.
  - rewrite <- Permutation_rev, stable_sort_perm. symmetry. apply Permutation_rev.
  - apply stable_sort_perm.
Qed.

(** A sort only reorders the rows. *)
Lemma list_sort_perm key reverse (l l' : list A) :
  list_sort lt key reverse l = Ok l' -> Permutation l' l.
Proof.
  unfold list_sort. destruct (mapM key l) as [keys|] eqn:Hk; [|discriminate].
  simpl. intros [= <-].
  rewrite sort_decorated_perm.
  rewrite map_snd_combine by (eapply mapM_length; eassumption).
  reflexivity.
Qed.
End SortPermutation.

(** ** Sorting: blocks of equal keys

    On keys taken from an increasing list [KS], the stable sort puts the
    rows of each key together, the keys in the order of [KS] (or the
    opposite order, for a reverse sort) and the rows of one key in the order
    they had before. *)

Lemma flat_map_nil {A B} (l : list A) : flat_map (fun _ => @nil B) l = [].
Proof. induction l; simpl; auto. Qed.

Lemma rev_flat_map {A B} (f : A -> list B) (l : list A) :
  rev (flat_map f l) = flat_map (fun x => rev (f x)) (rev l).
Proof.
  induction l as [|x l IH]; simpl; [reflexivity|].
  rewrite rev_app_distr, IH, flat_map_app. simpl. rewrite app_nil_r. reflexivity.
Qed.

Lemma flat_map_ext_on {A B} (f g : A -> list B) (l : list A) :
  (forall x, In x l -> f x = g x) -> flat_map f l = flat_map g l.
Proof.
  induction l as [|x l IH]; simpl; intros H; [reflexivity|].
  rewrite (H x (or_introl eq_refl)), IH; [reflexivity|].
  intros; apply H; right; assumption.
Qed.

Section Blocks.
Variables (A Kt : Type) (lt : Kt -> Kt -> bool).
Variable KS : list Kt.
Hypothesis KS_increasing : increasing lt KS.

Lemma increasing_irrefl ks k : increasing lt ks -> In k ks -> lt k k = false.
Proof.
  induction ks as [|k0 ks IH]; simpl; [tauto|].
  intros (H0 & _ & Hi) [<-|Hin]; auto.
Qed.

Lemma increasing_tie ks k1 k2 :
  increasing lt ks -> In k1 ks -> In k2 ks -> tie lt k1 k2 = true -> k1 = k2.
Proof.
  unfold tie. induction ks as [|k0 ks IH]; simpl; [tauto|].
  intros (H0 & Hall & Hi) [<-|H1] [<-|H2] Ht; auto.
  - rewrite Forall_forall in Hall. destruct (Hall _ H2) as [E _].
    rewrite E in Ht. discriminate.
  - rewrite Forall_forall in Hall. destruct (Hall _ H1) as [E _].
    rewrite E in Ht. rewrite andb_false_r in Ht. discriminate.
Qed.

Lemma insert_by_front (x : Kt * A) l :
  match l with
  | [] => True
  | y :: _ => lt (fst y) (fst x) = false
  end ->
  insert_by lt x l = x :: l.
Proof. destruct l as [|y l]; simpl; [reflexivity|]. intros ->. reflexivity. Qed.

Lemma insert_by_pass (x : Kt * A) l1 l2 :
  Forall (fun y => lt (fst y) (fst x) = true) l1 ->
  insert_by lt x (l1 ++ l2) = l1 ++ insert_by lt x l2.
Proof.
  induction 1 as [|y l1 Hy _ IH]; simpl; [reflexivity|].
  rewrite Hy, IH. reflexivity.
Qed.

Local Abbreviation dblock := (block lt (@fst Kt A)).

Lemma dblock_key l k y :
  (forall z, In z l -> In (fst z) KS) -> In k KS ->
  In y (dblock l k) -> fst y = k.
Proof.
  intros Hl Hk Hy. apply filter_In in Hy. destruct Hy as [Hy Ht].
  eapply increasing_tie; eauto.
Qed.

Lemma insert_blocks ks x l :
  increasing lt ks -> incl ks KS ->
  (forall z, In z l -> In (fst z) KS) ->
  In (fst x) ks ->
  insert_by lt x (flat_map (dblock l) ks) = flat_map (dblock (x :: l)) ks.
Proof.
  intros Hinc Hincl Hl. induction ks as [|k ks IH]; [simpl; tauto|].
  cbn [flat_map In].
  destruct Hinc as (Hkk & Hall & Hinc).
  assert (Hk : In k KS) by (apply Hincl; left; reflexivity).
  assert (Hks : incl ks KS) by (intros z Hz; apply Hincl; right; exact Hz).
  rewrite Forall_forall in Hall.
  intros [Hx|Hx].
  - (* the key of [x] is the first key: [x] goes in front *)
    assert (Hhead : dblock (x :: l) k = x :: dblock l k).
    { unfold block. simpl. rewrite <- Hx. unfold tie.
      rewrite Hkk. reflexivity. }
    assert (Hrest : flat_map (dblock (x :: l)) ks = flat_map (dblock l) ks).
    { apply flat_map_ext_on. intros k' Hk'. unfold block. simpl.
      rewrite <- Hx. unfold tie at 1. destruct (Hall _ Hk') as [-> _].
      reflexivity. }
    rewrite Hhead, Hrest. cbn [app].
    apply insert_by_front.
    destruct (dblock l k ++ flat_map (dblock l) ks) as [|y rest] eqn:E; [exact I|].
    assert (Hy : In y (dblock l k ++ flat_map (dblock l) ks))
      by (rewrite E; left; reflexivity).
    apply in_app_or in Hy. destruct Hy as [Hy|Hy].
    + rewrite (dblock_key l k y Hl Hk Hy), <- Hx. exact Hkk.
    + apply in_flat_map in Hy. destruct Hy as (k' & Hk' & Hy).
      rewrite (dblock_key l k' y Hl (Hks _ Hk') Hy), <- Hx.
      apply (Hall _ Hk').
  - (* the key of [x] comes later: [x] passes the rows of the first key *)
    destruct (Hall _ Hx) as [Hlt Hgt].
    assert (Hhead : dblock (x :: l) k = dblock l k).
    { unfold block. simpl. unfold tie at 1.
      rewrite Hlt, andb_false_r. reflexivity. }
    rewrite Hhead, insert_by_pass.
    + rewrite IH by assumption. reflexivity.
    + apply Forall_forall. intros y Hy.
      rewrite (dblock_key l k y Hl Hk Hy). exact Hlt.
Qed.

Lemma stable_sort_blocks (l : list (Kt * A)) :
  (forall z, In z l -> In (fst z) KS) ->
  stable_sort lt l = flat_map (dblock l) KS.
Proof.
  induction l as [|x l IH]; intros Hl.
  - simpl. unfold block. simpl. symmetry. apply flat_map_nil.
  - simpl. rewrite IH by (intros; apply Hl; right; assumption).
    apply insert_blocks.
    + exact KS_increasing.
    + apply incl_refl.
    + intros; apply Hl; right; assumption.
    + apply Hl. left. reflexivity.
Qed.

Lemma sort_decorated_blocks reverse (l : list (Kt * A)) :
  (forall z, In z l -> In (fst z) KS) ->
  sort_decorated lt reverse l
  = flat_map (dblock l) (if reverse then rev KS else KS).
Proof.
  intros Hl. unfold sort_decorated. destruct reverse.
  - rewrite stable_sort_blocks by (intros z Hz; apply Hl, in_rev; exact Hz).
    rewrite rev_flat_map. apply flat_map_ext. intros k.
    unfold block. rewrite filter_rev. apply rev_involutive.
  - apply stable_sort_blocks. exact Hl.
Qed.

Lemma undecorate_block (key : A -> Kt) (l : list A) k :
  map snd (block lt fst (combine (map key l) l) k) = block lt key l k.
Proof.
  unfold block. induction l as [|x l IH]; simpl; [reflexivity|].
  destruct (tie lt (key x) k); simpl; rewrite IH; reflexivity.
Qed.

(** The sorted list, block by block. *)
Lemma list_sort_blocks (key : A -> result Kt) (k : A -> Kt) reverse (l : list A) :
  (forall x, In x l -> key x = Ok (k x)) ->
  (forall x, In x l -> In (k x) KS) ->
  list_sort lt key reverse l
  = Ok (flat_map (block lt k l) (if reverse then rev KS else KS)).
Proof.
  intros Hkey Hin. unfold list_sort.
  rewrite (mapM_ok key k l Hkey). simpl. f_equal.
  rewrite sort_decorated_blocks.
  - generalize (if reverse then rev KS else KS). intros ks.
    induction ks as [|k0 ks IH]; simpl; [reflexivity|].
    rewrite map_app, IH. f_equal. apply undecorate_block.
  - intros [k0 x] Hz. simpl.
    assert (Hx : In x l) by (eapply in_combine_r; eassumption).
    assert (E : k0 = k x).
    { clear Hkey Hin Hx. revert Hz. induction l as [|y l IH]; simpl; [tauto|].
      intros [[= <- <-]|Hz]; auto. }
    rewrite E. apply Hin. exact Hx.
Qed.
End Blocks.

Lemma perm_filter_length {A} (p : A -> bool) (l l' : list A) :
  Permutation l l' -> length (filter p l) = length (filter p l').
Proof.
  induction 1 as [|x l l' _ IH|x y l|l l' l'' _ IH1 _ IH2]; simpl.
  - reflexivity.
  - destruct (p x); simpl; congruence.
  - destruct (p x), (p y); reflexivity.
  - congruence.
Qed.

Lemma partition_length {A} (p : A -> bool) (l : list A) :
  (length (filter (fun x => negb (p x)) l) + length (filter p l) = length l)%nat.
Proof.
  induction l as [|x l IH]; simpl; [reflexivity|].
  destruct (p x); simpl; lia.
Qed.

Lemma parse_args_valid argv K T a tau0 :
  parse_args argv = Ok (K, T, a, tau0) -> valid_input K T a tau0.
Proof.
  unfold parse_args, valid_input, exit_with. intros H.
  destruct (negb (Nat.eqb (length argv) 5)); [discriminate H|].
  destruct (map PyFloat.of_string (tl argv)) as [|[K0|] l]; try discriminate H.
  destruct l as [|[T0|] l]; try discriminate H.
  destruct l as [|[a0|] l]; try discriminate H.
  destruct l as [|[t0|] l]; try discriminate H.
  destruct l; try discriminate H.
  destruct (K0 <=? 0) eqn:HK; cbn [orb] in H; [discriminate H|].
  destruct (T0 <=? 0) eqn:HT; [discriminate H|].
  destruct (existsb (PrimFloat.eqb a0) allowed_a) eqn:Ha; cbn [negb] in H;
    [|discriminate H].
  destruct (t0 <? 0) eqn:Ht; [discriminate H|].
  injection H as <- <- <- <-. auto.
Qed.

(** C1.  For every valid input on which the evaluation returns, the table
    has 33 rows whatever the values of K, T, a and tau0: 16 uSORT rows, 4
    from Méndez & Rímolo, 9 from López et al. and 4 from Rovira et al.; this
    holds for the sorted table of [tableTuning] and for the two tables
    [torfin.main] prints, taken together. *)
Theorem record_count_fixed libm K T a tau0 :
  valid_input K T a tau0 ->
  (forall rs,
      construir_y_ordenar_resultados libm K T a tau0 = Ok rs ->
      length rs = 33%nat
      /\ (count_method "uSORT1" rs + count_method "uSORT2" rs = 16)%nat
      /\ count_method "Méndez & Rímolo" rs = 4%nat
      /\ count_method "López et al." rs = 9%nat
      /\ count_method "Rovira et al." rs = 4%nat)
  /\ (forall argv results_pi results_pid,
        parse_args argv = Ok (K, T, a, tau0) ->
        main libm argv = Ok (results_pi, results_pid) ->
        (length results_pi + length results_pid = 33)%nat).
Proof.
  intros _. split.
  - intros rs H. unfold construir_y_ordenar_resultados in H.
    destruct (all_loops libm K T a tau0) as [rows|] eqn:Hrows; [|discriminate H].
    simpl in H. apply list_sort_perm in H.
    destruct (all_loops_count _ _ _ _ _ _ Hrows) as (Hn & Hu & Hm & Hl & Hr).
    unfold count_method in *.
    rewrite !(perm_filter_length _ _ _ H), (Permutation_length H). auto.
  - intros argv results_pi results_pid Hargv H. unfold main in H.
    rewrite Hargv in H. simpl in H.
    destruct (all_loops libm K T a tau0) as [rows|] eqn:Hrows; [|discriminate H].
    simpl in H. injection H as <- <-.
    rewrite partition_length. eapply all_loops_count. eassumption.
Qed.

Lemma record_count_fixed_witness :
  valid_input 2 5 0.5 0.3
  /\ exists rs,
      construir_y_ordenar_resultados PyFloat.pow_series 2 5 0.5 0.3 = Ok rs
      /\ length rs = 33%nat.
Proof.
  assert (Hv : valid_input 2 5 0.5 0.3) by (repeat split; reflexivity).
  split; [exact Hv|].
  destruct (construir_y_ordenar_resultados PyFloat.pow_series 2 5 0.5 0.3)
    as [rs|e] eqn:E; [|vm_compute in E; discriminate E].
  exists rs. split; [reflexivity|].
  exact (proj1 (proj1 (record_count_fixed PyFloat.pow_series 2 5 0.5 0.3 Hv) rs E)).
Defined.

(** ** Dead time zero *)

(** C3, as the code has it.  With [tau0 = 0] (or [-0.0], which passes the
    same check) the very first rule raises [0.0] to the negative exponent
    [a2 = -0.971]; Python raises [ZeroDivisionError] there, nothing catches
    it, and the whole aggregation ends with that exception: no row is
    returned, whatever K, T and a are.  A positive fractional exponent is no
    error: [0.0 ** 0.211] is [0.0]. *)
Theorem zero_dead_time_aborts libm K T a :
  construir_y_ordenar_resultados libm K T a 0 = Raise ZeroDivisionError
  /\ construir_y_ordenar_resultados libm K T a (-0) = Raise ZeroDivisionError
  /\ all_loops libm K T a 0 = Raise ZeroDivisionError
  /\ PyFloat.pow libm 0 (-0.971) = Raise ZeroDivisionError
  /\ PyFloat.pow libm 0 0.211 = Ok 0.
Proof.
  repeat split; vm_compute; reflexivity.
Qed.

(** C3 as stated fails: at K = 2, T = 5, a = 0.5, tau0 = 0 the aggregation
    does not skip one row and go on; it ends with the exception and returns
    no table. *)
Lemma zero_dead_time_no_rows :
  construir_y_ordenar_resultados PyFloat.pow_series 2 5 0.5 0
  = Raise ZeroDivisionError.
Proof. vm_compute. reflexivity. Qed.

(** ** Rejected input *)

(** C8.  When the third argument is a number outside
    {0, 0.25, 0.5, 0.75, 1}, [parse_args] ends the program with exit status 1
    (after the message about [a], or about an earlier argument); whatever
    follows [parse_args] is not run, so no coefficient is looked up and no
    row computed, in either script. *)
Theorem invalid_ratio_rejected libm argv a :
  PyFloat.of_string (nth 3 argv "") = Some a ->
  existsb (PrimFloat.eqb a) allowed_a = false ->
  exists msg,
    parse_args argv = Raise (SystemExit 1 msg)
    /\ (msg = MsgRatio a \/ msg = MsgGainOrTime \/ msg = MsgNotNumbers
        \/ msg = MsgArgCount)
    /\ (forall B (rest : float * float * float * float -> result B),
           rbind (parse_args argv) rest = Raise (SystemExit 1 msg))
    /\ main libm argv = Raise (SystemExit 1 msg)
    /\ TuningApp.run libm argv = Raise (SystemExit 1 msg).
Proof.
  intros Ha Hbad.
  assert (H : exists msg,
             parse_args argv = Raise (SystemExit 1 msg)
             /\ (msg = MsgRatio a \/ msg = MsgGainOrTime \/ msg = MsgNotNumbers
                 \/ msg = MsgArgCount)).
  { unfold parse_args, exit_with.
    destruct (Nat.eqb (length argv) 5) eqn:Hlen; cbn [negb];
      [|exists MsgArgCount; auto].
    destruct argv as [|s0 [|s1 [|s2 [|s3 [|s4 [|s5 argv]]]]]]; try discriminate Hlen.
    cbn [nth] in Ha. cbn [tl map]. rewrite Ha.
    destruct (PyFloat.of_string s1) as [K|]; [|exists MsgNotNumbers; auto].
    destruct (PyFloat.of_string s2) as [T|]; [|exists MsgNotNumbers; auto].
    destruct (PyFloat.of_string s4) as [tau0|]; [|exists MsgNotNumbers; auto].
    destruct ((K <=? 0) || (T <=? 0)); [exists MsgGainOrTime; auto|].
    rewrite Hbad. cbn [negb]. exists (MsgRatio a). auto. }
  destruct H as (msg & Hp & Hmsg). exists msg.
  unfold main, TuningApp.run. rewrite Hp. repeat split; auto.
Qed.

Lemma invalid_ratio_rejected_witness :
  exists msg,
    parse_args ["tableTuning.py"; "2.0"; "5.0"; "0.9"; "0.3"] = Raise (SystemExit 1 msg)
    /\ msg = MsgRatio 0.9
    /\ TuningApp.run PyFloat.pow_series ["tableTuning.py"; "2.0"; "5.0"; "0.9"; "0.3"]
       = Raise (SystemExit 1 msg).
Proof.
  destruct (invalid_ratio_rejected PyFloat.pow_series
              ["tableTuning.py"; "2.0"; "5.0"; "0.9"; "0.3"] 0.9
              ltac:(vm_compute; reflexivity) ltac:(vm_compute; reflexivity))
    as (msg & Hp & _ & _ & _ & Hrun).
  exists msg. split; [exact Hp|]. split; [|exact Hrun].
  vm_compute in Hp. congruence.
Defined.

(** ** The Méndez & Rímolo rows are always found *)

Lemma getitem_float_raise {V} (d : dict float V) k e :
  getitem_float d k = Raise e -> is_exit e = false.
Proof.
  unfold getitem_float. destruct (dict_get PrimFloat.eqb d k); intros [= <-].
  reflexivity.
Qed.

(** Membership in each table is the test [parse_args] makes on [a]. *)
Lemma mendez_contains a :
  dict_contains PrimFloat.eqb iae_reg a = existsb (PrimFloat.eqb a) allowed_a
  /\ dict_contains PrimFloat.eqb itae_reg a = existsb (PrimFloat.eqb a) allowed_a
  /\ dict_contains PrimFloat.eqb iae_ser a = existsb (PrimFloat.eqb a) allowed_a
  /\ dict_contains PrimFloat.eqb itae_ser a = existsb (PrimFloat.eqb a) allowed_a.
Proof.
  unfold dict_contains, iae_reg, itae_reg, iae_ser, itae_ser, allowed_a.
  cbn [dict_get existsb].
  repeat split;
    (destruct (a =? 0.0); [reflexivity|];
     destruct (a =? 0.25); [reflexivity|];
     destruct (a =? 0.5); [reflexivity|];
     destruct (a =? 0.75); [reflexivity|];
     destruct (a =? 1.0); reflexivity).
Qed.

(** The rule applied in a call, with the gain it is applied to. *)
Ltac with_rule call tac :=
  lazymatch call with
  | tune_mendez_reg_IAE ?l ?a ?t ?K ?T ?c =>
      tac (fun K0 => tune_mendez_reg_IAE l a t K0 T c) K (rule_mendez_reg_IAE l a t T c)
  | tune_mendez_reg_ITAE ?l ?a ?t ?K ?T ?c =>
      tac (fun K0 => tune_mendez_reg_ITAE l a t K0 T c) K (rule_mendez_reg_ITAE l a t T c)
  | tune_mendez_ser_IAE ?l ?a ?t ?K ?T ?c =>
      tac (fun K0 => tune_mendez_ser_IAE l a t K0 T c) K (rule_mendez_ser_IAE l a t T c)
  | tune_mendez_ser_ITAE ?l ?a ?t ?K ?T ?c =>
      tac (fun K0 => tune_mendez_ser_ITAE l a t K0 T c) K (rule_mendez_ser_ITAE l a t T c)
  | tune_usort1_reg ?l ?a ?t ?K ?T ?c =>
      tac (fun K0 => tune_usort1_reg l a t K0 T c) K (rule_usort1_reg l a t T c)
  | tune_usort1_servo ?l ?a ?t ?K ?T ?c =>
      tac (fun K0 => tune_usort1_servo l a t K0 T c) K (rule_usort1_servo l a t T c)
  | tune_usort2_reg ?l ?a ?t ?K ?T ?c =>
      tac (fun K0 => tune_usort2_reg l a t K0 T c) K (rule_usort2_reg l a t T c)
  | tune_usort2_servo ?l ?a ?t ?K ?T ?c =>
      tac (fun K0 => tune_usort2_servo l a t K0 T c) K (rule_usort2_servo l a t T c)
  | tune_lopez_P ?l ?t ?K ?c =>
      tac (fun K0 => tune_lopez_P l t K0 c) K (rule_lopez_P l t c)
  | tune_lopez_PI ?l ?t ?K ?T ?c =>
      tac (fun K0 => tune_lopez_PI l t K0 T c) K (rule_lopez_PI l t T c)
  | tune_lopez_PID ?l ?t ?K ?T ?c =>
      tac (fun K0 => tune_lopez_PID l t K0 T c) K (rule_lopez_PID l t T c)
  | tune_rovira_PI ?l ?t ?K ?T ?c =>
      tac (fun K0 => tune_rovira_PI l t K0 T c) K (rule_rovira_PI l t T c)
  | tune_rovira_PID ?l ?t ?K ?T ?c =>
      tac (fun K0 => tune_rovira_PID l t K0 T c) K (rule_rovira_PID l t T c)
  end.

(** The exception [e0] just raised by the step is not a [SystemExit]. *)
Ltac not_an_exit H :=
  lazymatch type of H with
  | Raise ?e0 = Raise _ =>
      match goal with
      | E : ?call = Raise e0 |- _ =>
          let Hne := fresh "Hne" in
          first
            [ with_rule call
                ltac:(fun f K r =>
                        pose proof (rule_raise _ f K e0 r E) as Hne)
            | pose proof (getitem_float_raise _ _ _ E) as Hne ];
          injection H as ->; discriminate Hne
      end
  end.

(** A membership test came out [false] although [C] says it is [true]. *)
Ltac contains_clash C :=
  match goal with
  | E : _ = false |- _ => discriminate (eq_trans (eq_sym C) E)
  end.

Lemma all_loops_exit libm K T a tau0 status msg :
  existsb (PrimFloat.eqb a) allowed_a = true ->
  all_loops libm K T a tau0 <> Raise (SystemExit status msg).
Proof.
  intros Ha H.
  destruct (mendez_contains a) as (C1 & C2 & C3 & C4).
  rewrite Ha in C1, C2, C3, C4.
  unfold all_loops, usort_loop, mendez_loop, lopez_loop, rovira_loop in H.
  unroll_loops_in H.
  repeat (step_in H; try discriminate H; try not_an_exit H;
          try first [ contains_clash C1 | contains_clash C2
                    | contains_clash C3 | contains_clash C4 ]).
Qed.

(** C9.  The four Méndez & Rímolo tables have a row for exactly the five
    values of [a] that [parse_args] admits, so for an [a] that passed the
    check every lookup succeeds and neither script can end with the
    "no coefficients for a" exit. *)
Theorem mendez_exit_unreachable a :
  existsb (PrimFloat.eqb a) allowed_a = true ->
  (map fst iae_reg = allowed_a /\ map fst itae_reg = allowed_a
   /\ map fst iae_ser = allowed_a /\ map fst itae_ser = allowed_a)
  /\ (dict_contains PrimFloat.eqb iae_reg a = true
      /\ dict_contains PrimFloat.eqb itae_reg a = true
      /\ dict_contains PrimFloat.eqb iae_ser a = true
      /\ dict_contains PrimFloat.eqb itae_ser a = true)
  /\ (forall libm K T tau0 status x,
         all_loops libm K T a tau0 <> Raise (SystemExit status (MsgNoMendez x))
         /\ construir_y_ordenar_resultados libm K T a tau0
            <> Raise (SystemExit status (MsgNoMendez x))).
Proof.
  intros Ha. split; [repeat split; reflexivity|]. split.
  - destruct (mendez_contains a) as (C1 & C2 & C3 & C4).
    rewrite Ha in C1, C2, C3, C4. auto.
  - intros libm K T tau0 status x.
    assert (Hloops := all_loops_exit libm K T a tau0 status (MsgNoMendez x) Ha).
    split; [exact Hloops|].
    unfold construir_y_ordenar_resultados.
    destruct (all_loops libm K T a tau0) as [rows|e]; simpl.
    + unfold list_sort.
      rewrite (mapM_ok _ (fun x => (Variante x, Método x, Modo x,
                                    ms_a_float (Ms_Criterio x))) rows)
        by reflexivity.
      discriminate.
    + exact Hloops.
Qed.

Lemma mendez_exit_unreachable_witness :
  dict_contains PrimFloat.eqb iae_reg 0.75 = true
  /\ dict_contains PrimFloat.eqb itae_ser 0.75 = true.
Proof.
  destruct (mendez_exit_unreachable 0.75 ltac:(vm_compute; reflexivity))
    as (_ & (C1 & _ & _ & C4) & _).
  split; assumption.
Defined.

(** ** uSORT1 and uSORT2 *)

(** The one-degree and the two-degree-of-freedom rule of a mode compute Kp,
    Ti and Td by the same text from the same coefficients. *)
Lemma usort_rules_agree libm (servo : bool) a tau0 K T c kp1 ti1 td1 b1 kp2 ti2 td2 b2 :
  (if servo then tune_usort1_servo libm a tau0 K T c
   else tune_usort1_reg libm a tau0 K T c) = Ok (kp1, ti1, td1, b1) ->
  (if servo then tune_usort2_servo libm a tau0 K T c
   else tune_usort2_reg libm a tau0 K T c) = Ok (kp2, ti2, td2, b2) ->
  kp1 = kp2 /\ ti1 = ti2 /\ td1 = td2 /\ b1 = VStr "-"
  /\ exists d0 d1 d2 s,
      getitem c "d0" = Ok d0 /\ getitem c "d1" = Ok d1 /\ getitem c "d2" = Ok d2
      /\ PyFloat.pow libm tau0 d2 = Ok s
      /\ b2 = VFloat (d0 + d1 * s).
Proof.
  intros H1 H2.
  destruct servo; unfold_tuners_in H1; unfold_tuners_in H2; unfold rbind in H1, H2;
    repeat (step_in H1; try discriminate H1);
    repeat match type of H2 with
           | context [match ?t with Ok _ => _ | Raise _ => _ end] =>
               match goal with
               | E : t = Ok _ |- _ => rewrite E in H2
               end
           | context [if ?t then _ else _] =>
               match goal with
               | E : t = _ |- _ => rewrite E in H2; cbv beta iota delta [negb] in H2
               end
           end;
    repeat (step_in H2; try discriminate H2);
    injection H1 as <- <- <- <-; injection H2 as <- <- <- <-;
    repeat split; do 4 eexists; repeat split; eassumption.
Qed.

(** The sorted table, from a run of [construir_y_ordenar_resultados] that
    returned: the outcome of every rule, and the rows in their final
    order. *)
Ltac run_construir_in H :=
  unfold construir_y_ordenar_resultados in H;
  let rows := fresh "rows" in
  let Hrows := fresh "Hrows" in
  destruct (all_loops _ _ _ _ _) as [rows|] eqn:Hrows; [|discriminate H];
  run_loops_in Hrows;
  injection Hrows as <-;
  vm_compute in H;
  injection H as <-.

(** C10.  For every valid input on which the evaluation returns and every
    (mode, controller, Ms) entry of the uSORT catalog, the table has the
    uSORT1 row and the uSORT2 row of that entry; their Kp, Ti and Td are
    equal, β of the uSORT1 row is ["-"] and β of the uSORT2 row is the number
    [d0 + d1 * tau0 ** d2]. *)
Theorem usort_variants_agree libm K T a tau0 rs :
  valid_input K T a tau0 ->
  construir_y_ordenar_resultados libm K T a tau0 = Ok rs ->
  forall modo by_mode controlador by_ms Ms coeffs,
    In (modo, by_mode) get_usort_coeffs ->
    In (controlador, by_ms) by_mode ->
    In (Ms, coeffs) by_ms ->
    exists r1 r2,
      In r1 rs /\ In r2 rs
      /\ labels r1 = ((controlador ++ " 1GdL")%string, "uSORT1", capitalize modo,
                      PyFloat.format_1f Ms)
      /\ labels r2 = ((controlador ++ " 2GdL")%string, "uSORT2", capitalize modo,
                      PyFloat.format_1f Ms)
      /\ Kp r1 = Kp r2 /\ Ti r1 = Ti r2 /\ Td r1 = Td r2
      /\ β r1 = VStr "-"
      /\ exists d0 d1 d2 s,
          getitem coeffs "d0" = Ok d0 /\ getitem coeffs "d1" = Ok d1
          /\ getitem coeffs "d2" = Ok d2
          /\ PyFloat.pow libm tau0 d2 = Ok s
          /\ β r2 = VFloat (d0 + d1 * s).
Proof.
  intros _ H modo by_mode controlador by_ms Ms coeffs Hmodo Hctrl HMs.
  run_construir_in H.
  unfold get_usort_coeffs in Hmodo.
  repeat match goal with
         | Hin : In _ (_ :: _) |- _ => destruct Hin as [Hin|Hin]
         | Hin : In _ [] |- _ => destruct Hin
         | Heq : (_, _) = (_, _) |- _ => injection Heq as <- <-
         end;
    match goal with
    | |- context [getitem ?c "d0"] =>
        match goal with
        | E1 : ?call1 = Ok (?kp1, ?ti1, ?td1, ?b1),
          E2 : ?call2 = Ok (?kp2, ?ti2, ?td2, ?b2) |- _ =>
            first
              [ destruct (usort_rules_agree libm false a tau0 K T c
                            kp1 ti1 td1 b1 kp2 ti2 td2 b2 E1 E2)
                  as (<- & <- & <- & -> & Hbeta)
              | destruct (usort_rules_agree libm true a tau0 K T c
                            kp1 ti1 td1 b1 kp2 ti2 td2 b2 E1 E2)
                  as (<- & <- & <- & -> & Hbeta) ];
            match type of E2 with
            | _ = Ok (_, _, _, ?b) =>
                match goal with
                | |- exists r1 r2, _ /\ _ /\ labels _ = (?v1, _, ?m, ?ms) /\
                                   labels _ = (?v2, _, _, _) /\ _ =>
                    exists (mk_row "uSORT1" v1 m ms kp1 ti1 td1 (VStr "-")),
                      (mk_row "uSORT2" v2 m ms kp1 ti1 td1 b)
                end
            end
        end
    end;
    (split; [in_list|]); (split; [in_list|]);
    repeat (split; [reflexivity|]); exact Hbeta.
Qed.

Lemma usort_variants_agree_witness :
  exists rs r1 r2,
    construir_y_ordenar_resultados PyFloat.pow_series 2 5 0.5 0.3 = Ok rs
    /\ In r1 rs /\ In r2 rs
    /\ labels r1 = ("PID 1GdL", "uSORT1", "Servo", "1.8")
    /\ labels r2 = ("PID 2GdL", "uSORT2", "Servo", "1.8")
    /\ Kp r1 = Kp r2 /\ Ti r1 = Ti r2 /\ Td r1 = Td r2.
Proof.
  destruct (construir_y_ordenar_resultados PyFloat.pow_series 2 5 0.5 0.3)
    as [rs|e] eqn:E; [|vm_compute in E; discriminate E].
  destruct (usort_variants_agree PyFloat.pow_series 2 5 0.5 0.3 rs
              ltac:(repeat split; reflexivity) E
              "servo" _ "PID" _ 1.8 _
              ltac:(right; left; reflexivity)
              ltac:(right; left; reflexivity)
              ltac:(left; reflexivity))
    as (r1 & r2 & H1 & H2 & L1 & L2 & HK & HTi & HTd & _).
  exists rs, r1, r2. repeat split; assumption.
Defined.

(** ** The process gain

    Two runs of the loops, on the same input but for the gain, are followed
    side by side: whenever the first returns, so does the second, and the
    lists [all_results] stay related row by row. *)

Section TwoRuns.
Variable R : row -> row -> Prop.

Lemma related_bind {A B} (Q : A -> A -> Prop) (Q' : B -> B -> Prop)
      (m m' : M A) (k k' : A -> M B) :
  related R Q m m' ->
  (forall x x', Q x x' -> related R Q' (k x) (k' x')) ->
  related R Q' (mbind m k) (mbind m' k').
Proof.
  intros Hm Hk s s' Hs y t H. unfold mbind in *.
  destruct (m s) as [[x u]|] eqn:E; [|discriminate H].
  destruct (Hm s s' Hs x u E) as (x' & u' & -> & Hx & Hu).
  exact (Hk x x' Hx u u' Hu y t H).
Qed.

Lemma related_lift {A} (Q : A -> A -> Prop) (r r' : result A) :
  (forall x, r = Ok x -> exists x', r' = Ok x' /\ Q x x') ->
  related R Q (lift r) (lift r').
Proof.
  intros Hr s s' Hs x t H. unfold lift in *.
  destruct r as [y|]; [|discriminate H]. injection H as <- <-.
  destruct (Hr y eq_refl) as (x' & -> & Hx). eauto.
Qed.

Lemma related_lift_same {A} (r : result A) : related R eq (lift r) (lift r).
Proof. apply related_lift. eauto. Qed.

Lemma related_append (x x' : row) :
  R x x' -> related R (fun _ _ => True) (append x) (append x').
Proof.
  intros Hx s s' Hs u t [= <- <-]. unfold append.
  do 2 eexists. split; [reflexivity|]. split; [exact I|].
  apply Forall2_app; [exact Hs|]. constructor; [exact Hx|constructor].
Qed.

Lemma related_for_each {A} (l : list A) (body body' : A -> M unit) :
  (forall x, related R (fun _ _ => True) (body x) (body' x)) ->
  related R (fun _ _ => True) (for_each l body) (for_each l body').
Proof.
  intros Hb. induction l as [|x l IH]; simpl.
  - intros s s' Hs u t [= <- <-]. unfold mret. eauto.
  - eapply related_bind; [apply Hb|]. intros _ _ _. exact IH.
Qed.

Lemma related_exit {A} (e : exn) (m' : M A) (Q : A -> A -> Prop) :
  related R Q (lift (Raise e)) m'.
Proof. intros s s' _ x t H. discriminate H. Qed.

(** Sorting two related R lists on keys that agree keeps them related. *)
Lemma insert_by_related {Kt} (lt : Kt -> Kt -> bool) (x x' : Kt * row) l l' :
  fst x = fst x' -> R (snd x) (snd x') ->
  Forall2 (fun y y' => fst y = fst y' /\ R (snd y) (snd y')) l l' ->
  Forall2 (fun y y' => fst y = fst y' /\ R (snd y) (snd y'))
          (insert_by lt x l) (insert_by lt x' l').
Proof.
  intros Hk Hx. induction 1 as [|y y' l l' [Hy Hy'] Hl IH]; simpl.
  - repeat constructor; assumption.
  - rewrite <- Hk, <- Hy. destruct (lt (fst y) (fst x)).
    + constructor; [split; assumption|exact IH].
    + constructor; [split; assumption|]. constructor; [split; assumption|assumption].
Qed.

Lemma stable_sort_related {Kt} (lt : Kt -> Kt -> bool) (l l' : list (Kt * row)) :
  Forall2 (fun y y' => fst y = fst y' /\ R (snd y) (snd y')) l l' ->
  Forall2 (fun y y' => fst y = fst y' /\ R (snd y) (snd y'))
          (stable_sort lt l) (stable_sort lt l').
Proof.
  induction 1 as [|y y' l l' [Hy Hy'] _ IH]; simpl; [constructor|].
  apply insert_by_related; assumption.
Qed.

Lemma Forall2_rev {A B} (P : A -> B -> Prop) l l' :
  Forall2 P l l' -> Forall2 P (rev l) (rev l').
Proof.
  induction 1; simpl; [constructor|].
  apply Forall2_app; [assumption|]. constructor; [assumption|constructor].
Qed.

Lemma list_sort_related {Kt} (lt : Kt -> Kt -> bool) (key : row -> Kt) reverse l l' s :
  (forall x x', R x x' -> key x = key x') ->
  Forall2 R l l' ->
  list_sort lt (fun x => Ok (key x)) reverse l = Ok s ->
  exists s',
    list_sort lt (fun x => Ok (key x)) reverse l' = Ok s' /\ Forall2 R s s'.
Proof.
  intros Hkey Hl H. unfold list_sort in *.
  rewrite (mapM_ok _ key l) in H by reflexivity.
  rewrite (mapM_ok _ key l') by reflexivity.
  simpl in *. injection H as <-. eexists. split; [reflexivity|].
  assert (Hd : Forall2 (fun y y' => fst y = fst y' /\ R (snd y) (snd y'))
                       (combine (map key l) l) (combine (map key l') l')).
  { induction Hl as [|x x' l l' Hx _ IH]; simpl; constructor.
    - simpl. split; [apply Hkey; exact Hx|exact Hx].
    - apply IH. }
  assert (Hs : Forall2 (fun y y' => fst y = fst y' /\ R (snd y) (snd y'))
                       (sort_decorated lt reverse (combine (map key l) l))
                       (sort_decorated lt reverse (combine (map key l') l'))).
  { unfold sort_decorated. destruct reverse.
    - apply Forall2_rev, stable_sort_related, Forall2_rev, Hd.
    - apply stable_sort_related, Hd. }
  clear Hd. induction Hs as [|y y' ? ? [_ Hy] _ IH]; simpl; constructor; auto.
Qed.
End TwoRuns.

Lemma rule_related libm f K K' :
  rule libm f -> (K' =? 0) = false ->
  forall t, f K = Ok t -> exists t', f K' = Ok t' /\ tuning_but_gain K K' t t'.
Proof.
  intros Hf HK' [[[kp ti] td] b] H.
  destruct (rule_gain libm f K K' kp ti td b Hf H HK') as (kappa & -> & H').
  eexists. split; [exact H'|]. exists kappa, ti, td, b. auto.
Qed.

Section GainRuns.
Variable libm : float -> float -> option float.
Variables K K' T a tau0 : float.
Hypothesis K'_nonzero : (K' =? 0) = false.

Local Abbreviation R := (same_but_gain K K').

(** One rule, then the row built from its result. *)
Lemma row_related (f : float -> result tuning) (v m mo c : string) :
  rule libm f ->
  related R (fun _ _ => True)
    (mbind (lift (f K)) (fun x =>
       let '(kp, ti, td, b) := x in
       append (mk_row m v mo c kp ti td b)))
    (mbind (lift (f K')) (fun x =>
       let '(kp, ti, td, b) := x in
       append (mk_row m v mo c kp ti td b))).
Proof.
  intros Hf. eapply related_bind.
  - apply related_lift. apply (rule_related libm f K K'); assumption.
  - intros t t' (kappa & ti & td & b & -> & ->).
    apply related_append. unfold same_but_gain, labels. simpl.
    repeat split. exists kappa. auto.
Qed.

Lemma usort_loop_related :
  related R (fun _ _ => True)
    (usort_loop libm K T a tau0) (usort_loop libm K' T a tau0).
Proof.
  unfold usort_loop.
  apply related_for_each; intros modo.
  apply related_for_each; intros controlador.
  eapply related_bind; [apply related_lift_same|]. intros by_mode ? <-.
  eapply related_bind; [apply related_lift_same|]. intros by_ms ? <-.
  apply related_for_each; intros [Ms coeffs].
  eapply related_bind.
  - apply related_lift.
    destruct (String.eqb modo "regulador").
    + apply (rule_related libm (fun K0 => tune_usort1_reg libm a tau0 K0 T coeffs));
        [apply rule_usort1_reg|assumption].
    + apply (rule_related libm (fun K0 => tune_usort1_servo libm a tau0 K0 T coeffs));
        [apply rule_usort1_servo|assumption].
  - intros t t' (kappa & ti & td & b & -> & ->).
    eapply related_bind.
    + apply related_append. unfold same_but_gain, labels. simpl.
      repeat split. exists kappa. auto.
    + intros _ _ _. eapply related_bind.
      * apply related_lift.
        destruct (String.eqb modo "regulador").
        -- apply (rule_related libm (fun K0 => tune_usort2_reg libm a tau0 K0 T coeffs));
             [apply rule_usort2_reg|assumption].
        -- apply (rule_related libm (fun K0 => tune_usort2_servo libm a tau0 K0 T coeffs));
             [apply rule_usort2_servo|assumption].
      * intros t t' (kappa2 & ti2 & td2 & b2 & -> & ->).
        apply related_append. unfold same_but_gain, labels. simpl.
        repeat split. exists kappa2. auto.
Qed.

Lemma mendez_loop_related :
  related R (fun _ _ => True)
    (mendez_loop libm K T a tau0) (mendez_loop libm K' T a tau0).
Proof.
  unfold mendez_loop, get_mendez_coeffs.
  apply related_for_each; intros [[crit coeff_dict_reg] coeff_dict_ser].
  destruct (negb (dict_contains PrimFloat.eqb coeff_dict_reg a)
            || negb (dict_contains PrimFloat.eqb coeff_dict_ser a));
    [apply related_exit|].
  eapply related_bind; [apply related_lift_same|]. intros c ? <-.
  eapply related_bind.
  - apply related_lift.
    destruct (String.eqb crit "IAE").
    + apply (rule_related libm (fun K0 => tune_mendez_reg_IAE libm a tau0 K0 T c));
        [apply rule_mendez_reg_IAE|assumption].
    + apply (rule_related libm (fun K0 => tune_mendez_reg_ITAE libm a tau0 K0 T c));
        [apply rule_mendez_reg_ITAE|assumption].
  - intros t t' (kappa & ti & td & b & -> & ->).
    eapply related_bind.
    + apply related_append. unfold same_but_gain, labels. simpl.
      repeat split. exists kappa. auto.
    + intros _ _ _.
      eapply related_bind; [apply related_lift_same|]. intros c' ? <-.
      destruct (String.eqb crit "IAE").
      * apply (row_related (fun K0 => tune_mendez_ser_IAE libm a tau0 K0 T c')).
        apply rule_mendez_ser_IAE.
      * apply (row_related (fun K0 => tune_mendez_ser_ITAE libm a tau0 K0 T c')).
        apply rule_mendez_ser_ITAE.
Qed.

Lemma lopez_loop_related :
  related R (fun _ _ => True)
    (lopez_loop libm K T tau0) (lopez_loop libm K' T tau0).
Proof.
  unfold lopez_loop.
  apply related_for_each; intros ctrl_type.
  apply related_for_each; intros crit.
  eapply related_bind; [apply related_lift_same|]. intros by_crit ? <-.
  eapply related_bind; [apply related_lift_same|]. intros params ? <-.
  destruct (String.eqb ctrl_type "P"); [|destruct (String.eqb ctrl_type "PI")].
  - apply (row_related (fun K0 => tune_lopez_P libm tau0 K0 params)).
    apply rule_lopez_P.
  - apply (row_related (fun K0 => tune_lopez_PI libm tau0 K0 T params)).
    apply rule_lopez_PI.
  - apply (row_related (fun K0 => tune_lopez_PID libm tau0 K0 T params)).
    apply rule_lopez_PID.
Qed.

Lemma rovira_loop_related :
  related R (fun _ _ => True)
    (rovira_loop libm K T tau0) (rovira_loop libm K' T tau0).
Proof.
  unfold rovira_loop.
  apply related_for_each; intros ctrl_type.
  apply related_for_each; intros crit.
  eapply related_bind; [apply related_lift_same|]. intros by_crit ? <-.
  eapply related_bind; [apply related_lift_same|]. intros params ? <-.
  destruct (String.eqb ctrl_type "PI").
  - apply (row_related (fun K0 => tune_rovira_PI libm tau0 K0 T params)).
    apply rule_rovira_PI.
  - apply (row_related (fun K0 => tune_rovira_PID libm tau0 K0 T params)).
    apply rule_rovira_PID.
Qed.

Lemma all_loops_related rows :
  all_loops libm K T a tau0 = Ok rows ->
  exists rows', all_loops libm K' T a tau0 = Ok rows' /\ Forall2 R rows rows'.
Proof.
  unfold all_loops. intros H.
  destruct (mbind _ _ []) as [[u t]|] eqn:E in H; [|discriminate H].
  injection H as <-.
  assert (Hrel : related R (fun _ _ => True)
                   (mbind (usort_loop libm K T a tau0) (fun _ =>
                    mbind (mendez_loop libm K T a tau0) (fun _ =>
                    mbind (lopez_loop libm K T tau0) (fun _ =>
                    rovira_loop libm K T tau0))))
                   (mbind (usort_loop libm K' T a tau0) (fun _ =>
                    mbind (mendez_loop libm K' T a tau0) (fun _ =>
                    mbind (lopez_loop libm K' T tau0) (fun _ =>
                    rovira_loop libm K' T tau0))))).
  { eapply related_bind; [apply usort_loop_related|]. intros _ _ _.
    eapply related_bind; [apply mendez_loop_related|]. intros _ _ _.
    eapply related_bind; [apply lopez_loop_related|]. intros _ _ _.
    apply rovira_loop_related. }
  destruct (Hrel [] [] (Forall2_nil _) u t E) as (u' & t' & -> & _ & Ht).
  eauto.
Qed.
End GainRuns.

(** C6, as the code has it.  For every valid input on which the evaluation
    returns, evaluating with another valid gain [K'] (for instance [2K])
    returns too; row by row the labels, Ti, Td and β are unchanged, and Kp
    is one numerator, which does not depend on the gain, divided by [K] in
    the first table and by [K'] in the second. *)
Theorem gain_only_divides libm K K' T a tau0 rs :
  valid_input K T a tau0 ->
  valid_input K' T a tau0 ->
  construir_y_ordenar_resultados libm K T a tau0 = Ok rs ->
  exists rs',
    construir_y_ordenar_resultados libm K' T a tau0 = Ok rs'
    /\ Forall2 (same_but_gain K K') rs rs'.
Proof.
  intros _ (HK' & _) H.
  apply leb_false_nonzero in HK'.
  unfold construir_y_ordenar_resultados in *.
  destruct (all_loops libm K T a tau0) as [rows|] eqn:E; [|discriminate H].
  destruct (all_loops_related libm K K' T a tau0 HK' rows E) as (rows' & -> & Hrows).
  simpl in *.
  refine (list_sort_related (same_but_gain K K') tuple_lt
            (fun x => (Variante x, Método x, Modo x, ms_a_float (Ms_Criterio x)))
            false rows rows' rs _ Hrows H).
  intros x x' (Hlab & _). unfold labels in Hlab.
  injection Hlab as -> -> -> ->. reflexivity.
Qed.

Lemma gain_only_divides_witness :
  exists rs rs',
    construir_y_ordenar_resultados PyFloat.pow_series 2 5 0.5 0.3 = Ok rs
    /\ construir_y_ordenar_resultados PyFloat.pow_series (2 * 2) 5 0.5 0.3 = Ok rs'
    /\ Forall2 (same_but_gain 2 (2 * 2)) rs rs'.
Proof.
  destruct (construir_y_ordenar_resultados PyFloat.pow_series 2 5 0.5 0.3)
    as [rs|e] eqn:E; [|vm_compute in E; discriminate E].
  destruct (gain_only_divides PyFloat.pow_series 2 (2 * 2) 5 0.5 0.3 rs
              ltac:(repeat split; reflexivity) ltac:(repeat split; reflexivity) E)
    as (rs' & E' & Hrel).
  exists rs, rs'. auto.
Defined.

(** C6 as stated fails in binary64: with K = 6e307, T = 5, a = 0.5 and
    tau0 = 1 (where no power reaches C's [pow]) both K and 2K are valid
    finite gains, yet the first row of the table has Kp = 1.5933e-308 for K
    and 7.9666666666666687e-309 for 2K, which is not half of the former
    (7.9666666666666637e-309): the quotient is subnormal and rounds. *)
Lemma halving_inexact :
  exists r rest r' rest',
    construir_y_ordenar_resultados PyFloat.pow_series 6e307 5 0.5 1 = Ok (r :: rest)
    /\ construir_y_ordenar_resultados PyFloat.pow_series (2 * 6e307) 5 0.5 1
       = Ok (r' :: rest')
    /\ labels r = labels r'
    /\ (Kp r' =? Kp r / 2) = false
    /\ valid_input 6e307 5 0.5 1 /\ valid_input (2 * 6e307) 5 0.5 1.
Proof.
  do 4 eexists.
  split; [vm_compute; reflexivity|].
  split; [vm_compute; reflexivity|].
  repeat split; vm_compute; reflexivity.
Qed.

(** ** The worked example *)

(** What every uSORT regulator rule computes for Kp. *)
Lemma usort1_reg_kp libm a tau0 K T c kp ti td b :
  tune_usort1_reg libm a tau0 K T c = Ok (kp, ti, td, b) ->
  exists a0 a1 a2 p,
    getitem c "a0" = Ok a0 /\ getitem c "a1" = Ok a1 /\ getitem c "a2" = Ok a2
    /\ PyFloat.pow libm tau0 a2 = Ok p
    /\ kp = (a0 + a1 * p) / K.
Proof.
  intros H. unfold tune_usort1_reg, rbind in H.
  repeat (step_in H; try discriminate H).
  match goal with
  | E : PyFloat.truediv _ K = Ok _ |- _ =>
      unfold PyFloat.truediv in E; destruct (K =? 0); [discriminate E|];
      injection E as <-
  end.
  injection H as <- _ _ _.
  do 4 eexists. repeat split; eassumption || reflexivity.
Qed.

(** C2.  For K = 2.0, T = 5.0, a = 0.5, tau0 = 0.3, when the evaluation
    returns, the table has the row uSORT1 / PI 1GdL / Regulador / Ms 2.0,
    and its Kp is [(0.265 + 0.603 * p) / 2.0] with [p] the value C's [pow]
    gives for [0.3 ** -0.971]: the catalog holds a0 = 0.265, a1 = 0.603,
    a2 = -0.971 for that combination, and the rule computes
    [(a0 + a1 * tau0 ** a2) / K]. *)
Theorem worked_example_kp libm rs :
  construir_y_ordenar_resultados libm 2.0 5.0 0.5 0.3 = Ok rs ->
  (exists r p,
      In r rs
      /\ labels r = ("PI 1GdL", "uSORT1", "Regulador", "2.0")
      /\ libm 0.3 (-0.971) = Some p
      /\ Kp r = (0.265 + 0.603 * p) / 2.0)
  /\ (exists by_mode by_ms c,
         getitem get_usort_coeffs "regulador" = Ok by_mode
         /\ getitem by_mode "PI" = Ok by_ms
         /\ getitem_float by_ms 2.0 = Ok c
         /\ getitem c "a0" = Ok 0.265 /\ getitem c "a1" = Ok 0.603
         /\ getitem c "a2" = Ok (-0.971)).
Proof.
  intros H. split.
  - run_construir_in H.
    match goal with
    | E : tune_usort1_reg _ _ _ _ _ ?c = Ok (?kp, ?ti, ?td, ?b) |- _ =>
        assert (getitem c "a2" = Ok (-0.971)) by (vm_compute; reflexivity);
        destruct (usort1_reg_kp _ _ _ _ _ _ _ _ _ _ E)
          as (ca0 & ca1 & ca2 & pw & H0 & H1 & H2 & Hp & Hkp);
        exists (mk_row "uSORT1" "PI 1GdL" "Regulador" "2.0" kp ti td b)
    end.
    vm_compute in H0, H1, H2.
    injection H0 as <-. injection H1 as <-. injection H2 as <-.
    unfold PyFloat.pow in Hp. cbn in Hp.
    destruct (libm 0.3 (-0.971)) as [pw'|] eqn:Hlibm; [|discriminate Hp].
    injection Hp as <-.
    exists pw'. split; [in_list|]. repeat split. exact Hkp.
  - do 3 eexists. repeat split; vm_compute; reflexivity.
Qed.

Lemma worked_example_kp_witness :
  exists rs r p,
    construir_y_ordenar_resultados PyFloat.pow_series 2.0 5.0 0.5 0.3 = Ok rs
    /\ In r rs
    /\ labels r = ("PI 1GdL", "uSORT1", "Regulador", "2.0")
    /\ PyFloat.pow_series 0.3 (-0.971) = Some p
    /\ Kp r = (0.265 + 0.603 * p) / 2.0.
Proof.
  destruct (construir_y_ordenar_resultados PyFloat.pow_series 2.0 5.0 0.5 0.3)
    as [rs|e] eqn:E; [|vm_compute in E; discriminate E].
  destruct (worked_example_kp PyFloat.pow_series rs E)
    as ((r & p & Hin & Hlab & Hp & Hkp) & _).
  exists rs, r, p. auto.
Defined.

(** ** Quotients in the integral time *)

Ltac rule_equation :=
  unfold_tuners; unfold rbind;
  repeat match goal with
         | E : ?t = Ok _ |- context [?t] => rewrite E
         end;
  unfold PyFloat.truediv, guarded_quotient;
  repeat match goal with
         | E : ?t = false |- context [?t] => rewrite E
         end;
  cbv beta iota delta [negb];
  repeat match goal with
         | |- context [if ?d =? 0 then _ else _] =>
             destruct (d =? 0) eqn:?; cbv beta iota delta [negb]
         end;
  reflexivity.

(** C7.  In the three rules whose integral time is a quotient (uSORT servo,
    Méndez & Rímolo servo, Rovira PI), whenever the coefficients are present,
    the powers are defined and K is not zero, the rule returns; its τi is 0
    when the denominator is exactly zero and the quotient otherwise, so the
    division never raises. *)
Theorem zero_denominator_gives_zero libm a tau0 K T c :
  (K =? 0) = false ->
  (forall a0 a1 a2 b0 b1 b2 b3 c0 c1 c2 p sq r,
      getitem c "a0" = Ok a0 -> getitem c "a1" = Ok a1 -> getitem c "a2" = Ok a2 ->
      getitem c "b0" = Ok b0 -> getitem c "b1" = Ok b1 -> getitem c "b2" = Ok b2 ->
      getitem c "b3" = Ok b3 ->
      getitem c "c0" = Ok c0 -> getitem c "c1" = Ok c1 -> getitem c "c2" = Ok c2 ->
      PyFloat.pow libm tau0 a2 = Ok p ->
      PyFloat.pow libm tau0 2 = Ok sq ->
      PyFloat.pow libm tau0 c2 = Ok r ->
      let tau_i := guarded_quotient (b0 + b1 * tau0 + b2 * sq) (b3 + tau0) in
      tune_usort1_servo libm a tau0 K T c
      = Ok ((a0 + a1 * p) / K, tau_i * T, (c0 + c1 * r) * T, VStr "-")
      /\ forall d0 d1 d2 s,
          getitem c "d0" = Ok d0 -> getitem c "d1" = Ok d1 -> getitem c "d2" = Ok d2 ->
          PyFloat.pow libm tau0 d2 = Ok s ->
          tune_usort2_servo libm a tau0 K T c
          = Ok ((a0 + a1 * p) / K, tau_i * T, (c0 + c1 * r) * T,
                VFloat (d0 + d1 * s)))
  /\ (forall a0 a1 a2 b0 b1 b2 p q,
         getitem c "a0" = Ok a0 -> getitem c "a1" = Ok a1 -> getitem c "a2" = Ok a2 ->
         getitem c "b0" = Ok b0 -> getitem c "b1" = Ok b1 -> getitem c "b2" = Ok b2 ->
         PyFloat.pow libm tau0 a2 = Ok p ->
         PyFloat.pow libm tau0 b2 = Ok q ->
         let tau_i := guarded_quotient (b0 * tau0 + b1 * q) (1.0 + tau0) in
         tune_mendez_ser_IAE libm a tau0 K T c
         = Ok ((a0 + a1 * p) / K, tau_i * T, 0.0, VStr "-")
         /\ tune_mendez_ser_ITAE libm a tau0 K T c
            = Ok ((a0 + a1 * p) / K, tau_i * T, 0.0, VStr "-"))
  /\ (forall pa pb pc pd p,
         getitem c "a" = Ok pa -> getitem c "b" = Ok pb ->
         getitem c "c" = Ok pc -> getitem c "d" = Ok pd ->
         PyFloat.pow libm tau0 pb = Ok p ->
         let tau_i := guarded_quotient 1.0 (pc + pd * tau0) in
         tune_rovira_PI libm tau0 K T c
         = Ok (pa * p / K, tau_i * T, 0.0, VStr "-")).
Proof.
  intros HK. repeat split; intros; try subst tau_i; cbv zeta; rule_equation.
Qed.

(** With c = 1 and d = -1 the denominator of Rovira's PI rule is exactly
    zero at tau0 = 1: the rule returns Ti = 0 * T. *)
Lemma zero_denominator_gives_zero_witness :
  let params := [("a", 1); ("b", 1); ("c", 1); ("d", -1)] in
  (1 + -1 * 1 =? 0) = true
  /\ tune_rovira_PI PyFloat.pow_series 1 2 5 params = Ok (1 * 1 / 2, 0 * 5, 0, VStr "-").
Proof.
  intros params. split; [reflexivity|].
  exact (proj2 (proj2 (zero_denominator_gives_zero PyFloat.pow_series 0 1 2 5 params
                         ltac:(reflexivity)))
           1 1 1 (-1) 1
           ltac:(reflexivity) ltac:(reflexivity) ltac:(reflexivity)
           ltac:(reflexivity) ltac:(vm_compute; reflexivity)).
Defined.

(** ** The interactive table *)

Lemma construir_in_catalog libm K T a tau0 rs :
  construir_y_ordenar_resultados libm K T a tau0 = Ok rs ->
  Forall in_catalog rs.
Proof.
  intros H. run_construir_in H.
  repeat (apply Forall_cons;
          [unfold in_catalog; cbn [Ms_Criterio Método Variante Modo];
           split; [in_list|split; [in_list|split; in_list]]|]).
  apply Forall_nil.
Qed.

Lemma sortable_cases columna :
  In columna TuningApp.sortable ->
  columna = "Variante" \/ columna = "Método" \/ columna = "Modo"
  \/ columna = "Ms/Criterio".
Proof. simpl. intuition. Qed.

Lemma keyfunc_ok columna x :
  In columna TuningApp.sortable ->
  TuningApp.keyfunc columna x = Ok (column_key columna x).
Proof.
  intros H. apply sortable_cases in H.
  destruct H as [->|[->|[->| ->]]]; reflexivity.
Qed.

Lemma column_values_increasing columna :
  In columna TuningApp.sortable -> increasing py_lt (column_values columna).
Proof.
  intros H. apply sortable_cases in H.
  destruct H as [->|[->|[->| ->]]]; cbn -[py_lt];
    repeat match goal with
           | |- _ /\ _ => split
           | |- Forall _ (_ :: _) => apply Forall_cons
           | |- Forall _ [] => apply Forall_nil
           | |- True => exact I
           | |- _ = _ => reflexivity
           end.
Qed.

Lemma in_catalog_key columna x :
  In columna TuningApp.sortable -> in_catalog x ->
  In (column_key columna x) (column_values columna).
Proof.
  intros H (HMs & HMet & HVar & HModo). apply sortable_cases in H.
  destruct H as [->|[->|[->| ->]]]; unfold column_key, column_values;
    cbn [String.eqb Ascii.eqb Bool.eqb].
  - apply in_map. exact HVar.
  - apply in_map. exact HMet.
  - apply in_map. exact HModo.
  - simpl in HMs.
    repeat (destruct HMs as [<-|HMs]; [in_list|]). destruct HMs.
Qed.

(** The clicks only reorder the table. *)
Lemma click_permutation columna st st' :
  TuningApp.on_data_table_header_selected columna st = Ok st' ->
  Permutation (TuningApp.all_results st') (TuningApp.all_results st).
Proof.
  unfold TuningApp.on_data_table_header_selected.
  destruct (negb (existsb (String.eqb columna) TuningApp.sortable)).
  - intros [= <-]. reflexivity.
  - destruct (list_sort _ _ _ _) as [rows|] eqn:E; [|discriminate].
    simpl. intros [= <-]. simpl. eapply list_sort_perm. exact E.
Qed.

Lemma reachable_in_catalog libm argv st :
  reachable libm argv st -> Forall in_catalog (TuningApp.all_results st).
Proof.
  induction 1 as [st Hrun|st columna st' _ IH Hclick].
  - unfold TuningApp.run, TuningApp.on_mount in Hrun.
    destruct (parse_args argv) as [[[[K T] a] tau0]|]; [|discriminate Hrun].
    simpl in Hrun.
    destruct (construir_y_ordenar_resultados libm K T a tau0) as [rows|] eqn:E;
      [|discriminate Hrun].
    simpl in Hrun. injection Hrun as <-. simpl.
    eapply construir_in_catalog. exact E.
  - eapply Permutation_Forall; [|exact IH].
    symmetry. eapply click_permutation. exact Hclick.
Qed.

(** A click on a sortable column: the new direction, and the table block
    by block. *)
Lemma click_blocks columna st st' :
  In columna TuningApp.sortable ->
  Forall in_catalog (TuningApp.all_results st) ->
  TuningApp.on_data_table_header_selected columna st = Ok st' ->
  let asc_actual :=
    String.eqb (fst (TuningApp.current_sort st)) columna
    && Bool.eqb (snd (TuningApp.current_sort st)) true in
  TuningApp.current_sort st' = (columna, negb asc_actual)
  /\ TuningApp.all_results st'
     = flat_map (block py_lt (column_key columna) (TuningApp.all_results st))
         (if asc_actual then rev (column_values columna)
          else column_values columna).
Proof.
  intros Hcol Hcat H asc_actual.
  unfold TuningApp.on_data_table_header_selected in H.
  assert (Hs : existsb (String.eqb columna) TuningApp.sortable = true).
  { apply existsb_exists. exists columna. split; [exact Hcol|apply String.eqb_refl]. }
  rewrite Hs in H. cbn [negb] in H.
  rewrite (list_sort_blocks row pyval py_lt (column_values columna)
             (column_values_increasing columna Hcol)
             (TuningApp.keyfunc columna) (column_key columna)) in H.
  - fold asc_actual in H. rewrite negb_involutive in H.
    cbn [rbind] in H. injection H as <-. split; reflexivity.
  - intros x _. apply keyfunc_ok. exact Hcol.
  - intros x Hx. apply in_catalog_key; [exact Hcol|].
    rewrite Forall_forall in Hcat. apply Hcat. exact Hx.
Qed.

(** ** Sorting by Ms/Criterio *)

Lemma sorted_app {A} (R : A -> A -> Prop) (l1 l2 : list A) :
  StronglySorted R l1 -> StronglySorted R l2 ->
  (forall x y, In x l1 -> In y l2 -> R x y) ->
  StronglySorted R (l1 ++ l2).
Proof.
  induction 1 as [|x l1 Hs IH Hx]; simpl; intros H2 H12; [exact H2|].
  constructor.
  - apply IH; [exact H2|]. intros; apply H12; auto.
  - apply Forall_app. split; [exact Hx|].
    apply Forall_forall. intros y Hy. apply H12; auto.
Qed.

Lemma sorted_constant {A} (R : A -> A -> Prop) (P : A -> Prop) (l : list A) :
  (forall x y, P x -> P y -> R x y) -> Forall P l -> StronglySorted R l.
Proof.
  intros HR. induction 1 as [|x l Hx Hl IH]; constructor; [exact IH|].
  apply Forall_forall. intros y Hy. apply HR; [exact Hx|].
  rewrite Forall_forall in Hl. auto.
Qed.

(** The rows of one block of the Ms/Criterio column: what their criterion
    parses to. *)
Lemma ms_block_parse (l : list row) (k : pyval) (P : string -> Prop) :
  Forall in_catalog l ->
  (forall s, In s ["1.6"; "1.8"; "2.0"; "IAE"; "ISE"; "ITAE"] ->
             tie py_lt (VFloat (ms_a_float s)) k = true -> P s) ->
  Forall (fun r => P (Ms_Criterio r)) (block py_lt (column_key "Ms/Criterio") l k).
Proof.
  intros Hcat HP. apply Forall_forall. intros r Hr.
  apply filter_In in Hr. destruct Hr as [Hr Ht].
  rewrite Forall_forall in Hcat. destruct (Hcat r Hr) as (HMs & _).
  apply HP; assumption.
Qed.

Ltac by_criterion :=
  let s := fresh "s" in
  let Hs := fresh "Hs" in
  let Ht := fresh "Ht" in
  intros s Hs Ht; simpl in Hs;
  repeat (destruct Hs as [<-|Hs];
          [first [ discriminate Ht | vm_compute; eauto ]|]);
  destruct Hs.

(** C4.  After a click that sorts the table in ascending order by
    Ms/Criterio, the rows whose criterion parses as a number come first, in
    non-decreasing order of that number, and every row whose criterion does
    not parse (ISE, IAE, ITAE) comes after all of them. *)
Theorem numeric_criteria_first libm argv st st' :
  reachable libm argv st ->
  TuningApp.on_data_table_header_selected "Ms/Criterio" st = Ok st' ->
  snd (TuningApp.current_sort st') = true ->
  exists numeric named,
    TuningApp.all_results st' = numeric ++ named
    /\ Forall (fun r => exists x, PyFloat.of_string (Ms_Criterio r) = Some x) numeric
    /\ Forall (fun r => PyFloat.of_string (Ms_Criterio r) = None
                        /\ In (Ms_Criterio r) ["ISE"; "IAE"; "ITAE"]) named
    /\ StronglySorted
         (fun r1 r2 =>
            (ms_a_float (Ms_Criterio r1) <=? ms_a_float (Ms_Criterio r2)) = true)
         numeric.
Proof.
  intros Hreach Hclick Hasc.
  assert (Hcat := reachable_in_catalog libm argv st Hreach).
  destruct (click_blocks "Ms/Criterio" st st'
              ltac:(simpl; tauto) Hcat Hclick) as [Hsort Hrows].
  rewrite Hsort in Hasc. cbn [snd] in Hasc.
  apply negb_true_iff in Hasc. rewrite Hasc in Hrows.
  change (column_values "Ms/Criterio")
    with [VFloat 1.6; VFloat 1.8; VFloat 2.0; VFloat infinity] in Hrows.
  cbn [flat_map] in Hrows. rewrite app_nil_r in Hrows.
  set (blk := block py_lt (column_key "Ms/Criterio") (TuningApp.all_results st)) in *.
  assert (H16 : Forall (fun r => PyFloat.of_string (Ms_Criterio r) = Some 1.6)
                       (blk (VFloat 1.6)))
    by (apply (ms_block_parse _ _ (fun s => PyFloat.of_string s = Some 1.6) Hcat);
        by_criterion).
  assert (H18 : Forall (fun r => PyFloat.of_string (Ms_Criterio r) = Some 1.8)
                       (blk (VFloat 1.8)))
    by (apply (ms_block_parse _ _ (fun s => PyFloat.of_string s = Some 1.8) Hcat);
        by_criterion).
  assert (H20 : Forall (fun r => PyFloat.of_string (Ms_Criterio r) = Some 2.0)
                       (blk (VFloat 2.0)))
    by (apply (ms_block_parse _ _ (fun s => PyFloat.of_string s = Some 2.0) Hcat);
        by_criterion).
  assert (Hinf : Forall (fun r => PyFloat.of_string (Ms_Criterio r) = None
                                  /\ In (Ms_Criterio r) ["ISE"; "IAE"; "ITAE"])
                        (blk (VFloat infinity)))
    by (apply (ms_block_parse _ _
                 (fun s => PyFloat.of_string s = None /\ In s ["ISE"; "IAE"; "ITAE"])
                 Hcat);
        by_criterion).
  exists (blk (VFloat 1.6) ++ blk (VFloat 1.8) ++ blk (VFloat 2.0)),
    (blk (VFloat infinity)).
  split; [rewrite Hrows, <- !app_assoc; reflexivity|].
  split; [|split; [exact Hinf|]].
  - repeat (apply Forall_app; split);
      (eapply Forall_impl; [|eassumption]); cbv beta; eauto.
  - assert (Hms : forall c (b : list row),
               Forall (fun r => PyFloat.of_string (Ms_Criterio r) = Some c) b ->
               Forall (fun r => ms_a_float (Ms_Criterio r) = c) b).
    { intros c b. apply Forall_impl. intros r Hr. unfold ms_a_float.
      rewrite Hr. reflexivity. }
    apply Hms in H16, H18, H20. rewrite Forall_forall in H16, H18, H20.
    repeat apply sorted_app;
      try (eapply sorted_constant with (P := fun r => ms_a_float (Ms_Criterio r) = _);
           [|apply Forall_forall; eassumption];
           intros x y -> ->; reflexivity);
      intros x y Hx Hy;
      repeat match goal with
             | Hin : In _ (_ ++ _) |- _ => apply in_app_or in Hin; destruct Hin
             end;
      repeat match goal with
             | Hall : forall r, In r ?b -> _, Hin : In ?r ?b |- _ =>
                 rewrite (Hall r Hin); clear Hin
             end;
      reflexivity.
Qed.

Lemma numeric_criteria_first_witness :
  exists st st' numeric named,
    TuningApp.run PyFloat.pow_series ["tableTuning.py"; "2.0"; "5.0"; "0.5"; "0.3"]
    = Ok st
    /\ TuningApp.on_data_table_header_selected "Ms/Criterio" st = Ok st'
    /\ snd (TuningApp.current_sort st') = true
    /\ TuningApp.all_results st' = numeric ++ named
    /\ Forall (fun r => exists x, PyFloat.of_string (Ms_Criterio r) = Some x) numeric
    /\ Forall (fun r => PyFloat.of_string (Ms_Criterio r) = None
                        /\ In (Ms_Criterio r) ["ISE"; "IAE"; "ITAE"]) named.
Proof.
  set (argv := ["tableTuning.py"; "2.0"; "5.0"; "0.5"; "0.3"]).
  destruct (TuningApp.run PyFloat.pow_series argv) as [st|e] eqn:Hrun;
    [|vm_compute in Hrun; discriminate Hrun].
  destruct (TuningApp.on_data_table_header_selected "Ms/Criterio" st)
    as [st'|e] eqn:Hclick;
    [|vm_compute in Hrun; injection Hrun as <-;
      vm_compute in Hclick; discriminate Hclick].
  assert (Hasc : snd (TuningApp.current_sort st') = true).
  { vm_compute in Hrun. injection Hrun as <-.
    vm_compute in Hclick. injection Hclick as <-. reflexivity. }
  destruct (numeric_criteria_first PyFloat.pow_series argv st st'
              ltac:(apply reach_run; exact Hrun) Hclick Hasc)
    as (numeric & named & Hrows & Hnum & Hnamed & _).
  exists st, st', numeric, named.
  repeat (split; [first [reflexivity | assumption]|]). assumption.
Defined.

(** ** Clicking the same header twice *)

Section BlocksOfBlocks.
Variables (A Kt : Type) (lt : Kt -> Kt -> bool) (key : A -> Kt).
Variable KS : list Kt.
Hypothesis KS_increasing : increasing lt KS.
Variable l : list A.
Hypothesis keys_in_KS : forall x, In x l -> In (key x) KS.

Lemma block_key k x : In k KS -> In x (block lt key l k) -> key x = k.
Proof.
  intros Hk Hx. apply filter_In in Hx. destruct Hx as [Hx Ht].
  eapply increasing_tie; eauto.
Qed.

Lemma block_block_same k : In k KS -> block lt key (block lt key l k) k = block lt key l k.
Proof.
  intros Hk. clear keys_in_KS. unfold block.
  induction l as [|x l' IH]; simpl; [reflexivity|].
  destruct (tie lt (key x) k) eqn:E; simpl; [rewrite E|]; rewrite IH; reflexivity.
Qed.

Lemma block_block_other k k' :
  In k KS -> In k' KS -> k <> k' -> block lt key (block lt key l k') k = [].
Proof.
  intros Hk Hk' Hne.
  destruct (block lt key (block lt key l k') k) as [|x rest] eqn:E; [reflexivity|].
  assert (Hx : In x (block lt key (block lt key l k') k)) by (rewrite E; left; reflexivity).
  apply filter_In in Hx. destruct Hx as [Hx Ht].
  rewrite (block_key k' x Hk' Hx) in Ht.
  exfalso. apply Hne. symmetry.
  eapply increasing_tie; eauto.
Qed.

Lemma increasing_NoDup ks : increasing lt ks -> NoDup ks.
Proof.
  induction ks as [|k ks IH]; simpl; [constructor|].
  intros (Hk & Hall & Hinc). constructor; [|auto].
  intros Hin. rewrite Forall_forall in Hall.
  destruct (Hall k Hin) as [E _]. congruence.
Qed.

Lemma block_absent ks k :
  In k KS -> incl ks KS -> ~ In k ks ->
  block lt key (flat_map (block lt key l) ks) k = [].
Proof.
  intros Hk. induction ks as [|k1 ks IH]; simpl; intros Hincl Hnotin; [reflexivity|].
  unfold block at 1. rewrite filter_app.
  fold (block lt key (block lt key l k1) k).
  fold (block lt key (flat_map (block lt key l) ks) k).
  rewrite block_block_other, IH.
  - reflexivity.
  - intros z Hz. apply Hincl. right. exact Hz.
  - intros Hin. apply Hnotin. right. exact Hin.
  - exact Hk.
  - apply Hincl. left. reflexivity.
  - intros ->. apply Hnotin. left. reflexivity.
Qed.

(** Regrouping a table that is already grouped changes nothing. *)
Lemma block_of_blocks ks k :
  NoDup ks -> incl ks KS -> In k ks ->
  block lt key (flat_map (block lt key l) ks) k = block lt key l k.
Proof.
  induction ks as [|k0 ks IH]; simpl; [tauto|].
  intros Hnd Hincl Hin. inversion Hnd as [|? ? Hnotin Hnd']; subst.
  assert (Hk0 : In k0 KS) by (apply Hincl; left; reflexivity).
  assert (Hks : incl ks KS) by (intros z Hz; apply Hincl; right; exact Hz).
  unfold block at 1. rewrite filter_app.
  fold (block lt key (block lt key l k0) k).
  fold (block lt key (flat_map (block lt key l) ks) k).
  destruct Hin as [<-|Hin].
  - rewrite block_block_same by exact Hk0.
    rewrite block_absent by assumption. apply app_nil_r.
  - rewrite block_block_other.
    + apply IH; assumption.
    + apply Hks. exact Hin.
    + exact Hk0.
    + intros ->. contradiction.
Qed.

Lemma map_key_rev_block k :
  In k KS -> map key (rev (block lt key l k)) = map key (block lt key l k).
Proof.
  intros Hk.
  assert (Hconst : forall b : list A,
             (forall x, In x b -> key x = k) -> map key b = repeat k (length b)).
  { induction b as [|x b IH]; simpl; intros Hb; [reflexivity|].
    rewrite (Hb x (or_introl eq_refl)), IH by (intros; apply Hb; right; assumption).
    reflexivity. }
  rewrite (Hconst (rev (block lt key l k))), (Hconst (block lt key l k)).
  - rewrite length_rev. reflexivity.
  - intros x Hx. apply (block_key k x Hk Hx).
  - intros x Hx. apply in_rev in Hx. apply (block_key k x Hk Hx).
Qed.

(** Sorting the grouped table in the opposite direction: the key column is
    reversed, and each block is kept as it is. *)
Lemma regroup_reversed ks :
  NoDup ks -> incl ks KS ->
  let first := flat_map (block lt key l) ks in
  let second := flat_map (block lt key first) (rev ks) in
  second = flat_map (block lt key l) (rev ks)
  /\ map key second = rev (map key first)
  /\ forall k, In k ks -> block lt key second k = block lt key first k.
Proof.
  intros Hnd Hincl first second.
  assert (Hsecond : second = flat_map (block lt key l) (rev ks)).
  { unfold second. apply flat_map_ext_on. intros k Hk. apply in_rev in Hk.
    apply block_of_blocks; assumption. }
  split; [exact Hsecond|]. split.
  - rewrite Hsecond. unfold first.
    rewrite <- map_rev, rev_flat_map, !flat_map_concat_map, !concat_map, !map_map.
    f_equal. apply map_ext_in. intros k Hk. apply in_rev in Hk.
    symmetry. apply map_key_rev_block. apply Hincl. exact Hk.
  - intros k Hk. rewrite Hsecond. unfold first.
    rewrite !block_of_blocks; auto.
    + apply NoDup_rev. exact Hnd.
    + intros z Hz. apply Hincl. apply in_rev. exact Hz.
    + apply in_rev. rewrite rev_involutive. exact Hk.
Qed.
End BlocksOfBlocks.

(** C5, as the code has it.  Two successive clicks on the same sortable
    header sort in opposite directions: the key column of the second table
    is exactly the reverse of the key column of the first, while the rows
    that tie on the key stay in the relative order they had in the first
    table (the sort is stable in both directions). *)
Theorem second_click_reverses_keys libm argv st columna st1 st2 :
  reachable libm argv st ->
  In columna TuningApp.sortable ->
  TuningApp.on_data_table_header_selected columna st = Ok st1 ->
  TuningApp.on_data_table_header_selected columna st1 = Ok st2 ->
  let key := column_key columna in
  snd (TuningApp.current_sort st2) = negb (snd (TuningApp.current_sort st1))
  /\ map key (TuningApp.all_results st2) = rev (map key (TuningApp.all_results st1))
  /\ forall r, In r (TuningApp.all_results st1) ->
       block py_lt key (TuningApp.all_results st2) (key r)
       = block py_lt key (TuningApp.all_results st1) (key r).
Proof.
  intros Hreach Hcol H1 H2 key. subst key.
  set (key := column_key columna).
  assert (Hcat := reachable_in_catalog libm argv st Hreach).
  assert (Hcat1 : Forall in_catalog (TuningApp.all_results st1)).
  { apply (reachable_in_catalog libm argv). eapply reach_click; eassumption. }
  destruct (click_blocks columna st st1 Hcol Hcat H1) as [Hs1 Hr1].
  destruct (click_blocks columna st1 st2 Hcol Hcat1 H2) as [Hs2 Hr2].
  fold key in Hr1, Hr2.
  rewrite Hs1 in Hs2, Hr2. cbn [fst snd] in Hs2, Hr2.
  rewrite String.eqb_refl in Hs2, Hr2. cbn [andb] in Hs2, Hr2.
  set (asc0 := String.eqb (fst (TuningApp.current_sort st)) columna
               && Bool.eqb (snd (TuningApp.current_sort st)) true) in *.
  set (KS := column_values columna) in *.
  set (ks1 := if asc0 then rev KS else KS) in *.
  assert (Hks2 : (if Bool.eqb (negb asc0) true then rev KS else KS) = rev ks1).
  { unfold ks1. destruct asc0; simpl; [symmetry; apply rev_involutive|reflexivity]. }
  rewrite Hks2 in Hr2.
  assert (Hinc := column_values_increasing columna Hcol). fold KS in Hinc.
  assert (Hkeys : forall x, In x (TuningApp.all_results st) -> In (key x) KS).
  { intros x Hx. apply in_catalog_key; [exact Hcol|].
    rewrite Forall_forall in Hcat. auto. }
  assert (Hnd : NoDup ks1).
  { unfold ks1. destruct asc0; [apply NoDup_rev|];
      apply (increasing_NoDup _ py_lt KS Hinc). }
  assert (Hincl : incl ks1 KS).
  { unfold ks1. destruct asc0; intros z Hz; [apply in_rev|]; exact Hz. }
  destruct (regroup_reversed row pyval py_lt key KS Hinc
              (TuningApp.all_results st) Hkeys ks1 Hnd Hincl)
    as (_ & Hmap & Hblocks).
  cbv zeta in Hmap, Hblocks. rewrite <- Hr1 in Hmap, Hblocks.
  rewrite <- Hr2 in Hmap, Hblocks.
  split; [rewrite Hs2, Hs1; destruct asc0; reflexivity|].
  split; [exact Hmap|].
  intros r Hr. apply Hblocks.
  assert (Hk : In (key r) KS).
  { apply in_catalog_key; [exact Hcol|].
    rewrite Forall_forall in Hcat1. auto. }
  unfold ks1. destruct asc0; [apply in_rev; rewrite rev_involutive|]; exact Hk.
Qed.

Lemma second_click_reverses_keys_witness :
  exists st st1 st2,
    TuningApp.run PyFloat.pow_series ["tableTuning.py"; "2.0"; "5.0"; "0.5"; "0.3"]
    = Ok st
    /\ TuningApp.on_data_table_header_selected "Modo" st = Ok st1
    /\ TuningApp.on_data_table_header_selected "Modo" st1 = Ok st2
    /\ map (column_key "Modo") (TuningApp.all_results st2)
       = rev (map (column_key "Modo") (TuningApp.all_results st1)).
Proof.
  set (argv := ["tableTuning.py"; "2.0"; "5.0"; "0.5"; "0.3"]).
  destruct (TuningApp.run PyFloat.pow_series argv) as [st|e] eqn:Hrun;
    [|vm_compute in Hrun; discriminate Hrun].
  destruct (TuningApp.on_data_table_header_selected "Modo" st)
    as [st1|e] eqn:H1;
    [|vm_compute in Hrun; injection Hrun as <-; vm_compute in H1; discriminate H1].
  destruct (TuningApp.on_data_table_header_selected "Modo" st1)
    as [st2|e] eqn:H2;
    [|vm_compute in Hrun; injection Hrun as <-;
      vm_compute in H1; injection H1 as <-; vm_compute in H2; discriminate H2].
  destruct (second_click_reverses_keys PyFloat.pow_series argv st "Modo" st1 st2
              ltac:(apply reach_run; exact Hrun) ltac:(simpl; tauto) H1 H2)
    as (_ & Hmap & _).
  exists st, st1, st2.
  split; [reflexivity|]. split; [exact H1|]. split; [exact H2|]. exact Hmap.
Defined.

(** C5 as stated fails on ties: after start-up with K = 2, T = 5, a = 0.5,
    tau0 = 0.3, two clicks on "Modo" give a table that is not the reverse of
    the table after the first click (the 19 Regulador rows keep their order
    instead of being reversed). *)
Lemma second_click_not_reverse :
  exists st st1 st2,
    TuningApp.run PyFloat.pow_series ["tableTuning.py"; "2.0"; "5.0"; "0.5"; "0.3"]
    = Ok st
    /\ TuningApp.on_data_table_header_selected "Modo" st = Ok st1
    /\ TuningApp.on_data_table_header_selected "Modo" st1 = Ok st2
    /\ TuningApp.all_results st2 <> rev (TuningApp.all_results st1).
Proof.
  do 3 eexists.
  split; [vm_compute; reflexivity|].
  split; [vm_compute; reflexivity|].
  split; [vm_compute; reflexivity|].
  intros E. apply (f_equal (map labels)) in E. vm_compute in E. discriminate E.
Qed.

(* ================================================================= *)
(** * The rest of the two scripts

    What the rules raise and return beside the gain, the text columns of
    the table, the header clicks of the interactive table in any order, and
    the two tables [torfin.py] prints. *)

(** ** Floats, continued *)

Lemma Prim2SF_zero : Prim2SF 0 = S754_zero false.
Proof. reflexivity. Qed.

(** [0.0 * T] is [0.0] for a positive finite [T]. *)
Lemma mul_zero_finite T :
  (T <=? 0) = false -> is_finite T = true -> 0 * T = 0.
Proof.
  intros Hpos Hfin.
  rewrite <- (SF2Prim_Prim2SF (0 * T)), mul_spec.
  unfold is_finite, is_nan, is_infinity in Hfin.
  rewrite FloatAxioms.leb_spec in Hpos.
  rewrite !FloatAxioms.eqb_spec, abs_spec in Hfin.
  rewrite Prim2SF_zero in *.
  change (Prim2SF infinity) with (S754_infinity false) in Hfin.
  destruct (Prim2SF T) as [s|s| |s m e].
  - destruct s; discriminate Hpos.
  - destruct s; discriminate Hfin.
  - discriminate Hfin.
  - destruct s; [discriminate Hpos|]. reflexivity.
Qed.

(** What a failed [<= 0] or [< 0] test leaves: a positive (non-negative)
    number, or a nan. *)
Lemma not_leb_zero x : (x <=? 0) = false -> (0 <? x) = true \/ is_nan x = true.
Proof.
  unfold is_nan.
  rewrite FloatAxioms.leb_spec, FloatAxioms.ltb_spec, FloatAxioms.eqb_spec, Prim2SF_zero.
  destruct (Prim2SF x) as [s|s| |s m e]; try destruct s; cbn; auto; discriminate.
Qed.

Lemma not_ltb_zero x : (x <? 0) = false -> (0 <=? x) = true \/ is_nan x = true.
Proof.
  unfold is_nan.
  rewrite FloatAxioms.leb_spec, FloatAxioms.ltb_spec, FloatAxioms.eqb_spec, Prim2SF_zero.
  destruct (Prim2SF x) as [s|s| |s m e]; try destruct s; cbn; auto; discriminate.
Qed.

(** ** What [parse_args] lets through *)

(** X10.  When [parse_args] returns, there were five arguments, the
    last four are the texts of the four numbers it returns, K and T are
    positive or nan, tau0 is not negative or is nan, and [a] equals one of 0,
    0.25, 0.5, 0.75 and 1 ([-0.0] included).  The checks are [K <= 0],
    [T <= 0] and [tau0 < 0], which a nan fails. *)
Theorem parse_args_lets_through argv K T a tau0 :
  parse_args argv = Ok (K, T, a, tau0) ->
  length argv = 5%nat
  /\ map PyFloat.of_string (tl argv) = [Some K; Some T; Some a; Some tau0]
  /\ ((0 <? K) = true \/ is_nan K = true)
  /\ ((0 <? T) = true \/ is_nan T = true)
  /\ ((0 <=? tau0) = true \/ is_nan tau0 = true)
  /\ ((a =? 0) = true \/ (a =? 0.25) = true \/ (a =? 0.5) = true
      \/ (a =? 0.75) = true \/ (a =? 1) = true).
Proof.
  intros H.
  destruct (parse_args_valid argv K T a tau0 H) as (HK & HT & Ha & Ht).
  unfold parse_args, exit_with in H.
  destruct (Nat.eqb (length argv) 5) eqn:Hlen; cbn [negb] in H; [|discriminate H].
  apply Nat.eqb_eq in Hlen. split; [exact Hlen|].
  split.
  - destruct (map PyFloat.of_string (tl argv)) as [|[K0|] l]; try discriminate H.
    destruct l as [|[T0|] l]; try discriminate H.
    destruct l as [|[a0|] l]; try discriminate H.
    destruct l as [|[t0|] l]; try discriminate H.
    destruct l; try discriminate H.
    destruct ((K0 <=? 0) || (T0 <=? 0)); [discriminate H|].
    destruct (negb (existsb (PrimFloat.eqb a0) allowed_a)); [discriminate H|].
    destruct (t0 <? 0); [discriminate H|].
    injection H as <- <- <- <-. reflexivity.
  - split; [apply not_leb_zero; exact HK|].
    split; [apply not_leb_zero; exact HT|].
    split; [apply not_ltb_zero; exact Ht|].
    unfold allowed_a in Ha. cbn [existsb] in Ha.
    repeat (apply orb_true_iff in Ha; destruct Ha as [Ha|Ha]; [auto 10|]).
    discriminate Ha.
Qed.

Lemma parse_args_lets_through_witness :
  parse_args ["torfin.py"; "nan"; "inf"; "-0.0"; "nan"]
  = Ok (nan, infinity, (-0)%float, nan)
  /\ ((0 <? nan) = true \/ is_nan nan = true)
  /\ ((0 <? infinity) = true \/ is_nan infinity = true)
  /\ ((0 <=? nan) = true \/ is_nan nan = true).
Proof.
  assert (H : parse_args ["torfin.py"; "nan"; "inf"; "-0.0"; "nan"]
              = Ok (nan, infinity, (-0)%float, nan)) by (vm_compute; reflexivity).
  split; [exact H|].
  destruct (parse_args_lets_through _ _ _ _ _ H) as (_ & _ & HK & HT & Ht & _).
  auto.
Defined.

(** ** What the rules raise *)

Lemma pow_failure libm x y e :
  (x <? 0) = false ->
  PyFloat.pow libm x y = Raise e -> arithmetic_failure libm x e.
Proof.
  intros Hx. unfold PyFloat.pow, arithmetic_failure. cbv zeta. rewrite Hx.
  cbn [andb].
  repeat match goal with
         | |- context [if ?c then _ else _] => destruct c eqn:?
         | |- context [match ?c with Some _ => _ | None => _ end] => destruct c eqn:?
         end; intros [= <-]; eauto.
Qed.

Lemma truediv_nonzero x y e :
  (y =? 0) = false -> PyFloat.truediv x y = Raise e -> False.
Proof. unfold PyFloat.truediv. intros ->. discriminate. Qed.

Lemma getitem_float_contains {V} (d : dict float V) k e :
  getitem_float d k = Raise e -> dict_contains PrimFloat.eqb d k = false.
Proof.
  unfold getitem_float, dict_contains.
  destruct (dict_get PrimFloat.eqb d k); [discriminate|reflexivity].
Qed.

(** The row of a Méndez & Rímolo table found for [a]. *)
Lemma mendez_row (tbl : dict float coeffs_t) a c :
  In tbl [iae_reg; itae_reg; iae_ser; itae_ser] ->
  getitem_float tbl a = Ok c -> In c (map snd tbl).
Proof.
  intros _. unfold getitem_float.
  destruct (dict_get PrimFloat.eqb tbl a) as [v|] eqn:E; [|discriminate].
  intros [= <-]. induction tbl as [|[k v'] tbl IH]; simpl in *; [discriminate|].
  destruct (a =? k); [injection E as <-; auto|auto].
Qed.

(** A call of a rule that raised, on coefficients of the catalog: the
    lookups are run, and the power or the division that raised is found. *)
Ltac arithmetic_raised E HK Ht :=
  unfold_tuners_in E;
  cbv -[PyFloat.pow PyFloat.truediv] in E;
  repeat (step_in E; try discriminate E);
  injection E as <-;
  match goal with
  | P : PyFloat.pow _ _ _ = Raise _ |- _ => exact (pow_failure _ _ _ _ Ht P)
  | D : PyFloat.truediv _ _ = Raise _ |- _ =>
      exfalso; first [ exact (truediv_nonzero _ _ _ HK D)
                     | unfold PyFloat.truediv in D;
                       match goal with
                       | N : (?d =? 0) = false |- _ => rewrite N in D; discriminate D
                       end ]
  end.


(** The Méndez & Rímolo call [E] raised: its coefficients are one of the
    five rows of its table. *)
Ltac mendez_raised E HK Ht :=
  lazymatch type of E with
  | _ _ _ _ _ _ ?c = Raise _ =>
      match goal with
      | L : getitem_float ?tbl _ = Ok c |- _ =>
          let Hin := fresh "Hin" in
          pose proof (mendez_row tbl _ c ltac:(in_list) L) as Hin;
          unfold iae_reg, itae_reg, iae_ser, itae_ser in Hin;
          cbn [map snd In] in Hin;
          repeat (destruct Hin as [Hin|Hin];
                  [subst c; arithmetic_raised E HK Ht|]);
          destruct Hin
      end
  end.

(** The loops stopped at the step just made ([H] is [Raise e0 = Raise e]):
    what was raised is an arithmetic failure. *)
Ltac loops_raised H HK Ht C1 C2 C3 C4 :=
  lazymatch type of H with
  | Raise ?e0 = Raise _ =>
      first
        [ contains_clash C1 | contains_clash C2
        | contains_clash C3 | contains_clash C4
        | match goal with
          | E : getitem_float _ _ = Raise e0 |- _ =>
              let E2 := fresh "E2" in
              pose proof (getitem_float_contains _ _ _ E) as E2;
              first [ discriminate (eq_trans (eq_sym C1) E2)
                    | discriminate (eq_trans (eq_sym C2) E2)
                    | discriminate (eq_trans (eq_sym C3) E2)
                    | discriminate (eq_trans (eq_sym C4) E2) ]
          | E : _ = Raise e0 |- _ =>
              injection H as <-;
              first [ mendez_raised E HK Ht | arithmetic_raised E HK Ht ]
          end ]
  end.

Lemma sort_returns rows :
  exists rs,
    list_sort tuple_lt (fun x => Ok (initial_key x)) false rows = Ok rs.
Proof.
  unfold list_sort. rewrite (mapM_ok _ initial_key rows) by reflexivity.
  simpl. eauto.
Qed.

Lemma all_loops_failures libm K T a tau0 e :
  valid_input K T a tau0 ->
  all_loops libm K T a tau0 = Raise e ->
  arithmetic_failure libm tau0 e.
Proof.
  intros (HK & _ & Ha & Ht) H.
  apply leb_false_nonzero in HK.
  destruct (mendez_contains a) as (C1 & C2 & C3 & C4).
  rewrite Ha in C1, C2, C3, C4.
  unfold all_loops, usort_loop, mendez_loop, lopez_loop, rovira_loop in H.
  unroll_loops_in H.
  repeat (step_in H; try discriminate H;
          try loops_raised H HK Ht C1 C2 C3 C4).
Qed.

(** X2.  On a valid input the loops, and with them the sorted table, can
    end with an exception in two ways only: [ZeroDivisionError], and then the
    dead time is zero, or [OverflowError], and then C's [pow] reported a
    range error on the base [abs tau0].  The catalog has every coefficient
    the rules look up, no quotient is taken by zero, no power is complex and
    [sys.exit] is not reached. *)
Theorem evaluation_failures libm K T a tau0 e :
  valid_input K T a tau0 ->
  all_loops libm K T a tau0 = Raise e
  \/ construir_y_ordenar_resultados libm K T a tau0 = Raise e ->
  arithmetic_failure libm tau0 e.
Proof.
  intros Hv [H|H]; apply (all_loops_failures libm K T a tau0 e Hv); [exact H|].
  unfold construir_y_ordenar_resultados in H.
  destruct (all_loops libm K T a tau0) as [rows|e0]; simpl in H.
  - destruct (sort_returns rows) as (rs & Hrs).
    unfold initial_key in Hrs. rewrite Hrs in H. discriminate H.
  - exact H.
Qed.

Lemma evaluation_failures_witness :
  valid_input 2 5 0.5 0
  /\ construir_y_ordenar_resultados PyFloat.pow_series 2 5 0.5 0
     = Raise ZeroDivisionError
  /\ arithmetic_failure PyFloat.pow_series 0 ZeroDivisionError.
Proof.
  assert (Hv : valid_input 2 5 0.5 0) by (repeat split; reflexivity).
  assert (H : construir_y_ordenar_resultados PyFloat.pow_series 2 5 0.5 0
              = Raise ZeroDivisionError) by (vm_compute; reflexivity).
  split; [exact Hv|]. split; [exact H|].
  exact (evaluation_failures PyFloat.pow_series 2 5 0.5 0 ZeroDivisionError Hv
           (or_intror H)).
Defined.



(** ** The time constant *)

(** Every rule multiplies factors that do not depend on [T] by [T], and
    uses [T] nowhere else. *)
Lemma rule_time libm f T T' t :
  rule_of_time libm f ->
  f T = Ok t ->
  exists t', f T' = Ok t' /\ tuning_but_time T T' t t'.
Proof.
  intros Hc H. destruct t as [[[kp ti] td] b].
  destruct Hc; unfold_tuners_in H; unfold rbind in H;
    repeat (step_in H; try discriminate H);
    injection H as <- <- <- <-;
    unfold_tuners; unfold rbind; rewrite_known;
    (eexists; split; [reflexivity|]);
    do 6 eexists; (split; [reflexivity|]); (split; [reflexivity|]);
    split;
    first [ left; split; reflexivity
          | right; eexists; split; reflexivity ].
Qed.

Section TimeRuns.
Variable libm : float -> float -> option float.
Variables K T T' a tau0 : float.

Local Abbreviation R := (same_but_time T T').

(** One rule, then the row built from its result. *)
Lemma row_related_time (f : float -> result tuning) (v m mo c : string) :
  rule_of_time libm f ->
  related R (fun _ _ => True)
    (mbind (lift (f T)) (fun x =>
       let '(kp, ti, td, b) := x in
       append (mk_row m v mo c kp ti td b)))
    (mbind (lift (f T')) (fun x =>
       let '(kp, ti, td, b) := x in
       append (mk_row m v mo c kp ti td b))).
Proof.
  intros Hf. eapply related_bind.
  - apply related_lift. intros t. apply (rule_time libm f T T' t Hf).
  - intros t t' (kp & ti & ti' & td & td' & b & -> & -> & Hti & Htd).
    apply related_append. unfold same_but_time, labels. simpl. auto.
Qed.

Lemma usort_loop_time :
  related R (fun _ _ => True)
    (usort_loop libm K T a tau0) (usort_loop libm K T' a tau0).
Proof.
  unfold usort_loop.
  apply related_for_each; intros modo.
  apply related_for_each; intros controlador.
  eapply related_bind; [apply related_lift_same|]. intros by_mode ? <-.
  eapply related_bind; [apply related_lift_same|]. intros by_ms ? <-.
  apply related_for_each; intros [Ms coeffs].
  eapply related_bind.
  - apply related_lift. intros t.
    destruct (String.eqb modo "regulador").
    + apply (rule_time libm (fun T0 => tune_usort1_reg libm a tau0 K T0 coeffs)).
      apply time_usort1_reg.
    + apply (rule_time libm (fun T0 => tune_usort1_servo libm a tau0 K T0 coeffs)).
      apply time_usort1_servo.
  - intros t t' (kp & ti & ti' & td & td' & b & -> & -> & Hti & Htd).
    eapply related_bind.
    + apply related_append. unfold same_but_time, labels. simpl. auto.
    + intros _ _ _.
      destruct (String.eqb modo "regulador").
      * apply (row_related_time (fun T0 => tune_usort2_reg libm a tau0 K T0 coeffs)).
        apply time_usort2_reg.
      * apply (row_related_time (fun T0 => tune_usort2_servo libm a tau0 K T0 coeffs)).
        apply time_usort2_servo.
Qed.

Lemma mendez_loop_time :
  related R (fun _ _ => True)
    (mendez_loop libm K T a tau0) (mendez_loop libm K T' a tau0).
Proof.
  unfold mendez_loop, get_mendez_coeffs.
  apply related_for_each; intros [[crit coeff_dict_reg] coeff_dict_ser].
  destruct (negb (dict_contains PrimFloat.eqb coeff_dict_reg a)
            || negb (dict_contains PrimFloat.eqb coeff_dict_ser a));
    [apply related_exit|].
  eapply related_bind; [apply related_lift_same|]. intros c ? <-.
  eapply related_bind.
  - apply related_lift. intros t.
    destruct (String.eqb crit "IAE").
    + apply (rule_time libm (fun T0 => tune_mendez_reg_IAE libm a tau0 K T0 c)).
      apply time_mendez_reg_IAE.
    + apply (rule_time libm (fun T0 => tune_mendez_reg_ITAE libm a tau0 K T0 c)).
      apply time_mendez_reg_ITAE.
  - intros t t' (kp & ti & ti' & td & td' & b & -> & -> & Hti & Htd).
    eapply related_bind.
    + apply related_append. unfold same_but_time, labels. simpl. auto.
    + intros _ _ _.
      eapply related_bind; [apply related_lift_same|]. intros c' ? <-.
      destruct (String.eqb crit "IAE").
      * apply (row_related_time (fun T0 => tune_mendez_ser_IAE libm a tau0 K T0 c')).
        apply time_mendez_ser_IAE.
      * apply (row_related_time (fun T0 => tune_mendez_ser_ITAE libm a tau0 K T0 c')).
        apply time_mendez_ser_ITAE.
Qed.

Lemma lopez_loop_time :
  related R (fun _ _ => True)
    (lopez_loop libm K T tau0) (lopez_loop libm K T' tau0).
Proof.
  unfold lopez_loop.
  apply related_for_each; intros ctrl_type.
  apply related_for_each; intros crit.
  eapply related_bind; [apply related_lift_same|]. intros by_crit ? <-.
  eapply related_bind; [apply related_lift_same|]. intros params ? <-.
  destruct (String.eqb ctrl_type "P"); [|destruct (String.eqb ctrl_type "PI")].
  - apply (row_related_time (fun _ => tune_lopez_P libm tau0 K params)).
    apply time_lopez_P.
  - apply (row_related_time (fun T0 => tune_lopez_PI libm tau0 K T0 params)).
    apply time_lopez_PI.
  - apply (row_related_time (fun T0 => tune_lopez_PID libm tau0 K T0 params)).
    apply time_lopez_PID.
Qed.

Lemma rovira_loop_time :
  related R (fun _ _ => True)
    (rovira_loop libm K T tau0) (rovira_loop libm K T' tau0).
Proof.
  unfold rovira_loop.
  apply related_for_each; intros ctrl_type.
  apply related_for_each; intros crit.
  eapply related_bind; [apply related_lift_same|]. intros by_crit ? <-.
  eapply related_bind; [apply related_lift_same|]. intros params ? <-.
  destruct (String.eqb ctrl_type "PI").
  - apply (row_related_time (fun T0 => tune_rovira_PI libm tau0 K T0 params)).
    apply time_rovira_PI.
  - apply (row_related_time (fun T0 => tune_rovira_PID libm tau0 K T0 params)).
    apply time_rovira_PID.
Qed.

Lemma all_loops_time rows :
  all_loops libm K T a tau0 = Ok rows ->
  exists rows', all_loops libm K T' a tau0 = Ok rows' /\ Forall2 R rows rows'.
Proof.
  unfold all_loops. intros H.
  destruct (mbind _ _ []) as [[u t]|] eqn:E in H; [|discriminate H].
  injection H as <-.
  assert (Hrel : related R (fun _ _ => True)
                   (mbind (usort_loop libm K T a tau0) (fun _ =>
                    mbind (mendez_loop libm K T a tau0) (fun _ =>
                    mbind (lopez_loop libm K T tau0) (fun _ =>
                    rovira_loop libm K T tau0))))
                   (mbind (usort_loop libm K T' a tau0) (fun _ =>
                    mbind (mendez_loop libm K T' a tau0) (fun _ =>
                    mbind (lopez_loop libm K T' tau0) (fun _ =>
                    rovira_loop libm K T' tau0))))).
  { eapply related_bind; [apply usort_loop_time|]. intros _ _ _.
    eapply related_bind; [apply mendez_loop_time|]. intros _ _ _.
    eapply related_bind; [apply lopez_loop_time|]. intros _ _ _.
    apply rovira_loop_time. }
  destruct (Hrel [] [] (Forall2_nil _) u t E) as (u' & t' & -> & _ & Ht).
  eauto.
Qed.
End TimeRuns.

(** X1.  Whenever the evaluation returns for a time constant [T], it
    returns for any other [T'] too, all else equal; row by row the text
    columns, Kp and β are unchanged, and each of Ti and Td is either the
    constant [0.0] in both tables or one factor, which does not depend on the
    time constant, times [T] in the first table and times [T'] in the
    second. *)
Theorem time_only_multiplies libm K T T' a tau0 rs :
  construir_y_ordenar_resultados libm K T a tau0 = Ok rs ->
  exists rs',
    construir_y_ordenar_resultados libm K T' a tau0 = Ok rs'
    /\ Forall2 (same_but_time T T') rs rs'.
Proof.
  intros H.
  unfold construir_y_ordenar_resultados in *.
  destruct (all_loops libm K T a tau0) as [rows|] eqn:E; [|discriminate H].
  destruct (all_loops_time libm K T T' a tau0 rows E) as (rows' & -> & Hrows).
  simpl in *.
  refine (list_sort_related (same_but_time T T') tuple_lt
            (fun x => (Variante x, Método x, Modo x, ms_a_float (Ms_Criterio x)))
            false rows rows' rs _ Hrows H).
  intros x x' (Hlab & _). unfold labels in Hlab.
  injection Hlab as -> -> -> ->. reflexivity.
Qed.

Lemma time_only_multiplies_witness :
  exists rs rs',
    construir_y_ordenar_resultados PyFloat.pow_series 2 5 0.5 0.3 = Ok rs
    /\ construir_y_ordenar_resultados PyFloat.pow_series 2 (2 * 5) 0.5 0.3 = Ok rs'
    /\ Forall2 (same_but_time 5 (2 * 5)) rs rs'.
Proof.
  destruct (construir_y_ordenar_resultados PyFloat.pow_series 2 5 0.5 0.3)
    as [rs|e] eqn:E; [|vm_compute in E; discriminate E].
  destruct (time_only_multiplies PyFloat.pow_series 2 5 (2 * 5) 0.5 0.3 rs E)
    as (rs' & E' & Hrel).
  exists rs, rs'. auto.
Defined.

(** [x ** 0.0] is [1.0] whatever [x] is. *)
Lemma pow_zero_exponent libm x : PyFloat.pow libm x 0 = Ok 1.
Proof. reflexivity. Qed.

(** Stepping through a rule without entering its guarded quotient: the
    call in head position is named and split into its two outcomes. *)
Ltac head_call t :=
  lazymatch t with
  | rbind ?m _ => head_call m
  | match ?s with Ok _ => _ | Raise _ => _ end => head_call s
  | _ => t
  end.

Ltac step_call_in H :=
  lazymatch type of H with
  | ?lhs = _ =>
      let s := head_call lhs in
      lazymatch s with
      | Ok _ => fail "value"
      | Raise _ => fail "value"
      | _ => idtac
      end;
      destruct s as [?|?] eqn:?
  end;
  cbv beta iota delta [rbind] in H.

(** A call of a rule that returned: its result, as the rule computes it.
    On coefficients of the catalog the lookups are run. *)
Ltac rule_returned E :=
  unfold_tuners_in E;
  lazymatch type of E with
  | context [getitem ?c _] =>
      tryif is_var c then unfold rbind in E
      else cbv -[PyFloat.pow PyFloat.truediv] in E
  end;
  repeat (step_call_in E; try discriminate E);
  injection E as <- <- <- <-.

Ltac rules_returned :=
  repeat match goal with
         | E : _ = Ok (_, _, _, _) |- _ => rule_returned E
         end.

(** Calls that were met before share their result; a power with exponent
    [0.0] is [1.0]. *)
Ltac zero_exponents :=
  repeat match goal with
         | P : PyFloat.pow ?l ?x 0 = Ok ?r |- _ =>
             rewrite (pow_zero_exponent l x) in P
         | P : Ok _ = Ok _ |- _ => injection P as <-
         end.

(** The rows the loops leave: their text columns, which no input changes,
    and what the rules put beside them. *)
Lemma all_loops_rows libm K T a tau0 rows :
  all_loops libm K T a tau0 = Ok rows ->
  map labels rows = loop_labels /\ Forall (row_shape T) rows.
Proof.
  intros H. run_loops_in H. injection H as <-.
  split; [reflexivity|].
  rules_returned. zero_exponents.
  repeat (apply Forall_cons;
          [unfold row_shape; cbn [Método Variante Ti Td β];
           split; [cbv beta iota delta [String.eqb Ascii.eqb Bool.eqb]; eauto|];
           split; [first [ intros _; repeat split; reflexivity
                         | intros Hf; discriminate Hf ]|];
           first [ intros _; left; reflexivity
                 | intros _; right; reflexivity
                 | intros Hf; vm_compute in Hf; discriminate Hf ]|]).
  apply Forall_nil.
Qed.

(** ** The text columns

    The rows of two runs carry the same text; what a sort or a filter that
    reads only the text columns does to the table is read off the table
    without its numbers. *)

Lemma labels_of_labels l : labels (of_labels l) = l.
Proof. destruct l as [[[v m] mo] c]. reflexivity. Qed.

Lemma same_labels_blank (l : list row) :
  Forall2 same_labels l (map of_labels (map labels l)).
Proof.
  induction l as [|r l IH]; cbn [map]; constructor; [|exact IH].
  unfold same_labels. rewrite labels_of_labels. reflexivity.
Qed.

Lemma same_labels_map (l l' : list row) :
  Forall2 same_labels l l' -> map labels l = map labels l'.
Proof. induction 1 as [|r r' l l' Hr _ IH]; simpl; [reflexivity|]. f_equal; assumption. Qed.

(** A sort whose key is read off the text columns, on the table without
    its numbers. *)
Lemma list_sort_labels {Kt} (lt : Kt -> Kt -> bool)
      (key : string * string * string * string -> Kt) reverse (l s : list row) :
  list_sort lt (fun x => Ok (key (labels x))) reverse l = Ok s ->
  exists s',
    list_sort lt (fun x => Ok (key (labels x))) reverse
      (map of_labels (map labels l)) = Ok s'
    /\ map labels s = map labels s'.
Proof.
  intros H.
  destruct (list_sort_related same_labels lt (fun x => key (labels x)) reverse
              l (map of_labels (map labels l)) s) as (s' & Hs' & Hrel).
  - intros x x' Hx. unfold same_labels in Hx. rewrite Hx. reflexivity.
  - apply same_labels_blank.
  - exact H.
  - exists s'. split; [exact Hs'|]. apply same_labels_map. exact Hrel.
Qed.

Lemma sorted_map {A B} (f : A -> B) (P : B -> B -> Prop) (l : list A) :
  StronglySorted P (map f l) -> StronglySorted (fun x y => P (f x) (f y)) l.
Proof.
  induction l as [|x l IH]; simpl; intros H; [constructor|].
  inversion H as [|? ? Hs Hx]; subst. constructor; [auto|].
  rewrite Forall_forall in *. intros y Hy. apply Hx. apply in_map. exact Hy.
Qed.

(** The text columns of the table at start-up. *)
Lemma construir_labels libm K T a tau0 rs :
  construir_y_ordenar_resultados libm K T a tau0 = Ok rs ->
  map labels rs = initial_labels.
Proof.
  intros H. unfold construir_y_ordenar_resultados in H.
  destruct (all_loops libm K T a tau0) as [rows|] eqn:E; [|discriminate H].
  cbn [rbind] in H.
  destruct (all_loops_rows _ _ _ _ _ _ E) as [Hlab _].
  destruct (list_sort_labels tuple_lt initial_key_of false rows rs H)
    as (s' & Hs' & Hmap).
  rewrite Hlab in Hs'. vm_compute in Hs'. injection Hs' as <-.
  exact Hmap.
Qed.

Lemma construir_rows libm K T a tau0 rs :
  construir_y_ordenar_resultados libm K T a tau0 = Ok rs ->
  map labels rs = initial_labels /\ Forall (row_shape T) rs.
Proof.
  intros H. split; [eapply construir_labels; exact H|].
  unfold construir_y_ordenar_resultados in H.
  destruct (all_loops libm K T a tau0) as [rows|] eqn:E; [|discriminate H].
  cbn [rbind] in H. apply list_sort_perm in H.
  eapply Permutation_Forall; [symmetry; exact H|].
  eapply all_loops_rows. exact E.
Qed.

(** X7.  The text columns (Variante, Método, Modo, Ms/Criterio) of the
    rows do not depend on the input: whenever the evaluation returns, the
    loops have appended the 33 rows of [loop_labels] in that order, and the
    sorted table lists the 33 rows of [initial_labels] in that order. *)
Theorem labels_do_not_depend_on_input libm K T a tau0 rows rs :
  all_loops libm K T a tau0 = Ok rows ->
  construir_y_ordenar_resultados libm K T a tau0 = Ok rs ->
  map labels rows = loop_labels /\ map labels rs = initial_labels.
Proof.
  intros Hrows Hrs. split.
  - eapply all_loops_rows. exact Hrows.
  - eapply construir_labels. exact Hrs.
Qed.

Lemma labels_do_not_depend_on_input_witness :
  exists rows rs,
    all_loops PyFloat.pow_series 2 5 0.5 0.3 = Ok rows
    /\ construir_y_ordenar_resultados PyFloat.pow_series 2 5 0.5 0.3 = Ok rs
    /\ map labels rows = loop_labels /\ map labels rs = initial_labels.
Proof.
  destruct (all_loops PyFloat.pow_series 2 5 0.5 0.3) as [rows|e] eqn:E;
    [|vm_compute in E; discriminate E].
  destruct (construir_y_ordenar_resultados PyFloat.pow_series 2 5 0.5 0.3)
    as [rs|e] eqn:E'; [|vm_compute in E'; discriminate E'].
  exists rows, rs. split; [reflexivity|]. split; [reflexivity|].
  exact (labels_do_not_depend_on_input PyFloat.pow_series 2 5 0.5 0.3 rows rs E E').
Defined.

(** ** The table at start-up *)

Lemma initial_labels_increasing :
  increasing (fun l l' => tuple_lt (initial_key_of l) (initial_key_of l'))
    initial_labels.
Proof.
  unfold initial_labels. cbn [increasing].
  repeat match goal with
         | |- _ /\ _ => split
         | |- Forall _ (_ :: _) => apply Forall_cons
         | |- Forall _ [] => apply Forall_nil
         | |- True => exact I
         | |- _ = _ => vm_compute; reflexivity
         end.
Qed.

(** X8.  The table [construir_y_ordenar_resultados] returns is in
    strictly increasing order of the key (Variante, Método, Modo, Ms/Criterio
    as a number, inf for a criterion that is not a number): each row is below
    every row after it, and no two rows have the same four text columns. *)
Theorem initial_table_sorted libm K T a tau0 rs :
  construir_y_ordenar_resultados libm K T a tau0 = Ok rs ->
  StronglySorted (fun x y => tuple_lt (initial_key x) (initial_key y) = true) rs
  /\ NoDup (map labels rs).
Proof.
  intros H. rewrite (construir_labels _ _ _ _ _ _ H).
  assert (Hinc := initial_labels_increasing). split.
  - apply (sorted_map labels
             (fun l l' => tuple_lt (initial_key_of l) (initial_key_of l') = true)).
    rewrite (construir_labels _ _ _ _ _ _ H).
    clear H. induction initial_labels as [|l ls IH]; [constructor|].
    destruct Hinc as (_ & Hall & Hinc). constructor; [auto|].
    eapply Forall_impl; [|exact Hall]. cbv beta. tauto.
  - eapply increasing_NoDup. exact Hinc.
Qed.

Lemma initial_table_sorted_witness :
  exists rs,
    construir_y_ordenar_resultados PyFloat.pow_series 2 5 0.5 0.3 = Ok rs
    /\ StronglySorted (fun x y => tuple_lt (initial_key x) (initial_key y) = true) rs.
Proof.
  destruct (construir_y_ordenar_resultados PyFloat.pow_series 2 5 0.5 0.3)
    as [rs|e] eqn:E; [|vm_compute in E; discriminate E].
  exists rs. split; [reflexivity|].
  exact (proj1 (initial_table_sorted PyFloat.pow_series 2 5 0.5 0.3 rs E)).
Defined.

(** A stable sort leaves a list that is in order as it is. *)
Lemma stable_sort_sorted {A Kt} (lt : Kt -> Kt -> bool) (l : list (Kt * A)) :
  StronglySorted (fun x y => lt (fst y) (fst x) = false) l ->
  stable_sort lt l = l.
Proof.
  induction 1 as [|x l Hs IH Hx]; [reflexivity|].
  unfold stable_sort in *. cbn [fold_right]. rewrite IH.
  destruct l as [|y l']; [reflexivity|]. cbn [insert_by].
  inversion Hx as [|? ? Hy _]; subst. rewrite Hy. reflexivity.
Qed.

Lemma list_sort_sorted {A Kt} (lt : Kt -> Kt -> bool) (key : A -> Kt) (l : list A) :
  StronglySorted (fun x y => lt (key y) (key x) = false) l ->
  list_sort lt (fun x => Ok (key x)) false l = Ok l.
Proof.
  intros H. unfold list_sort, sort_decorated.
  rewrite (mapM_ok _ key l) by reflexivity. cbn [rbind].
  rewrite stable_sort_sorted.
  - rewrite map_snd_combine by (apply length_map). reflexivity.
  - induction H as [|x l Hs IH Hx]; cbn [map combine]; constructor; [exact IH|].
    clear IH Hs. induction Hx as [|y l Hy _ IH]; cbn [map combine]; constructor; auto.
Qed.

(** The table of start-up is laid out by variant already. *)
Lemma initial_table_by_variant libm K T a tau0 rs :
  construir_y_ordenar_resultados libm K T a tau0 = Ok rs ->
  rs = flat_map (block py_lt (column_key "Variante") rs) (column_values "Variante").
Proof.
  intros H.
  assert (Hcat := construir_in_catalog libm K T a tau0 rs H).
  assert (Hcol : In "Variante" TuningApp.sortable) by (simpl; tauto).
  assert (Hsorted : StronglySorted
                      (fun x y => py_lt (column_key "Variante" y)
                                        (column_key "Variante" x) = false) rs).
  { apply (sorted_map labels
             (fun l l' => py_lt (VStr (fst (fst (fst l')))) (VStr (fst (fst (fst l))))
                          = false)).
    rewrite (construir_labels _ _ _ _ _ _ H). unfold initial_labels.
    repeat (apply SSorted_cons;
            [|repeat (apply Forall_cons; [vm_compute; reflexivity|]);
              apply Forall_nil]).
    apply SSorted_nil. }
  apply list_sort_sorted in Hsorted.
  rewrite (list_sort_blocks row pyval py_lt (column_values "Variante")
             (column_values_increasing "Variante" Hcol)
             (fun x => Ok (column_key "Variante" x)) (column_key "Variante"))
    in Hsorted.
  - injection Hsorted as Hs. symmetry. exact Hs.
  - reflexivity.
  - intros x Hx. apply in_catalog_key; [exact Hcol|].
    rewrite Forall_forall in Hcat. auto.
Qed.

(** ** Any header, any state *)

Lemma sortable_existsb columna :
  existsb (String.eqb columna) TuningApp.sortable = true <-> In columna TuningApp.sortable.
Proof.
  rewrite existsb_exists. split.
  - intros (x & Hx & E). apply String.eqb_eq in E. subst x. exact Hx.
  - intros H. exists columna. split; [exact H|apply String.eqb_refl].
Qed.

(** A click returns: the header is one of the four and the rows are sorted
    on keys that are always there, or it is another and nothing is done. *)
Lemma click_returns columna st :
  exists st',
    TuningApp.on_data_table_header_selected columna st = Ok st'
    /\ Permutation (TuningApp.all_results st') (TuningApp.all_results st)
    /\ TuningApp.K st' = TuningApp.K st /\ TuningApp.T st' = TuningApp.T st
    /\ TuningApp.a st' = TuningApp.a st /\ TuningApp.tau0 st' = TuningApp.tau0 st
    /\ (In columna TuningApp.sortable -> fst (TuningApp.current_sort st') = columna)
    /\ (~ In columna TuningApp.sortable -> st' = st).
Proof.
  assert (H : exists st', TuningApp.on_data_table_header_selected columna st = Ok st'
                          /\ TuningApp.K st' = TuningApp.K st
                          /\ TuningApp.T st' = TuningApp.T st
                          /\ TuningApp.a st' = TuningApp.a st
                          /\ TuningApp.tau0 st' = TuningApp.tau0 st
                          /\ (In columna TuningApp.sortable ->
                              fst (TuningApp.current_sort st') = columna)
                          /\ (~ In columna TuningApp.sortable -> st' = st)).
  { unfold TuningApp.on_data_table_header_selected.
    destruct (existsb (String.eqb columna) TuningApp.sortable) eqn:E; cbn [negb].
    - apply sortable_existsb in E. unfold list_sort.
      rewrite (mapM_ok _ (column_key columna) (TuningApp.all_results st))
        by (intros; apply keyfunc_ok; exact E).
      cbn [rbind]. eexists. split; [reflexivity|]. cbn.
      repeat split; try reflexivity. intros Hn. contradiction.
    - exists st. repeat split; try reflexivity.
      intros Hin. apply sortable_existsb in Hin. congruence. }
  destruct H as (st' & Hclick & Hrest).
  exists st'. split; [exact Hclick|].
  split; [exact (click_permutation columna st st' Hclick)|exact Hrest].
Qed.

(** X11.  A click on a header never raises, in any state: it returns a
    state whose rows are a permutation of the rows before, as is the table
    shown, with K, T, a and tau0 unchanged; a click on one of the four
    sortable headers records that header as the current sort, and a click on
    any other header (Kp, Ti, Td, β) changes nothing at all. *)
Theorem click_always_returns columna st :
  exists st',
    TuningApp.on_data_table_header_selected columna st = Ok st'
    /\ Permutation (TuningApp.all_results st') (TuningApp.all_results st)
    /\ Permutation (TuningApp._popular_tabla st') (TuningApp._popular_tabla st)
    /\ TuningApp.K st' = TuningApp.K st /\ TuningApp.T st' = TuningApp.T st
    /\ TuningApp.a st' = TuningApp.a st /\ TuningApp.tau0 st' = TuningApp.tau0 st
    /\ (In columna TuningApp.sortable -> fst (TuningApp.current_sort st') = columna)
    /\ (~ In columna TuningApp.sortable -> st' = st).
Proof.
  destruct (click_returns columna st) as (st' & Hclick & Hperm & Hrest).
  exists st'. split; [exact Hclick|]. split; [exact Hperm|]. split; [|exact Hrest].
  unfold TuningApp._popular_tabla. apply Permutation_map. exact Hperm.
Qed.

(** The rows of a state that can be reached are those of start-up. *)
Lemma reachable_rows libm argv st :
  reachable libm argv st ->
  exists st0,
    TuningApp.run libm argv = Ok st0
    /\ Permutation (TuningApp.all_results st) (TuningApp.all_results st0)
    /\ TuningApp.K st = TuningApp.K st0 /\ TuningApp.T st = TuningApp.T st0
    /\ TuningApp.a st = TuningApp.a st0 /\ TuningApp.tau0 st = TuningApp.tau0 st0.
Proof.
  induction 1 as [st Hrun|st columna st' _ IH Hclick].
  - exists st. repeat split; [exact Hrun|reflexivity].
  - destruct IH as (st0 & Hrun & Hperm & HK & HT & Ha & Ht).
    destruct (click_returns columna st) as (st1 & Hclick1 & Hp & HK1 & HT1 & Ha1 & Ht1 & _).
    rewrite Hclick in Hclick1. injection Hclick1 as <-.
    exists st0. split; [exact Hrun|].
    split; [eapply Permutation_trans; eassumption|].
    repeat split; congruence.
Qed.

Lemma run_state libm argv st :
  TuningApp.run libm argv = Ok st ->
  TuningApp.current_sort st = ("Variante", true)
  /\ parse_args argv
     = Ok (TuningApp.K st, TuningApp.T st, TuningApp.a st, TuningApp.tau0 st)
  /\ construir_y_ordenar_resultados libm (TuningApp.K st) (TuningApp.T st)
       (TuningApp.a st) (TuningApp.tau0 st) = Ok (TuningApp.all_results st).
Proof.
  unfold TuningApp.run, TuningApp.on_mount. intros Hrun.
  destruct (parse_args argv) as [[[[K T] a] tau0]|]; [|discriminate Hrun].
  cbn [rbind] in Hrun.
  cbn [TuningApp.K TuningApp.T TuningApp.a TuningApp.tau0 TuningApp.init] in Hrun.
  destruct (construir_y_ordenar_resultados libm K T a tau0) as [rows|] eqn:E;
    [|discriminate Hrun].
  cbn [rbind] in Hrun. injection Hrun as <-. cbn. auto.
Qed.

(** X12.  Whatever headers have been clicked since start-up, the table
    holds the rows computed at start-up, reordered: 33 rows, 33 lines shown,
    and K, T, a and tau0 are still the numbers [parse_args] returned. *)
Theorem clicks_keep_the_rows libm argv st :
  reachable libm argv st ->
  exists st0,
    TuningApp.run libm argv = Ok st0
    /\ Permutation (TuningApp.all_results st) (TuningApp.all_results st0)
    /\ length (TuningApp.all_results st) = 33%nat
    /\ length (TuningApp._popular_tabla st) = 33%nat
    /\ parse_args argv
       = Ok (TuningApp.K st, TuningApp.T st, TuningApp.a st, TuningApp.tau0 st).
Proof.
  intros Hreach.
  destruct (reachable_rows libm argv st Hreach)
    as (st0 & Hrun & Hperm & HK & HT & Ha & Ht).
  destruct (run_state libm argv st0 Hrun) as (_ & Hargs & Hrows).
  assert (Hlen : length (TuningApp.all_results st) = 33%nat).
  { rewrite (Permutation_length Hperm), <- (length_map labels).
    rewrite (construir_labels _ _ _ _ _ _ Hrows). reflexivity. }
  exists st0. split; [exact Hrun|]. split; [exact Hperm|]. split; [exact Hlen|].
  split.
  - unfold TuningApp._popular_tabla. rewrite length_map. exact Hlen.
  - rewrite HK, HT, Ha, Ht. exact Hargs.
Qed.

(** ** The order a click leaves *)

Lemma sorted_rev {A} (R : A -> A -> Prop) (l : list A) :
  StronglySorted R l -> StronglySorted (fun x y => R y x) (rev l).
Proof.
  induction 1 as [|x l Hs IH Hx]; simpl; [constructor|].
  apply sorted_app; [exact IH|repeat constructor|].
  intros y z Hy [<-|[]]. apply in_rev in Hy.
  rewrite Forall_forall in Hx. auto.
Qed.

Lemma increasing_sorted {Kt} (lt : Kt -> Kt -> bool) (ks : list Kt) :
  increasing lt ks -> StronglySorted (fun k k' => lt k' k = false) ks.
Proof.
  induction ks as [|k ks IH]; simpl; [constructor|].
  intros (_ & Hall & Hinc). constructor; [auto|].
  eapply Forall_impl; [|exact Hall]. cbv beta. tauto.
Qed.

Section BlocksSorted.
Variables (A Kt : Type) (lt : Kt -> Kt -> bool) (key : A -> Kt).
Variable KS : list Kt.
Hypothesis KS_increasing : increasing lt KS.
Variable l : list A.
Hypothesis keys_in_KS : forall x, In x l -> In (key x) KS.

(** A table laid out block by block is in the order of the keys of its
    blocks. *)
Lemma blocks_sorted (R : Kt -> Kt -> Prop) (ks : list Kt) :
  incl ks KS -> StronglySorted R ks -> (forall k, In k ks -> R k k) ->
  StronglySorted (fun x y => R (key x) (key y)) (flat_map (block lt key l) ks).
Proof.
  induction ks as [|k ks IH]; simpl; intros Hincl Hs Hrefl; [constructor|].
  inversion Hs as [|? ? Hs' Hk]; subst.
  assert (Hin : In k KS) by (apply Hincl; left; reflexivity).
  assert (Hblock : forall x, In x (block lt key l k) -> key x = k)
    by (intros x; apply (block_key A Kt lt key KS KS_increasing l keys_in_KS k x Hin)).
  apply sorted_app.
  - apply sorted_constant with (P := fun x => key x = k).
    + intros x y -> ->. apply Hrefl. left. reflexivity.
    + apply Forall_forall. exact Hblock.
  - apply IH; [intros z Hz; apply Hincl; right; exact Hz|exact Hs'|].
    intros k' Hk'. apply Hrefl. right. exact Hk'.
  - intros x y Hx Hy. apply in_flat_map in Hy. destruct Hy as (k' & Hk' & Hy).
    rewrite (Hblock x Hx).
    rewrite (block_key A Kt lt key KS KS_increasing l keys_in_KS k' y
               ltac:(apply Hincl; right; exact Hk') Hy).
    rewrite Forall_forall in Hk. auto.
Qed.
End BlocksSorted.

(** X13.  After a click on a sortable header, the table is in order on
    the key of that column: no row has a key below the key of a row before
    it when the new direction is ascending, and no row has a key above the
    key of a row before it when the new direction is descending. *)
Theorem click_sorts_column libm argv st columna st' :
  reachable libm argv st ->
  In columna TuningApp.sortable ->
  TuningApp.on_data_table_header_selected columna st = Ok st' ->
  let key := column_key columna in
  if snd (TuningApp.current_sort st')
  then StronglySorted (fun x y => py_lt (key y) (key x) = false)
         (TuningApp.all_results st')
  else StronglySorted (fun x y => py_lt (key x) (key y) = false)
         (TuningApp.all_results st').
Proof.
  intros Hreach Hcol Hclick key.
  assert (Hcat := reachable_in_catalog libm argv st Hreach).
  destruct (click_blocks columna st st' Hcol Hcat Hclick) as [Hs Hr].
  fold key in Hr. rewrite Hs, Hr. cbn [snd].
  assert (Hinc := column_values_increasing columna Hcol).
  assert (Hkeys : forall x, In x (TuningApp.all_results st) ->
                            In (key x) (column_values columna)).
  { intros x Hx. apply in_catalog_key; [exact Hcol|].
    rewrite Forall_forall in Hcat. auto. }
  destruct (String.eqb (fst (TuningApp.current_sort st)) columna
            && Bool.eqb (snd (TuningApp.current_sort st)) true); cbn [negb].
  - apply (blocks_sorted row pyval py_lt key (column_values columna) Hinc
             (TuningApp.all_results st) Hkeys
             (fun k k' => py_lt k k' = false)).
    + intros z Hz. apply in_rev. exact Hz.
    + apply (sorted_rev (fun k k' => py_lt k' k = false)).
      apply increasing_sorted. exact Hinc.
    + intros k Hk. apply in_rev in Hk.
      eapply increasing_irrefl; eassumption.
  - apply (blocks_sorted row pyval py_lt key (column_values columna) Hinc
             (TuningApp.all_results st) Hkeys
             (fun k k' => py_lt k' k = false)).
    + intros z Hz. exact Hz.
    + apply increasing_sorted. exact Hinc.
    + intros k Hk. eapply increasing_irrefl; eassumption.
Qed.

Lemma click_sorts_column_witness :
  exists st st',
    TuningApp.run PyFloat.pow_series ["tableTuning.py"; "2.0"; "5.0"; "0.5"; "0.3"]
    = Ok st
    /\ TuningApp.on_data_table_header_selected "Método" st = Ok st'
    /\ snd (TuningApp.current_sort st') = true
    /\ StronglySorted
         (fun x y => py_lt (column_key "Método" y) (column_key "Método" x) = false)
         (TuningApp.all_results st').
Proof.
  set (argv := ["tableTuning.py"; "2.0"; "5.0"; "0.5"; "0.3"]).
  destruct (TuningApp.run PyFloat.pow_series argv) as [st|e] eqn:Hrun;
    [|vm_compute in Hrun; discriminate Hrun].
  destruct (TuningApp.on_data_table_header_selected "Método" st)
    as [st'|e] eqn:Hclick;
    [|vm_compute in Hrun; injection Hrun as <-;
      vm_compute in Hclick; discriminate Hclick].
  assert (Hasc : snd (TuningApp.current_sort st') = true).
  { vm_compute in Hrun. injection Hrun as <-.
    vm_compute in Hclick. injection Hclick as <-. reflexivity. }
  assert (H := click_sorts_column PyFloat.pow_series argv st "Método" st'
                 ltac:(apply reach_run; exact Hrun) ltac:(simpl; tauto) Hclick).
  cbv zeta in H. rewrite Hasc in H.
  exists st, st'. repeat split; assumption.
Defined.

(** X14.  Clicking the same sortable header again and again
    alternates between two states: the state after the third click is the
    state after the first, rows and direction alike. *)
Theorem third_click_repeats_first libm argv st columna st1 st2 st3 :
  reachable libm argv st ->
  In columna TuningApp.sortable ->
  TuningApp.on_data_table_header_selected columna st = Ok st1 ->
  TuningApp.on_data_table_header_selected columna st1 = Ok st2 ->
  TuningApp.on_data_table_header_selected columna st2 = Ok st3 ->
  st3 = st1.
Proof.
  intros Hreach Hcol H1 H2 H3.
  set (key := column_key columna).
  assert (Hcat := reachable_in_catalog libm argv st Hreach).
  assert (Hreach1 : reachable libm argv st1) by (eapply reach_click; eassumption).
  assert (Hreach2 : reachable libm argv st2) by (eapply reach_click; eassumption).
  assert (Hcat1 := reachable_in_catalog libm argv st1 Hreach1).
  assert (Hcat2 := reachable_in_catalog libm argv st2 Hreach2).
  destruct (click_blocks columna st st1 Hcol Hcat H1) as [Hs1 Hr1].
  destruct (click_blocks columna st1 st2 Hcol Hcat1 H2) as [Hs2 Hr2].
  destruct (click_blocks columna st2 st3 Hcol Hcat2 H3) as [Hs3 Hr3].
  fold key in Hr1, Hr2, Hr3.
  rewrite Hs1 in Hs2, Hr2. cbn [fst snd] in Hs2, Hr2.
  rewrite String.eqb_refl in Hs2, Hr2. cbn [andb] in Hs2, Hr2.
  rewrite Hs2 in Hs3, Hr3. cbn [fst snd] in Hs3, Hr3.
  rewrite String.eqb_refl in Hs3, Hr3. cbn [andb] in Hs3, Hr3.
  set (asc0 := String.eqb (fst (TuningApp.current_sort st)) columna
               && Bool.eqb (snd (TuningApp.current_sort st)) true) in *.
  set (KS := column_values columna) in *.
  set (ks1 := if asc0 then rev KS else KS) in *.
  assert (Hks2 : (if Bool.eqb (negb asc0) true then rev KS else KS) = rev ks1).
  { unfold ks1. destruct asc0; simpl; [symmetry; apply rev_involutive|reflexivity]. }
  assert (Hks3 : (if Bool.eqb (negb (Bool.eqb (negb asc0) true)) true
                  then rev KS else KS) = ks1).
  { unfold ks1. destruct asc0; reflexivity. }
  rewrite Hks2 in Hr2. rewrite Hks3 in Hr3.
  assert (Hinc := column_values_increasing columna Hcol). fold KS in Hinc.
  assert (Hkeys : forall x, In x (TuningApp.all_results st) -> In (key x) KS).
  { intros x Hx. apply in_catalog_key; [exact Hcol|].
    rewrite Forall_forall in Hcat. auto. }
  assert (Hnd : NoDup ks1).
  { unfold ks1. destruct asc0; [apply NoDup_rev|];
      apply (increasing_NoDup _ py_lt KS Hinc). }
  assert (Hincl : incl ks1 KS).
  { unfold ks1. destruct asc0; intros z Hz; [apply in_rev|]; exact Hz. }
  destruct (regroup_reversed row pyval py_lt key KS Hinc
              (TuningApp.all_results st) Hkeys ks1 Hnd Hincl) as (Hsecond & _).
  cbv zeta in Hsecond. rewrite <- Hr1, <- Hr2 in Hsecond.
  destruct (regroup_reversed row pyval py_lt key KS Hinc
              (TuningApp.all_results st) Hkeys (rev ks1)
              (NoDup_rev Hnd)
              ltac:(intros z Hz; apply Hincl; apply in_rev; exact Hz))
    as (Hthird & _).
  cbv zeta in Hthird. rewrite rev_involutive in Hthird.
  rewrite <- Hsecond, <- Hr3, <- Hr1 in Hthird.
  destruct (click_returns columna st) as (s1 & E1 & _ & K1 & T1 & A1 & U1 & _).
  destruct (click_returns columna st1) as (s2 & E2 & _ & K2 & T2 & A2 & U2 & _).
  destruct (click_returns columna st2) as (s3 & E3 & _ & K3 & T3 & A3 & U3 & _).
  rewrite H1 in E1. injection E1 as <-.
  rewrite H2 in E2. injection E2 as <-.
  rewrite H3 in E3. injection E3 as <-.
  assert (Hs31 : TuningApp.current_sort st3 = TuningApp.current_sort st1).
  { rewrite Hs3, Hs1. destruct asc0; reflexivity. }
  destruct st1, st3. cbn in *. congruence.
Qed.
(** X15.  The state at start-up records (Variante, ascending) as the
    current sort, so the first click on Variante sorts in descending order:
    the Variante column is reversed, the rows of one variant keeping their
    order; the first click on Método, Modo or Ms/Criterio sorts in ascending
    order. *)
Theorem first_click_on_variante libm argv st :
  TuningApp.run libm argv = Ok st ->
  (forall st',
      TuningApp.on_data_table_header_selected "Variante" st = Ok st' ->
      TuningApp.current_sort st' = ("Variante", false)
      /\ map Variante (TuningApp.all_results st')
         = rev (map Variante (TuningApp.all_results st))
      /\ forall r, In r (TuningApp.all_results st) ->
           block py_lt (column_key "Variante") (TuningApp.all_results st')
             (column_key "Variante" r)
           = block py_lt (column_key "Variante") (TuningApp.all_results st)
               (column_key "Variante" r))
  /\ (forall columna st',
         In columna ["Método"; "Modo"; "Ms/Criterio"] ->
         TuningApp.on_data_table_header_selected columna st = Ok st' ->
         TuningApp.current_sort st' = (columna, true)).
Proof.
  intros Hrun.
  assert (Hreach : reachable libm argv st) by (apply reach_run; exact Hrun).
  assert (Hcat := reachable_in_catalog libm argv st Hreach).
  destruct (run_state libm argv st Hrun) as (Hsort & _ & Hrows).
  split.
  - intros st' Hclick.
    destruct (click_blocks "Variante" st st' ltac:(simpl; tauto) Hcat Hclick)
      as [Hs Hr].
    rewrite Hsort in Hs, Hr.
    cbn [fst snd String.eqb Ascii.eqb Bool.eqb andb negb] in Hs, Hr.
    split; [exact Hs|].
    assert (Hinit := initial_table_by_variant _ _ _ _ _ _ Hrows).
    set (key := column_key "Variante") in *.
    set (KS := column_values "Variante") in *.
    assert (Hinc : increasing py_lt KS)
      by (apply column_values_increasing; simpl; tauto).
    assert (Hkeys : forall x, In x (TuningApp.all_results st) -> In (key x) KS).
    { intros x Hx. apply in_catalog_key; [simpl; tauto|].
      rewrite Forall_forall in Hcat. auto. }
    destruct (regroup_reversed row pyval py_lt key KS Hinc
                (TuningApp.all_results st) Hkeys KS
                (increasing_NoDup _ py_lt KS Hinc) (fun z Hz => Hz))
      as (_ & Hmap & Hblocks).
    cbv zeta in Hmap, Hblocks.
    rewrite <- Hinit in Hmap, Hblocks. rewrite <- Hr in Hmap, Hblocks.
    split.
    + apply (f_equal (map (fun v => match v with
                                    | VStr s => s
                                    | VFloat _ => EmptyString
                                    end))) in Hmap.
      rewrite map_rev, !map_map in Hmap. exact Hmap.
    + intros r Hin. apply Hblocks. apply Hkeys. exact Hin.
  - intros columna st' Hcol Hclick.
    assert (Hs : In columna TuningApp.sortable) by (simpl in *; tauto).
    destruct (click_blocks columna st st' Hs Hcat Hclick) as [Hs' _].
    rewrite Hs', Hsort. cbn [fst snd].
    simpl in Hcol. destruct Hcol as [<-|[<-|[<-|[]]]]; reflexivity.
Qed.

Lemma first_click_on_variante_witness :
  exists st st',
    TuningApp.run PyFloat.pow_series ["tableTuning.py"; "2.0"; "5.0"; "0.5"; "0.3"]
    = Ok st
    /\ TuningApp.on_data_table_header_selected "Variante" st = Ok st'
    /\ TuningApp.current_sort st' = ("Variante", false)
    /\ map Variante (TuningApp.all_results st')
       = rev (map Variante (TuningApp.all_results st)).
Proof.
  set (argv := ["tableTuning.py"; "2.0"; "5.0"; "0.5"; "0.3"]).
  destruct (TuningApp.run PyFloat.pow_series argv) as [st|e] eqn:Hrun;
    [|vm_compute in Hrun; discriminate Hrun].
  destruct (TuningApp.on_data_table_header_selected "Variante" st)
    as [st'|e] eqn:Hclick;
    [|vm_compute in Hrun; injection Hrun as <-;
      vm_compute in Hclick; discriminate Hclick].
  destruct (first_click_on_variante PyFloat.pow_series argv st Hrun) as [H _].
  destruct (H st' Hclick) as (Hs & Hmap & _).
  exists st, st'. auto.
Defined.

Lemma clicks_keep_the_rows_witness :
  exists st st1 st2,
    TuningApp.run PyFloat.pow_series ["tableTuning.py"; "2.0"; "5.0"; "0.5"; "0.3"]
    = Ok st
    /\ TuningApp.on_data_table_header_selected "Modo" st = Ok st1
    /\ TuningApp.on_data_table_header_selected "Ms/Criterio" st1 = Ok st2
    /\ Permutation (TuningApp.all_results st2) (TuningApp.all_results st)
    /\ length (TuningApp.all_results st2) = 33%nat.
Proof.
  set (argv := ["tableTuning.py"; "2.0"; "5.0"; "0.5"; "0.3"]).
  destruct (TuningApp.run PyFloat.pow_series argv) as [st|e] eqn:Hrun;
    [|vm_compute in Hrun; discriminate Hrun].
  destruct (TuningApp.on_data_table_header_selected "Modo" st)
    as [st1|e] eqn:H1;
    [|vm_compute in Hrun; injection Hrun as <-; vm_compute in H1; discriminate H1].
  destruct (TuningApp.on_data_table_header_selected "Ms/Criterio" st1)
    as [st2|e] eqn:H2;
    [|vm_compute in Hrun; injection Hrun as <-;
      vm_compute in H1; injection H1 as <-; vm_compute in H2; discriminate H2].
  destruct (clicks_keep_the_rows PyFloat.pow_series argv st2
              ltac:(eapply reach_click; [eapply reach_click;
                                          [apply reach_run; exact Hrun|exact H1]
                                        |exact H2]))
    as (st0 & Hrun0 & Hperm & Hlen & _).
  rewrite Hrun in Hrun0. injection Hrun0 as <-.
  exists st, st1, st2. auto.
Defined.

Lemma third_click_repeats_first_witness :
  exists st st1 st2 st3,
    TuningApp.run PyFloat.pow_series ["tableTuning.py"; "2.0"; "5.0"; "0.5"; "0.3"]
    = Ok st
    /\ TuningApp.on_data_table_header_selected "Modo" st = Ok st1
    /\ TuningApp.on_data_table_header_selected "Modo" st1 = Ok st2
    /\ TuningApp.on_data_table_header_selected "Modo" st2 = Ok st3
    /\ st3 = st1.
Proof.
  set (argv := ["tableTuning.py"; "2.0"; "5.0"; "0.5"; "0.3"]).
  destruct (TuningApp.run PyFloat.pow_series argv) as [st|e] eqn:Hrun;
    [|vm_compute in Hrun; discriminate Hrun].
  destruct (TuningApp.on_data_table_header_selected "Modo" st)
    as [st1|e] eqn:H1;
    [|vm_compute in Hrun; injection Hrun as <-; vm_compute in H1; discriminate H1].
  destruct (TuningApp.on_data_table_header_selected "Modo" st1)
    as [st2|e] eqn:H2;
    [|vm_compute in Hrun; injection Hrun as <-;
      vm_compute in H1; injection H1 as <-; vm_compute in H2; discriminate H2].
  destruct (TuningApp.on_data_table_header_selected "Modo" st2)
    as [st3|e] eqn:H3;
    [|vm_compute in Hrun; injection Hrun as <-;
      vm_compute in H1; injection H1 as <-;
      vm_compute in H2; injection H2 as <-; vm_compute in H3; discriminate H3].
  exists st, st1, st2, st3.
  repeat (split; [first [reflexivity | assumption]|]).
  exact (third_click_repeats_first PyFloat.pow_series argv st "Modo" st1 st2 st3
           ltac:(apply reach_run; exact Hrun) ltac:(simpl; tauto) H1 H2 H3).
Defined.

(** ** What the rules put in the rows *)

Lemma table_rows libm K T a tau0 rs :
  all_loops libm K T a tau0 = Ok rs
  \/ construir_y_ordenar_resultados libm K T a tau0 = Ok rs ->
  (map labels rs = loop_labels \/ map labels rs = initial_labels)
  /\ Forall (row_shape T) rs.
Proof.
  intros [H|H].
  - destruct (all_loops_rows _ _ _ _ _ _ H). auto.
  - destruct (construir_rows _ _ _ _ _ _ H). auto.
Qed.

(** Counting the rows that pass a test on the text columns. *)
Lemma count_by_labels (p : string * string * string * string -> bool)
      (q : row -> bool) (l : list row) :
  (forall r, q r = p (labels r)) ->
  length (filter q l) = length (filter p (map labels l)).
Proof.
  intros Hq. rewrite filter_map_swap, length_map.
  rewrite (filter_ext q (fun r => p (labels r)) Hq). reflexivity.
Qed.

Lemma forall_by_labels (P : string * string * string * string -> Prop) (l : list row) :
  Forall P (map labels l) -> Forall (fun r => P (labels r)) l.
Proof.
  rewrite !Forall_forall. intros H r Hr. apply H. apply in_map. exact Hr.
Qed.

(** X4.  Whenever the rows are built, in the order of the loops or
    sorted, β is a number on the rows of the method uSORT2, of which there
    are 8, and the text ["-"] on every other row. *)
Theorem beta_only_on_usort2 libm K T a tau0 rs :
  all_loops libm K T a tau0 = Ok rs
  \/ construir_y_ordenar_resultados libm K T a tau0 = Ok rs ->
  Forall (fun r => if String.eqb (Método r) "uSORT2"
                   then exists x, β r = VFloat x
                   else β r = VStr "-") rs
  /\ count_method "uSORT2" rs = 8%nat.
Proof.
  intros H. destruct (table_rows _ _ _ _ _ _ H) as [Hlab Hshape]. split.
  - eapply Forall_impl; [|exact Hshape]. intros r (Hb & _). exact Hb.
  - unfold count_method.
    rewrite (count_by_labels (fun l => String.eqb (snd (fst (fst l))) "uSORT2") _ rs)
      by reflexivity.
    destruct Hlab as [-> | ->]; reflexivity.
Qed.

Lemma beta_only_on_usort2_witness :
  exists rs,
    construir_y_ordenar_resultados PyFloat.pow_series 2 5 0.5 0.3 = Ok rs
    /\ count_method "uSORT2" rs = 8%nat.
Proof.
  destruct (construir_y_ordenar_resultados PyFloat.pow_series 2 5 0.5 0.3)
    as [rs|e] eqn:E; [|vm_compute in E; discriminate E].
  exists rs. split; [reflexivity|].
  exact (proj2 (beta_only_on_usort2 PyFloat.pow_series 2 5 0.5 0.3 rs (or_intror E))).
Defined.

(** X5.  Whenever the rows are built, the rows whose variant starts with
    ["P ("] are three rows of López et al. in mode Regulador, and each has
    Ti = 0.0, Td = 0.0 and β = ["-"]: a proportional controller gets a gain
    and nothing else. *)
Theorem proportional_rows libm K T a tau0 rs :
  all_loops libm K T a tau0 = Ok rs
  \/ construir_y_ordenar_resultados libm K T a tau0 = Ok rs ->
  Forall (fun r => String.prefix "P (" (Variante r) = true ->
                   Método r = "López et al." /\ Modo r = "Regulador"
                   /\ Ti r = 0 /\ Td r = 0 /\ β r = VStr "-") rs
  /\ length (filter (fun r => String.prefix "P (" (Variante r)) rs) = 3%nat.
Proof.
  intros H. destruct (table_rows _ _ _ _ _ _ H) as [Hlab Hshape]. split.
  - assert (Hm : Forall (fun r => String.prefix "P (" (fst (fst (fst (labels r)))) = true ->
                                  snd (fst (fst (labels r))) = "López et al."
                                  /\ snd (fst (labels r)) = "Regulador") rs).
    { apply (forall_by_labels
               (fun l => String.prefix "P (" (fst (fst (fst l))) = true ->
                         snd (fst (fst l)) = "López et al."
                         /\ snd (fst l) = "Regulador")).
      destruct Hlab as [-> | ->];
        repeat (apply Forall_cons;
                [cbn [fst snd];
                 first [ intros _; split; reflexivity
                       | intros Hf; vm_compute in Hf; discriminate Hf ]|]);
        apply Forall_nil. }
    rewrite Forall_forall in *. intros r Hr Hp.
    destruct (Hm r Hr Hp) as [HM HMo].
    destruct (Hshape r Hr) as (_ & HP & _). destruct (HP Hp) as (Hti & Htd & Hb).
    cbn [labels fst snd] in HM, HMo. auto.
  - rewrite (count_by_labels (fun l => String.prefix "P (" (fst (fst (fst l)))) _ rs)
      by reflexivity.
    destruct Hlab as [-> | ->]; reflexivity.
Qed.

Lemma proportional_rows_witness :
  exists rs,
    construir_y_ordenar_resultados PyFloat.pow_series 2 5 0.5 0.3 = Ok rs
    /\ length (filter (fun r => String.prefix "P (" (Variante r)) rs) = 3%nat.
Proof.
  destruct (construir_y_ordenar_resultados PyFloat.pow_series 2 5 0.5 0.3)
    as [rs|e] eqn:E; [|vm_compute in E; discriminate E].
  exists rs. split; [reflexivity|].
  exact (proj2 (proportional_rows PyFloat.pow_series 2 5 0.5 0.3 rs (or_intror E))).
Defined.

(** ** The two tables of [torfin.py] *)

Lemma main_tables libm argv results_pi results_pid :
  main libm argv = Ok (results_pi, results_pid) ->
  exists K T a tau0 rows,
    parse_args argv = Ok (K, T, a, tau0)
    /\ all_loops libm K T a tau0 = Ok rows
    /\ results_pi = filter (fun r => negb (is_pid_of (labels r))) rows
    /\ results_pid = filter (fun r => is_pid_of (labels r)) rows.
Proof.
  unfold main. intros H.
  destruct (parse_args argv) as [[[[K T] a] tau0]|]; [|discriminate H].
  cbn [rbind] in H.
  destruct (all_loops libm K T a tau0) as [rows|] eqn:E; [|discriminate H].
  cbn [rbind] in H. injection H as <- <-.
  exists K, T, a, tau0, rows. auto.
Qed.

Lemma main_labels libm argv results_pi results_pid :
  main libm argv = Ok (results_pi, results_pid) ->
  map labels results_pi = filter (fun l => negb (is_pid_of l)) loop_labels
  /\ map labels results_pid = filter is_pid_of loop_labels.
Proof.
  intros H.
  destruct (main_tables _ _ _ _ H) as (K & T & a & tau0 & rows & _ & E & -> & ->).
  destruct (all_loops_rows _ _ _ _ _ _ E) as [Hlab _].
  split; rewrite <- Hlab, filter_map_swap; reflexivity.
Qed.

(** X17.  When [torfin.main] returns, the table of PI (and P) controllers
    has 20 rows and the table of PID controllers 13; the PID table holds the
    rows whose variant starts with ["PID"] and the other table the rest, each
    in the order of the loops. *)
Theorem torfin_split libm argv results_pi results_pid :
  main libm argv = Ok (results_pi, results_pid) ->
  length results_pi = 20%nat /\ length results_pid = 13%nat
  /\ Forall (fun r => String.prefix "PID" (Variante r) = false) results_pi
  /\ Forall (fun r => String.prefix "PID" (Variante r) = true) results_pid
  /\ map labels results_pi = filter (fun l => negb (is_pid_of l)) loop_labels
  /\ map labels results_pid = filter is_pid_of loop_labels.
Proof.
  intros H. destruct (main_labels _ _ _ _ H) as [Hpi Hpid].
  split; [rewrite <- (length_map labels), Hpi; reflexivity|].
  split; [rewrite <- (length_map labels), Hpid; reflexivity|].
  split; [|split; [|split; assumption]].
  - apply (forall_by_labels (fun l => String.prefix "PID" (fst (fst (fst l))) = false)).
    rewrite Hpi. vm_compute filter.
    repeat (apply Forall_cons; [reflexivity|]). apply Forall_nil.
  - apply (forall_by_labels (fun l => String.prefix "PID" (fst (fst (fst l))) = true)).
    rewrite Hpid. vm_compute filter.
    repeat (apply Forall_cons; [reflexivity|]). apply Forall_nil.
Qed.

Lemma torfin_split_witness :
  exists results_pi results_pid,
    main PyFloat.pow_series ["torfin.py"; "2.0"; "5.0"; "0.5"; "0.3"]
    = Ok (results_pi, results_pid)
    /\ length results_pi = 20%nat /\ length results_pid = 13%nat.
Proof.
  destruct (main PyFloat.pow_series ["torfin.py"; "2.0"; "5.0"; "0.5"; "0.3"])
    as [[results_pi results_pid]|e] eqn:E; [|vm_compute in E; discriminate E].
  exists results_pi, results_pid. split; [reflexivity|].
  destruct (torfin_split _ _ _ _ E) as (H1 & H2 & _). auto.
Defined.

(** X6.  On a valid input with a finite time constant, every row whose
    variant does not contain ["PID"] has Td = 0.0 exactly; so has every row
    of the table [torfin.main] hands to [display_pi_table], which prints no
    Td column. *)
Theorem pi_rows_have_no_derivative libm K T a tau0 :
  valid_input K T a tau0 ->
  is_finite T = true ->
  (forall rs,
      all_loops libm K T a tau0 = Ok rs
      \/ construir_y_ordenar_resultados libm K T a tau0 = Ok rs ->
      Forall (fun r => str_contains "PID" (Variante r) = false -> Td r = 0) rs)
  /\ (forall argv results_pi results_pid,
         parse_args argv = Ok (K, T, a, tau0) ->
         main libm argv = Ok (results_pi, results_pid) ->
         Forall (fun r => Td r = 0) results_pi).
Proof.
  intros (_ & HT & _) Hfin.
  assert (Hzero := mul_zero_finite T HT Hfin).
  assert (Hrows : forall rs,
             all_loops libm K T a tau0 = Ok rs
             \/ construir_y_ordenar_resultados libm K T a tau0 = Ok rs ->
             Forall (fun r => str_contains "PID" (Variante r) = false -> Td r = 0) rs).
  { intros rs H. destruct (table_rows _ _ _ _ _ _ H) as [_ Hshape].
    eapply Forall_impl; [|exact Hshape].
    intros r (_ & _ & Hpi) Hc. destruct (Hpi Hc) as [Hd|Hd]; congruence. }
  split; [exact Hrows|].
  intros argv results_pi results_pid Hargs H.
  destruct (main_tables _ _ _ _ H) as (K' & T' & a' & tau0' & rows & Hargs' & E & -> & _).
  rewrite Hargs in Hargs'. injection Hargs' as <- <- <- <-.
  destruct (all_loops_rows _ _ _ _ _ _ E) as [_ Hshape].
  rewrite Forall_forall in *. intros r Hr.
  apply filter_In in Hr. destruct Hr as [Hr Hp].
  destruct (Hshape r Hr) as (_ & HP & Hpi).
  unfold is_pid_of, labels in Hp.
  destruct (str_contains "PID" (Variante r)) eqn:Hc.
  - destruct (String.prefix "P (" (Variante r)) eqn:Hpre; [|discriminate Hp].
    destruct (HP eq_refl) as (_ & Htd & _). exact Htd.
  - destruct (Hpi eq_refl) as [Hd|Hd]; congruence.
Qed.

Lemma pi_rows_have_no_derivative_witness :
  valid_input 2 5 0.5 0.3 /\ is_finite 5 = true
  /\ exists results_pi results_pid,
      main PyFloat.pow_series ["torfin.py"; "2.0"; "5.0"; "0.5"; "0.3"]
      = Ok (results_pi, results_pid)
      /\ Forall (fun r => Td r = 0) results_pi.
Proof.
  assert (Hv : valid_input 2 5 0.5 0.3) by (repeat split; reflexivity).
  assert (Hf : is_finite 5 = true) by reflexivity.
  split; [exact Hv|]. split; [exact Hf|].
  destruct (main PyFloat.pow_series ["torfin.py"; "2.0"; "5.0"; "0.5"; "0.3"])
    as [[results_pi results_pid]|e] eqn:E; [|vm_compute in E; discriminate E].
  exists results_pi, results_pid. split; [reflexivity|].
  exact (proj2 (pi_rows_have_no_derivative PyFloat.pow_series 2 5 0.5 0.3 Hv Hf)
           ["torfin.py"; "2.0"; "5.0"; "0.5"; "0.3"] results_pi results_pid
           ltac:(vm_compute; reflexivity) E).
Defined.

(** ** What [torfin.py] prints *)

Lemma sorted_of_map {A B} (f : A -> B) (P : B -> B -> Prop) (l : list A) :
  StronglySorted (fun x y => P (f x) (f y)) l -> StronglySorted P (map f l).
Proof.
  induction 1 as [|x l Hs IH Hx]; cbn [map]; constructor; [exact IH|].
  rewrite Forall_forall in *. intros y Hy. apply in_map_iff in Hy.
  destruct Hy as (z & <- & Hz). auto.
Qed.

(** The rows of a printed table, sorted: their text columns are those of
    the sort run on the rows without numbers. *)
Lemma printed_labels (results sorted : list row) (ls : list (string * string * string * string)) :
  map labels results = ls ->
  list_sort pair_lt (fun x => Ok (Modo x, Método x)) true results = Ok sorted ->
  exists s',
    list_sort pair_lt (fun x => Ok (printed_key_of (labels x))) true (map of_labels ls)
    = Ok s'
    /\ map labels sorted = map labels s'.
Proof.
  intros <- H. exact (list_sort_labels pair_lt printed_key_of true results sorted H).
Qed.

(** The lines of a printed table in descending order of (Modo, Método). *)
Ltac lines_descending Hl :=
  apply sorted_of_map;
  apply (sorted_map labels
           (fun l l' => pair_lt (printed_key_of l) (printed_key_of l') = false));
  rewrite Hl;
  repeat (apply SSorted_cons;
          [|repeat (apply Forall_cons; [vm_compute; reflexivity|]);
            apply Forall_nil]);
  apply SSorted_nil.

(** X18.  In both tables [torfin.py] prints, every line has one cell
    for each header, and the lines are in descending order of the cells
    under Modo and then Método: the Servo lines come first (8 of 20 in the PI
    table, 6 of 13 in the PID table), then the Regulador lines, and within a
    mode the methods go down the alphabet. *)
Theorem printed_tables_order libm argv printed_pi printed_pid :
  main_printed libm argv = Ok (printed_pi, printed_pid) ->
  let descending headers (l1 l2 : list string) :=
    pair_lt (cell headers "Modo" l1, cell headers "Método" l1)
            (cell headers "Modo" l2, cell headers "Método" l2) = false in
  (length (snd printed_pi) = 20%nat /\ length (snd printed_pid) = 13%nat)
  /\ (Forall (fun line => length line = length (fst printed_pi)) (snd printed_pi)
      /\ Forall (fun line => length line = length (fst printed_pid)) (snd printed_pid))
  /\ (StronglySorted (descending (fst printed_pi)) (snd printed_pi)
      /\ StronglySorted (descending (fst printed_pid)) (snd printed_pid))
  /\ (map (cell (fst printed_pi) "Modo") (snd printed_pi)
      = repeat "Servo" 8 ++ repeat "Regulador" 12
      /\ map (cell (fst printed_pid) "Modo") (snd printed_pid)
         = repeat "Servo" 6 ++ repeat "Regulador" 7).
Proof.
  intros H descending. unfold main_printed in H.
  destruct (main libm argv) as [[results_pi results_pid]|] eqn:Hm; [|discriminate H].
  cbn [rbind] in H.
  destruct (main_labels _ _ _ _ Hm) as [Hpi Hpid].
  unfold display_pi_table, display_pid_table in H.
  destruct (list_sort pair_lt (fun x => Ok (Modo x, Método x)) true results_pi)
    as [sorted_pi|] eqn:S1; [|discriminate H].
  cbn [rbind] in H.
  destruct (list_sort pair_lt (fun x => Ok (Modo x, Método x)) true results_pid)
    as [sorted_pid|] eqn:S2; [|discriminate H].
  cbn [rbind] in H. injection H as <- <-. cbn [fst snd].
  destruct (printed_labels _ _ _ Hpi S1) as (s1 & Hs1 & Hl1).
  destruct (printed_labels _ _ _ Hpid S2) as (s2 & Hs2 & Hl2).
  vm_compute in Hs1. injection Hs1 as <-.
  vm_compute in Hs2. injection Hs2 as <-.
  cbn [map labels Variante Método Modo Ms_Criterio] in Hl1, Hl2.
  split; [split; rewrite length_map, <- (length_map labels);
          [rewrite Hl1|rewrite Hl2]; reflexivity|].
  split; [split; apply Forall_forall; intros line Hline;
          apply in_map_iff in Hline; destruct Hline as (r & <- & _); reflexivity|].
  split; [split; [lines_descending Hl1|lines_descending Hl2]|].
  split; rewrite map_map.
  - change (map (fun r => (fun l => snd (fst l)) (labels r)) sorted_pi
            = repeat "Servo" 8 ++ repeat "Regulador" 12).
    rewrite <- (map_map labels (fun l => snd (fst l))), Hl1. reflexivity.
  - change (map (fun r => (fun l => snd (fst l)) (labels r)) sorted_pid
            = repeat "Servo" 6 ++ repeat "Regulador" 7).
    rewrite <- (map_map labels (fun l => snd (fst l))), Hl2. reflexivity.
Qed.

Lemma printed_tables_order_witness :
  exists printed_pi printed_pid,
    main_printed PyFloat.pow_series ["torfin.py"; "2.0"; "5.0"; "0.5"; "0.3"]
    = Ok (printed_pi, printed_pid)
    /\ length (snd printed_pi) = 20%nat /\ length (snd printed_pid) = 13%nat.
Proof.
  destruct (main_printed PyFloat.pow_series ["torfin.py"; "2.0"; "5.0"; "0.5"; "0.3"])
    as [[printed_pi printed_pid]|e] eqn:E; [|vm_compute in E; discriminate E].
  exists printed_pi, printed_pid. split; [reflexivity|].
  exact (proj1 (printed_tables_order _ _ _ _ E)).
Defined.

(** ** What the interactive table shows *)

Lemma app_dot_nonempty (x y : string) : (x ++ String "." y)%string <> EmptyString.
Proof. destruct x; discriminate. Qed.

(** A number with four decimals never reads ["-"]. *)
Lemma format_4f_not_dash x : PyFloat.format_4f x <> "-".
Proof.
  unfold PyFloat.format_4f.
  destruct (Prim2SF x) as [s|s| |s m e];
    [destruct s; discriminate|destruct s; discriminate|discriminate|].
  set (u := if (0 <=? e)%Z then _ else _).
  destruct s; cbn [String.append].
  - intros [= H]. revert H. apply app_dot_nonempty.
  - destruct (PyFloat.string_of_nonneg (u / 10000)) as [|c rest]; cbn [String.append].
    + discriminate.
    + intros [= _ H]. revert H. apply app_dot_nonempty.
Qed.

Lemma reachable_shape libm argv st :
  reachable libm argv st -> Forall (row_shape (TuningApp.T st)) (TuningApp.all_results st).
Proof.
  intros Hreach.
  destruct (reachable_rows libm argv st Hreach)
    as (st0 & Hrun & Hperm & _ & HT & _).
  destruct (run_state libm argv st0 Hrun) as (_ & _ & Hrows).
  eapply Permutation_Forall; [symmetry; exact Hperm|].
  rewrite HT. eapply construir_rows. exact Hrows.
Qed.

(** X16.  In every state of the interactive table, each line
    [_popular_tabla] shows has one cell for each column [compose] declares,
    and the cell under β reads ["-"] exactly on the lines whose cell under
    Método is not uSORT2; a number with four decimals never reads ["-"]. *)
Theorem beta_cell_reads_dash libm argv st :
  reachable libm argv st ->
  Forall (fun line =>
            length line = length TuningApp.compose
            /\ (cell TuningApp.compose "β" line = "-"
                <-> cell TuningApp.compose "Método" line <> "uSORT2"))
         (TuningApp._popular_tabla st).
Proof.
  intros Hreach. assert (Hshape := reachable_shape libm argv st Hreach).
  unfold TuningApp._popular_tabla. rewrite Forall_forall in *.
  intros line Hline. apply in_map_iff in Hline. destruct Hline as (r & <- & Hr).
  split; [reflexivity|].
  change (match β r with
          | VStr s => s
          | VFloat b => PyFloat.format_4f b
          end = "-" <-> Método r <> "uSORT2").
  destruct (Hshape r Hr) as (Hb & _).
  destruct (String.eqb (Método r) "uSORT2") eqn:E.
  - apply String.eqb_eq in E. destruct Hb as (x & ->). split.
    + intros H. exfalso. exact (format_4f_not_dash x H).
    + intros H. contradiction.
  - apply String.eqb_neq in E. rewrite Hb. split; auto.
Qed.

Lemma beta_cell_reads_dash_witness :
  exists st,
    TuningApp.run PyFloat.pow_series ["tableTuning.py"; "2.0"; "5.0"; "0.5"; "0.3"]
    = Ok st
    /\ Forall (fun line =>
                 length line = length TuningApp.compose
                 /\ (cell TuningApp.compose "β" line = "-"
                     <-> cell TuningApp.compose "Método" line <> "uSORT2"))
              (TuningApp._popular_tabla st).
Proof.
  set (argv := ["tableTuning.py"; "2.0"; "5.0"; "0.5"; "0.3"]).
  destruct (TuningApp.run PyFloat.pow_series argv) as [st|e] eqn:Hrun;
    [|vm_compute in Hrun; discriminate Hrun].
  exists st. split; [reflexivity|].
  exact (beta_cell_reads_dash PyFloat.pow_series argv st
           ltac:(apply reach_run; exact Hrun)).
Defined.

(** ** The ratio of time constants *)

(** The uSORT rules take [a] and do not use it. *)
Lemma usort_loop_ignores_ratio libm K T a a' tau0 :
  usort_loop libm K T a' tau0 = usort_loop libm K T a tau0.
Proof. reflexivity. Qed.

Lemma all_loops_ratio libm K T a a' tau0 rows rows' :
  all_loops libm K T a tau0 = Ok rows ->
  all_loops libm K T a' tau0 = Ok rows' ->
  Forall2 same_unless_mendez rows rows'.
Proof.
  intros H H'.
  unfold all_loops in H, H'.
  rewrite (usort_loop_ignores_ratio libm K T a a' tau0) in H'.
  unfold usort_loop, mendez_loop, lopez_loop, rovira_loop in H, H'.
  unroll_loops_in H. unroll_loops_in H'.
  repeat (step_in H; try discriminate H).
  repeat (step_in H'; try discriminate H').
  injection H as <-. injection H' as <-.
  repeat match goal with
         | E : Ok _ = Ok (_, _, _, _) |- _ => injection E as <- <- <- <-
         end.
  repeat (apply Forall2_cons;
          [split; [reflexivity|];
           first [ intros _; reflexivity
                 | intros Hm; exfalso; apply Hm; reflexivity ]|]).
  apply Forall2_nil.
Qed.

(** X9.  When the evaluation returns for two values of the ratio [a], all
    else equal, the two tables have the same text columns row by row, and
    every row that is not one of the 4 rows of Méndez & Rímolo is the same in
    both: the uSORT rules take [a] and do not use it, the rules of López et
    al. and of Rovira et al. do not take it. *)
Theorem ratio_only_in_mendez libm K T a a' tau0 rs rs' :
  construir_y_ordenar_resultados libm K T a tau0 = Ok rs ->
  construir_y_ordenar_resultados libm K T a' tau0 = Ok rs' ->
  Forall2 same_unless_mendez rs rs'
  /\ count_method "Méndez & Rímolo" rs = 4%nat.
Proof.
  intros H H'. split.
  - unfold construir_y_ordenar_resultados in H, H'.
    destruct (all_loops libm K T a tau0) as [rows|] eqn:E; [|discriminate H].
    destruct (all_loops libm K T a' tau0) as [rows'|] eqn:E'; [|discriminate H'].
    cbn [rbind] in H, H'.
    destruct (list_sort_related same_unless_mendez tuple_lt
                (fun x => (Variante x, Método x, Modo x, ms_a_float (Ms_Criterio x)))
                false rows rows' rs) as (s' & Hs' & Hrel).
    + intros x x' (Hlab & _). unfold labels in Hlab.
      injection Hlab as -> -> -> ->. reflexivity.
    + eapply all_loops_ratio; eassumption.
    + exact H.
    + rewrite H' in Hs'. injection Hs' as <-. exact Hrel.
  - unfold count_method.
    rewrite (count_by_labels
               (fun l => String.eqb (snd (fst (fst l))) "Méndez & Rímolo") _ rs)
      by reflexivity.
    rewrite (construir_labels _ _ _ _ _ _ H). reflexivity.
Qed.

Lemma ratio_only_in_mendez_witness :
  exists rs rs',
    construir_y_ordenar_resultados PyFloat.pow_series 2 5 0.5 0.3 = Ok rs
    /\ construir_y_ordenar_resultados PyFloat.pow_series 2 5 0.25 0.3 = Ok rs'
    /\ Forall2 same_unless_mendez rs rs'.
Proof.
  destruct (construir_y_ordenar_resultados PyFloat.pow_series 2 5 0.5 0.3)
    as [rs|e] eqn:E; [|vm_compute in E; discriminate E].
  destruct (construir_y_ordenar_resultados PyFloat.pow_series 2 5 0.25 0.3)
    as [rs'|e] eqn:E'; [|vm_compute in E'; discriminate E'].
  exists rs, rs'. split; [reflexivity|]. split; [reflexivity|].
  exact (proj1 (ratio_only_in_mendez PyFloat.pow_series 2 5 0.5 0.25 0.3 rs rs' E E')).
Defined.
